(** * Normalization pipeline of the market-data ETL: model and properties

    The development embeds the pure core of [Financilas.py], [Summary.py]
    and [details.py]: the statement normalizer, the profile normalizer, the
    payload decoder, the schema repair and the JSON sanitizer.

    Conventions of the embedding.
    - A Python [str] is a [string]; one [ascii] stands for one code point
      below 256.  Character classes (whitespace, digits, word characters)
      are the ones CPython uses for those code points.
    - A value decoded from JSON is a [json]; Python's [None] is [JNull],
      and a missing dictionary key read through [.get] is [JNull] as well.
    - A dictionary is an association list in insertion order.
    - Code that can raise returns a [result]; a [try/except] is a match on
      it.
    - Functions of the Python standard library that the sources call and
      that have no finite description here ([json.loads], the
      [unicode_escape] codec, UTF-8 decoding, [datetime.fromisoformat])
      are the methods of the class [Runtime]; every general theorem holds
      for every instance. *)

From Stdlib Require Import ZArith List String Ascii Bool Lia.
From Stdlib Require Import SpecFloat.
Import ListNotations.
Set Warnings "-register-all".

Local Open Scope string_scope.
Local Open Scope list_scope.
Local Open Scope Z_scope.

(** ** Exceptions and the error monad *)

Inductive exn :=
| AttributeError
| ValueError
| TypeError
| IndexError
| ZeroDivisionError
| DatabaseError (errno : Z)
| OtherError (name : string).

Inductive result (A : Type) :=
| Ok (a : A)
| Raise (e : exn).
Arguments Ok {A} a.
Arguments Raise {A} e.

Definition bind {A B : Type} (c : result A) (k : A -> result B) : result B :=
  match c with
  | Ok a => k a
  | Raise e => Raise e
  end.

Notation "x <- c ;; k" := (bind c (fun x => k))
  (at level 61, c at next level, right associativity).

(** The body of a [for] loop that appends to one output list: the rows of
    every element in order, or the first exception. *)
Fixpoint for_each {A B : Type} (body : A -> result (list B)) (l : list A)
  : result (list B) :=
  match l with
  | [] => Ok []
  | a :: rest =>
      rows <- body a ;;
      more <- for_each body rest ;;
      Ok (rows ++ more)
  end.

(** The only exception the computation [c] can end in is
    [AttributeError]. *)
Definition raises_attribute_error {A : Type} (c : result A) : Prop :=
  forall e, c = Raise e -> e = AttributeError.

(** ** Python strings *)

Module PyStr.

Definition ord (c : ascii) : Z := Z.of_N (N_of_ascii c).

(** [str.isspace] on one character, which is also [\s] of [re] and what
    [str.strip] and [str.split] remove. *)
Definition isspace (c : ascii) : bool :=
  let n := ord c in
  ((9 <=? n) && (n <=? 13)) || ((28 <=? n) && (n <=? 32))
  || (n =? 133) || (n =? 160).

(** [\d] of [re]: the decimal digits. *)
Definition isdecimal (c : ascii) : bool :=
  let n := ord c in (48 <=? n) && (n <=? 57).

Definition digit_value (c : ascii) : Z := ord c - 48.

(** [\w] of [re]: alphanumeric characters and the underscore. *)
Definition isword (c : ascii) : bool :=
  let n := ord c in
  isdecimal c
  || ((65 <=? n) && (n <=? 90)) || ((97 <=? n) && (n <=? 122)) || (n =? 95)
  || (n =? 170) || (n =? 178) || (n =? 179) || (n =? 181) || (n =? 185)
  || (n =? 186) || ((188 <=? n) && (n <=? 190))
  || ((192 <=? n) && (n <=? 214)) || ((216 <=? n) && (n <=? 246))
  || ((248 <=? n) && (n <=? 255)).

(** Lower case of an ASCII letter, other characters unchanged: enough to
    compare a text with a lower-case ASCII pattern under [re.IGNORECASE]. *)
Definition lower (c : ascii) : ascii :=
  let n := ord c in
  if (65 <=? n) && (n <=? 90) then ascii_of_N (Z.to_N (n + 32)) else c.

Fixpoint len (s : string) : Z :=
  match s with
  | EmptyString => 0
  | String _ r => 1 + len r
  end.

(** The slice [s[:n]]. *)
Fixpoint take (n : Z) (s : string) : string :=
  match s with
  | EmptyString => EmptyString
  | String c r => if n <=? 0 then EmptyString else String c (take (n - 1) r)
  end.

Fixpoint lstrip_by (p : ascii -> bool) (s : string) : string :=
  match s with
  | EmptyString => EmptyString
  | String c r => if p c then lstrip_by p r else s
  end.

Fixpoint rstrip_by (p : ascii -> bool) (s : string) : string :=
  match s with
  | EmptyString => EmptyString
  | String c r =>
      match rstrip_by p r with
      | EmptyString => if p c then EmptyString else String c EmptyString
      | r' => String c r'
      end
  end.

(** [s.strip()] *)
Definition strip (s : string) : string := rstrip_by isspace (lstrip_by isspace s).

(** [s.strip(ch)] for a one-character argument. *)
Definition strip_char (ch : ascii) (s : string) : string :=
  rstrip_by (Ascii.eqb ch) (lstrip_by (Ascii.eqb ch) s).

(** The text starts with a whitespace character. *)
Definition starts_with_space (s : string) : bool :=
  match s with
  | String c _ => isspace c
  | EmptyString => false
  end.

(** [s.split()]: the maximal runs of characters that are not whitespace. *)
Fixpoint split (s : string) : list string :=
  match s with
  | EmptyString => []
  | String c r =>
      if isspace c then split r
      else
        match split r with
        | w :: ws =>
            if starts_with_space r then String c EmptyString :: w :: ws
            else String c w :: ws
        | [] => [String c EmptyString]
        end
  end.

(** [s.split()[0]]: the first token; [IndexError] when there is none. *)
Definition split_first (s : string) : result string :=
  match split s with
  | [] => Raise IndexError
  | token :: _ => Ok token
  end.

(** [s.split(sep)] for a one-character separator. *)
Fixpoint split_on (sep : ascii) (s : string) : list string :=
  match s with
  | EmptyString => [EmptyString]
  | String c r =>
      if Ascii.eqb c sep then EmptyString :: split_on sep r
      else match split_on sep r with
           | h :: t => String c h :: t
           | [] => [String c EmptyString]
           end
  end.

(** [sep.join(parts)] *)
Fixpoint join (sep : string) (parts : list string) : string :=
  match parts with
  | [] => EmptyString
  | [p] => p
  | p :: rest => (p ++ sep ++ join sep rest)%string
  end.

(** [re.compile(r"\s+").sub(" ", s)]: every maximal run of whitespace
    becomes one space.  [in_run] tells that the previous character was
    whitespace. *)
Fixpoint sub_ws (in_run : bool) (s : string) : string :=
  match s with
  | EmptyString => EmptyString
  | String c r =>
      if isspace c then
        if in_run then sub_ws true r else String " " (sub_ws true r)
      else String c (sub_ws false r)
  end.

(** [re.sub(r"[^\d]", "", s)] *)
Fixpoint only_digits (s : string) : string :=
  match s with
  | EmptyString => EmptyString
  | String c r => if isdecimal c then String c (only_digits r) else only_digits r
  end.

(** Value of a run of decimal digits, most significant first. *)
Fixpoint digits_value (acc : Z) (s : string) : Z :=
  match s with
  | EmptyString => acc
  | String c r => digits_value (10 * acc + digit_value c) r
  end.

(** [text] starts with [pat] when letters are compared without case;
    the result is the rest of [text].  [pat] is lower-case ASCII. *)
Fixpoint starts_with_nocase (pat text : string) : option string :=
  match pat, text with
  | EmptyString, _ => Some text
  | String p pr, String c r =>
      if Ascii.eqb p (lower c) then starts_with_nocase pr r else None
  | String _ _, EmptyString => None
  end.

End PyStr.

(** ** Floats

    A Python [float] is an IEEE binary64 value, here a [spec_float]. *)

Definition pyfloat := spec_float.

Definition isnan (f : pyfloat) : bool :=
  match f with S754_nan => true | _ => false end.

Definition isinf (f : pyfloat) : bool :=
  match f with S754_infinity _ => true | _ => false end.

(** [int(f)] for a finite [f]: truncation toward zero. *)
Definition int_of_float (f : pyfloat) : Z :=
  match f with
  | S754_finite s m e =>
      let a := if 0 <=? e then Z.shiftl (Zpos m) e else Z.shiftr (Zpos m) (- e) in
      if s then - a else a
  | _ => 0
  end.

(** ** Decoded JSON values *)

Inductive json :=
| JNull
| JBool (b : bool)
| JInt (n : Z)
| JFloat (f : pyfloat)
| JStr (s : string)
| JArr (items : list json)
| JObj (members : list (string * json)).

(** Python truthiness: what [not v], [v or w] and [if v] test. *)
Definition truthy (v : json) : bool :=
  match v with
  | JNull => false
  | JBool b => b
  | JInt n => negb (n =? 0)
  | JFloat (S754_zero _) => false
  | JFloat _ => true
  | JStr EmptyString => false
  | JStr _ => true
  | JArr [] => false
  | JArr _ => true
  | JObj [] => false
  | JObj _ => true
  end.

(** [a or b] when evaluating [b] cannot raise. *)
Definition py_or (a b : json) : json := if truthy a then a else b.

(** [a or b] when evaluating [b] can raise: [b] is evaluated only when [a]
    is falsy. *)
Definition or_else (a : json) (b : result json) : result json :=
  if truthy a then Ok a else b.

Fixpoint assoc (k : string) (members : list (string * json)) : option json :=
  match members with
  | [] => None
  | (k', v) :: rest => if String.eqb k k' then Some v else assoc k rest
  end.

(** [d.get(k, default)]; an object that is no dictionary has no [get]. *)
Definition get_default (d : json) (k : string) (default : json) : result json :=
  match d with
  | JObj members =>
      Ok (match assoc k members with Some v => v | None => default end)
  | _ => Raise AttributeError
  end.

(** [d.get(k)] *)
Definition get (d : json) (k : string) : result json := get_default d k JNull.

(** [d.items()] *)
Definition items (d : json) : result (list (string * json)) :=
  match d with
  | JObj members => Ok members
  | _ => Raise AttributeError
  end.

(** [isinstance(v, (dict, list))] *)
Definition is_dict_or_list (v : json) : bool :=
  match v with
  | JArr _ | JObj _ => true
  | _ => false
  end.

(** A Python dictionary holds each key once; [unique_keys v] says so of
    every dictionary inside [v]. *)
Fixpoint unique_keys (v : json) : Prop :=
  match v with
  | JArr l =>
      (fix all (l : list json) : Prop :=
         match l with
         | [] => True
         | x :: r => unique_keys x /\ all r
         end) l
  | JObj members =>
      NoDup (map fst members)
      /\ (fix all (l : list (string * json)) : Prop :=
            match l with
            | [] => True
            | kv :: r => unique_keys (snd kv) /\ all r
            end) members
  | _ => True
  end.

(** ** Calendar dates *)

Record date := mkdate { year : Z; month : Z; day : Z }.

Definition is_leap (y : Z) : bool :=
  ((y mod 4 =? 0) && negb (y mod 100 =? 0)) || (y mod 400 =? 0).

Definition days_in_month (y m : Z) : Z :=
  if m =? 2 then (if is_leap y then 29 else 28)
  else if (m =? 4) || (m =? 6) || (m =? 9) || (m =? 11) then 30
  else 31.

(** The dates the [datetime] constructor accepts. *)
Definition valid_date (d : date) : bool :=
  (1 <=? year d) && (year d <=? 9999)
  && (1 <=? month d) && (month d <=? 12)
  && (1 <=? day d) && (day d <=? days_in_month (year d) (month d)).

(** ** Library functions taken as an interface *)

Class Runtime := {
  (** [json.loads(s)]; [None] when it raises. *)
  json_loads : string -> option json;
  (** [s.encode('utf-8').decode('unicode_escape')]; [None] when it raises. *)
  unicode_escape : string -> option string;
  (** [b.decode("utf-8", errors="replace")], which never raises. *)
  decode_utf8 : list ascii -> string;
  (** [datetime.fromisoformat(s)], as the date it carries; [None] when it
      raises. *)
  fromisoformat : string -> option date;
  (** A [datetime] that was constructed is a calendar date. *)
  fromisoformat_valid :
    forall s d, fromisoformat s = Some d -> valid_date d = true
}.

(** ** Stored payloads: [parse_json_value]

    The same function stands in [Financilas.py] and in [Summary.py]. *)

(** What the database driver hands over for the payload column: a byte
    string, or any other value ([JStr] for text, [JNull] for NULL, [JObj]
    for a driver that decodes JSON itself). *)
Inductive column_value :=
| ColBytes (b : list ascii)
| ColValue (v : json).

Definition double_quote : ascii := "034"%char.

Section ParseJsonValue.
Context {R : Runtime}.

(** The [try] block taken when [j] is a [str]. *)
Definition loads_or_unescape (j : string) : json :=
  match json_loads j with
  | Some obj => obj
  | None =>
      match unicode_escape (PyStr.strip_char double_quote j) with
      | Some j' =>
          match json_loads j' with
          | Some obj => obj
          | None => JObj []
          end
      | None => JObj []
      end
  end.

(** The final block: a value that is no dictionary is decoded once more;
    [json.loads] raises [TypeError] on what is not text. *)
Definition dict_or_reload (obj : json) : json :=
  match obj with
  | JObj _ => obj
  | JStr s =>
      match json_loads s with
      | Some obj' => obj'
      | None => JObj []
      end
  | _ => JObj []
  end.

Definition parse_json_value (j : column_value) : json :=
  let j' := match j with
            | ColBytes b => JStr (decode_utf8 b)
            | ColValue v => v
            end in
  let obj := match j' with
             | JStr s => loads_or_unescape s
             | _ => j'
             end in
  dict_or_reload obj.

End ParseJsonValue.

(** ** [Financilas.py] *)

Module Financilas.

(** *** Dates of statement columns *)

Definition between (lo hi : ascii) (c : ascii) : bool :=
  (PyStr.ord lo <=? PyStr.ord c) && (PyStr.ord c <=? PyStr.ord hi).

Definition one (p : ascii -> bool) (s : string) : option (Z * string) :=
  match s with
  | String a r => if p a then Some (PyStr.digit_value a, r) else None
  | EmptyString => None
  end.

Definition two (p q : ascii -> bool) (s : string) : option (Z * string) :=
  match s with
  | String a (String b r) =>
      if p a && q b
      then Some (10 * PyStr.digit_value a + PyStr.digit_value b, r)
      else None
  | _ => None
  end.

Definition space_then (q : ascii -> bool) (s : string) : option (Z * string) :=
  match s with
  | String " " (String b r) => if q b then Some (PyStr.digit_value b, r) else None
  | _ => None
  end.

Definition orelse {A : Type} (x y : option A) : option A :=
  match x with
  | Some _ => x
  | None => y
  end.

(** [%Y]: [\d\d\d\d] *)
Definition read_year (s : string) : option (Z * string) :=
  match s with
  | String a (String b (String c (String d r))) =>
      if PyStr.isdecimal a && PyStr.isdecimal b && PyStr.isdecimal c && PyStr.isdecimal d
      then Some (PyStr.digits_value 0 (String a (String b (String c (String d EmptyString)))), r)
      else None
  | _ => None
  end.

(** [%m]: [1[0-2]|0[1-9]|[1-9]] *)
Definition read_month (s : string) : option (Z * string) :=
  orelse (two (between "1" "1") (between "0" "2") s)
 (orelse (two (between "0" "0") (between "1" "9") s)
         (one (between "1" "9") s)).

(** [%d]: [3[0-1]|[1-2]\d|0[1-9]|[1-9]| [1-9]] *)
Definition read_day (s : string) : option (Z * string) :=
  orelse (two (between "3" "3") (between "0" "1") s)
 (orelse (two (between "1" "2") PyStr.isdecimal s)
 (orelse (two (between "0" "0") (between "1" "9") s)
 (orelse (one (between "1" "9") s)
         (space_then (between "1" "9") s)))).

(** [datetime.strptime(s, "%Y-%m-%d")]; [None] for [ValueError]: the
    format must match all of [s] and name a calendar date. *)
Definition strptime_ymd (s : string) : option date :=
  match read_year s with
  | Some (y, String "-" r1) =>
      match read_month r1 with
      | Some (m, String "-" r2) =>
          match read_day r2 with
          | Some (d, EmptyString) =>
              if valid_date (mkdate y m d) then Some (mkdate y m d) else None
          | _ => None
          end
      | _ => None
      end
  | _ => None
  end.

Section Normalize.
Context {R : Runtime}.

(** The two nested [try] blocks of the date loop: [None] is [continue]. *)
Definition parse_date (dt_str : string) : option date :=
  match strptime_ymd (PyStr.take 10 dt_str) with
  | Some d => Some d
  | None =>
      match PyStr.split_first dt_str with
      | Ok token => fromisoformat token
      | Raise _ => None
      end
  end.

Definition quarter_from_date (d : date) : Z := (month d - 1) / 3 + 1.

(** *** Line items *)

Record line_item := mkitem {
  stock : json;
  yf_name : json;
  statement_type : string;
  metric : string;
  stockcurrency : json;
  financialcurrency : json;
  calendar_year : Z;
  period : Z;
  value : json;
  statement_date : date
}.

(** What every row of one call shares. *)
Record header := mkheader {
  h_symbol : json;
  h_yf_name : json;
  h_stockcurrency : json;
  h_financialcurrency : json
}.

Definition folder_map : list (string * string) :=
  [("cashflow", "CF"); ("incomestatement", "IS"); ("balancesheet", "BS")].

(** [val = None] for a float that is NaN or infinite. *)
Definition finite_or_none (val : json) : json :=
  match val with
  | JFloat f => if isnan f || isinf f then JNull else val
  | _ => val
  end.

(** The loop over [(metrics or {}).items()]. *)
Definition metric_rows (h : header) (stype : string) (cal_year period : Z)
  (d : date) (metrics : list (string * json)) : list line_item :=
  flat_map
    (fun entry : string * json =>
       let (metric, val) := entry in
       if String.eqb metric EmptyString then []
       else if is_dict_or_list val then []
       else [mkitem (h_symbol h) (h_yf_name h) stype metric
                    (h_stockcurrency h) (h_financialcurrency h)
                    cal_year period (finite_or_none val) d])
    metrics.

(** The body of the loop over [freq_block.items()]. *)
Definition date_group_rows (h : header) (stype freq : string)
  (entry : string * json) : result (list line_item) :=
  let (dt_str, metrics) := entry in
  match parse_date dt_str with
  | None => Ok []
  | Some d =>
      let cal_year := year d in
      let period := if String.eqb freq "yearly" then 4 else quarter_from_date d in
      ms <- items (py_or metrics (JObj [])) ;;
      Ok (metric_rows h stype cal_year period d ms)
  end.

(** The body of the loop over [("yearly", "quarterly")]. *)
Definition freq_rows (h : header) (stype : string) (block : json)
  (freq : string) : result (list line_item) :=
  fb <- get block freq ;;
  groups <- items (py_or fb (JObj [])) ;;
  for_each (date_group_rows h stype freq) groups.

(** The body of the loop over [folder_map.items()]. *)
Definition folder_rows (h : header) (root : json)
  (entry : string * string) : result (list line_item) :=
  let (folder, stype) := entry in
  b <- get root folder ;;
  for_each (freq_rows h stype (py_or b (JObj []))) ["yearly"; "quarterly"].

Definition normalize_financials (symbol info_json : json)
  : result (list line_item) :=
  let root := py_or info_json (JObj []) in
  i <- get_default root "info" (JObj []) ;;
  let info := py_or i (JObj []) in
  stockcurrency <- get info "currency" ;;
  fc <- get info "financialCurrency" ;;
  financialcurrency <- or_else fc (get info "financialcurrency") ;;
  long_name <- get info "longName" ;;
  yf_name <- or_else long_name
               (short_name <- get info "shortName" ;;
                or_else short_name (get info "displayName")) ;;
  for_each
    (folder_rows (mkheader symbol yf_name stockcurrency financialcurrency) root)
    folder_map.

(** The dates of the groups of one periodicity block that the loop does
    not skip, in order. *)
Definition group_dates (groups : list (string * json)) : list date :=
  flat_map (fun entry : string * json =>
              match parse_date (fst entry) with
              | Some d => [d]
              | None => []
              end) groups.

(** The date groups the loops visit for one statement section and one
    periodicity:
    [((info_json or {}).get(folder) or {}).get(freq) or {}], as a list. *)
Definition entries (root : json) (folder freq : string)
  : result (list (string * json)) :=
  b <- get root folder ;;
  fb <- get (py_or b (JObj [])) freq ;;
  items (py_or fb (JObj [])).

(** The dates under which one statement section emits rows: those of its
    yearly block, then those of its quarterly block. *)
Definition folder_dates (root : json) (folder : string) : result (list date) :=
  gy <- entries root folder "yearly" ;;
  gq <- entries root folder "quarterly" ;;
  Ok (group_dates gy ++ group_dates gq).

(** The natural key of a row: the primary key of the [financials] table. *)
Definition key (r : line_item) : json * string * string * date :=
  (stock r, statement_type r, metric r, statement_date r).

End Normalize.

(** *** Schema *)

Inductive sql :=
| SCHEMA_CREATE
| DropPrimaryKey
| ModifyColumn (column : string) (varchar : Z)
| AddPrimaryKey (columns : list string).

(** The statements of the repair path, in the order of the source. *)
Definition repair_statements : list sql :=
  [DropPrimaryKey; ModifyColumn "metric" 191; ModifyColumn "stock" 32;
   AddPrimaryKey ["stock"; "statement_type"; "metric"; "date"]].

Section Schema.
(** A cursor is any state on which a statement runs and either succeeds or
    raises; [DatabaseError] is [mysql.connector.Error]. *)
Variable cursor : Type.
Variable execute : sql -> cursor -> cursor * option exn.

(** [try: cur.execute(q)  except mysql.connector.Error: pass] *)
Definition execute_best_effort (q : sql) (cur : cursor) : cursor * option exn :=
  match execute q cur with
  | (cur', Some (DatabaseError _)) => (cur', None)
  | outcome => outcome
  end.

(** Sequencing: an exception ends the function. *)
Definition and_then (step : cursor * option exn)
  (next : cursor -> cursor * option exn) : cursor * option exn :=
  match step with
  | (cur, None) => next cur
  | (cur, Some e) => (cur, Some e)
  end.

Definition repair (cur : cursor) : cursor * option exn :=
  and_then (execute_best_effort DropPrimaryKey cur) (fun cur1 =>
  and_then (execute_best_effort (ModifyColumn "metric" 191) cur1) (fun cur2 =>
  and_then (execute_best_effort (ModifyColumn "stock" 32) cur2) (fun cur3 =>
  execute (AddPrimaryKey ["stock"; "statement_type"; "metric"; "date"]) cur3))).

Definition ensure_financials_table (cur : cursor) : cursor * option exn :=
  match execute SCHEMA_CREATE cur with
  | (cur', None) => (cur', None)
  | (cur', Some (DatabaseError errno)) =>
      if negb (errno =? 1170) then (cur', Some (DatabaseError errno))
      else repair cur'
  | (cur', Some e) => (cur', Some e)
  end.

(** A cursor that also records the statements it was given, oldest first. *)
Definition logged (q : sql) (cur : cursor * list sql)
  : (cursor * list sql) * option exn :=
  let (cur', e) := execute q (fst cur) in ((cur', snd cur ++ [q]), e).

End Schema.

Arguments execute_best_effort {cursor} execute q cur.
Arguments and_then {cursor} step next.
Arguments repair {cursor} execute cur.
Arguments ensure_financials_table {cursor} execute cur.
Arguments logged {cursor} execute q cur.

End Financilas.

(** ** [Summary.py] *)

Module Summary.

(** *** Text cleaning *)

(** The cleaning of a text that is not empty: [_WS.sub(" ", s.strip())],
    cut to 200000 characters. *)
Definition clean_str (s : string) : string :=
  let s' := PyStr.sub_ws false (PyStr.strip s) in
  if 200000 <? PyStr.len s' then PyStr.take 200000 s' else s'.

(** [clean_text(s)]: [None] for a falsy argument; a truthy argument that
    is no [str] has no [strip]. *)
Definition clean_text (s : json) : result (option string) :=
  if negb (truthy s) then Ok None
  else match s with
       | JStr x => Ok (Some (clean_str x))
       | _ => Raise AttributeError
       end.

(** *** The three patterns *)

(** [\b] between the previous character and the rest of the text. *)
Definition word_boundary (prev_word : bool) (s : string) : bool :=
  xorb prev_word
       (match s with
        | String c _ => PyStr.isword c
        | EmptyString => false
        end).

(** [pattern.search(s)] for a pattern that starts with [\b]: the match at
    the leftmost position where [at_position] succeeds. *)
Fixpoint search {A : Type} (at_position : string -> option A)
  (prev_word : bool) (s : string) : option A :=
  match (if word_boundary prev_word s then at_position s else None) with
  | Some a => Some a
  | None =>
      match s with
      | EmptyString => None
      | String c r => search at_position (PyStr.isword c) r
      end
  end.

(** The longest prefix whose characters satisfy [p]. *)
Fixpoint span (p : ascii -> bool) (s : string) : string :=
  match s with
  | EmptyString => EmptyString
  | String c r => if p c then String c (span p r) else EmptyString
  end.

Fixpoint drop (p : ascii -> bool) (s : string) : string :=
  match s with
  | EmptyString => EmptyString
  | String c r => if p c then drop p r else s
  end.

(** [founded in (\d{4})\b], ignoring case: group 1. *)
Definition founded_at (s : string) : option string :=
  match PyStr.starts_with_nocase "founded in " s with
  | Some (String a (String b (String c (String d r)))) =>
      if PyStr.isdecimal a && PyStr.isdecimal b && PyStr.isdecimal c
         && PyStr.isdecimal d && word_boundary true r
      then Some (String a (String b (String c (String d EmptyString))))
      else None
  | _ => None
  end.

Definition not_in (chars : string) (c : ascii) : bool :=
  negb (existsb (Ascii.eqb c) (list_ascii_of_string chars)).

(** [formerly known as ([^.,;]+)], ignoring case: group 1. *)
Definition former_at (s : string) : option string :=
  match PyStr.starts_with_nocase "formerly known as " s with
  | Some rest =>
      match span (not_in ".,;") rest with
      | EmptyString => None
      | name => Some name
      end
  | None => None
  end.

Definition newline : ascii := "010"%char.

(** The end of a lazy group that ran to the end of the text: [$] also
    matches before a final newline, so a run of two characters or more that
    ends in a newline stops before it. *)
Fixpoint before_final_newline (run : string) : string :=
  match run with
  | String c (String n EmptyString) =>
      if Ascii.eqb n newline then String c EmptyString else run
  | String c r => String c (before_final_newline r)
  | EmptyString => EmptyString
  end.

(** [headquartered in ([^.]+?)(?:\.|$)], ignoring case: group 1. *)
Definition hq_at (s : string) : option string :=
  match PyStr.starts_with_nocase "headquartered in " s with
  | Some rest =>
      match span (not_in ".") rest, drop (not_in ".") rest with
      | EmptyString, _ => None
      | run, EmptyString => Some (before_final_newline run)
      | run, _ => Some run
      end
  | None => None
  end.

Record extracted := mkextracted {
  founded : option Z;
  former : option string;
  s_city : option string;
  s_state : option string;
  s_country : option string
}.

Definition extract_from_summary (summary : option string) : extracted :=
  match summary with
  | None | Some EmptyString => mkextracted None None None None None
  | Some text =>
      let founded :=
        match search founded_at false text with
        | Some digits => Some (PyStr.digits_value 0 digits)
        | None => None
        end in
      let former :=
        match search former_at false text with
        | Some name => Some (clean_str name)
        | None => None
        end in
      match search hq_at false text with
      | Some group =>
          let loc := PyStr.strip group in
          match map PyStr.strip (PyStr.split_on "," loc) with
          | [c] => mkextracted founded former (Some c) None None
          | [c; s] => mkextracted founded former (Some c) (Some s) None
          | c :: s :: more =>
              mkextracted founded former (Some c) (Some s)
                          (Some (PyStr.join ", " more))
          | [] => mkextracted founded former None None None
          end
      | None => mkextracted founded former None None None
      end
  end.

(** *** The clock *)

Record clock := mkclock { today : date; hour : Z; minute : Z; second : Z }.

Definition digit (n : Z) : ascii := ascii_of_N (Z.to_N (48 + n mod 10)).

Definition two_digits (n : Z) : string :=
  String (digit (n / 10)) (String (digit n) EmptyString).

Definition four_digits (n : Z) : string :=
  (two_digits (n / 100) ++ two_digits n)%string.

(** [now.strftime("%Y-%m-%d %H:%M:%S")] for a year of four digits. *)
Definition strftime (now : clock) : string :=
  (four_digits (year (today now)) ++ "-" ++ two_digits (month (today now))
   ++ "-" ++ two_digits (day (today now)) ++ " " ++ two_digits (hour now)
   ++ ":" ++ two_digits (minute now) ++ ":" ++ two_digits (second now))%string.

(** *** Profile records *)

Record summary_row := mkrow {
  stock : json;
  yf_name : option string;
  long_summary : option string;
  sector : option string;
  industry : option string;
  website : option string;
  employees : option Z;
  city : option string;
  state : option string;
  country : option string;
  currency : option string;
  founded_year : option Z;
  former_name : option string;
  updated_at : string
}.

(** [a or b] on two values that are [None] or a text. *)
Definition text_or (a b : option string) : option string :=
  match a with
  | Some (String _ _) => a
  | _ => b
  end.

(** The [employees] block.  [int] refuses an empty text, and (CPython 3.11
    and later) a text of more than 4300 digits; both are [ValueError],
    which the block turns into [None]. *)
Definition employees_to_int (employees : json) : option Z :=
  match employees with
  | JStr s =>
      let digits := PyStr.only_digits s in
      match digits with
      | EmptyString => None
      | _ => if 4300 <? PyStr.len digits then None
             else Some (PyStr.digits_value 0 digits)
      end
  | JInt n => Some n
  | JBool b => Some (if b then 1 else 0)
  | JFloat f => if isnan f || isinf f then None else Some (int_of_float f)
  | _ => None
  end.

(** [info = obj.get("info") or obj] *)
Definition info_of (obj : json) : result json :=
  i <- get obj "info" ;;
  Ok (py_or i obj).

(** [a.get(k1) or a.get(k2)] *)
Definition get2 (a : json) (k1 k2 : string) : result json :=
  v <- get a k1 ;;
  or_else v (get a k2).

(** [now] is what [datetime.utcnow()] returns during the call. *)
Definition normalize_summary (now : clock) (symbol_hint root_obj : json)
  : result summary_row :=
  let obj := py_or root_obj (JObj []) in
  info <- info_of obj ;;
  stock <- or_else symbol_hint (get2 info "symbol" "ticker") ;;
  yf_name <- (v <- get2 info "longName" "shortName" ;;
              or_else v (get2 info "displayName" "name")) ;;
  long_summary <- (v <- get info "longBusinessSummary" ;;
                   or_else v
                     (w <- get obj "summary" ;;
                      or_else w
                        (p <- get obj "profile" ;;
                         get (py_or p (JObj [])) "longBusinessSummary"))) ;;
  sector <- get2 info "sector" "sectorDisp" ;;
  industry <- get2 info "industry" "industryDisp" ;;
  website <- get2 info "website" "irWebsite" ;;
  employees <- get info "fullTimeEmployees" ;;
  city <- get info "city" ;;
  state <- get2 info "state" "province" ;;
  country <- get info "country" ;;
  currency <- get2 info "currency" "financialCurrency" ;;
  yf_name <- clean_text yf_name ;;
  long_summary <- clean_text long_summary ;;
  sector <- clean_text sector ;;
  industry <- clean_text industry ;;
  website <- clean_text website ;;
  city <- clean_text city ;;
  state <- clean_text state ;;
  country <- clean_text country ;;
  currency <- clean_text currency ;;
  let employees := employees_to_int employees in
  let e := extract_from_summary long_summary in
  Ok (mkrow stock yf_name long_summary sector industry website employees
            (text_or city (s_city e)) (text_or state (s_state e))
            (text_or country (s_country e)) currency
            (founded e) (former e) (strftime now)).

(** The record [r] with [t] as its [updated_at]. *)
Definition with_updated_at (t : string) (r : summary_row) : summary_row :=
  mkrow (stock r) (yf_name r) (long_summary r) (sector r) (industry r)
        (website r) (employees r) (city r) (state r) (country r) (currency r)
        (founded_year r) (former_name r) t.

(** *** The loop of [main] *)

Section Loop.
Context {R : Runtime}.
(** The connection: the state of the database as the cursor sees it, the
    statement that reads one source row, the upsert and the commit. *)
Variable db : Type.
Variable load_one_row : db -> json -> result (option (json * column_value)).
Variable upsert_summary : db -> list summary_row -> result db.
Variable commit : db -> result db.
Variable COMMIT_EVERY_SYMBOLS : Z.

Record run := mkrun { store : db; total_rows : Z; errors : Z }.

(** [except Exception: errors += 1] *)
Definition failed (st : run) : run :=
  mkrun (store st) (total_rows st) (errors st + 1).

(** One iteration of the [for i, s in enumerate(symbols, 1)] loop. *)
Definition step (now : clock) (st : run) (i : Z) (s : json) : run :=
  match load_one_row (store st) s with
  | Raise _ => failed st
  | Ok None => st
  | Ok (Some (symbol_hint, j)) =>
      let obj := parse_json_value j in
      match normalize_summary now symbol_hint obj with
      | Raise _ => failed st
      | Ok rec =>
          if negb (truthy (stock rec)) then st
          else
            match upsert_summary (store st) [rec] with
            | Raise _ => failed st
            | Ok store' =>
                let st' := mkrun store' (total_rows st + 1) (errors st) in
                if COMMIT_EVERY_SYMBOLS =? 0 then failed st'
                else if i mod COMMIT_EVERY_SYMBOLS =? 0
                     then match commit store' with
                          | Ok store'' => mkrun store'' (total_rows st') (errors st')
                          | Raise _ => failed st'
                          end
                     else st'
            end
      end
  end.

End Loop.

Arguments mkrun {db} store total_rows errors.
Arguments store {db} r.
Arguments total_rows {db} r.
Arguments errors {db} r.
Arguments failed {db} st.
Arguments step {R db} load_one_row upsert_summary commit COMMIT_EVERY_SYMBOLS now st i s.

End Summary.

(** ** [details.py]: the JSON sanitizer *)

Module Details.

(** A dictionary key: a text, or any other hashable object, which stands
    here as the text [str()] gives for it. *)
Inductive pykey :=
| KStr (s : string)
| KOther (text : string).

(** The objects [clean_json] tells apart.  [PNA] is a scalar other than
    [None] and NaN that [pd.isna] reports missing ([pd.NA], [pd.NaT]).
    A [datetime] (or pandas [Timestamp]) and a [date] carry the text of
    their own [isoformat()]; an object of any other type carries the text
    [str()] gives for it.  A set lists its elements in iteration order. *)
Inductive pyval :=
| PNone
| PNA
| PNpInt (n : Z)
| PNpFloat (f : pyfloat)
| PNpBool (b : bool)
| PFloat (f : pyfloat)
| PInt (n : Z)
| PBool (b : bool)
| PStr (s : string)
| PBytes (b : list ascii)
| PDatetime (naive : bool) (iso : string)
| PDate (iso : string)
| PDict (members : list (pykey * pyval))
| PList (elements : list pyval)
| PTuple (elements : list pyval)
| PSet (elements : list pyval)
| POther (text : string).

(** [str(k)] *)
Definition key_str (k : pykey) : string :=
  match k with
  | KStr s => s
  | KOther text => text
  end.

(** [d[k] = v] on a dictionary in insertion order: a known key keeps its
    place and takes the new value, a new key goes last. *)
Fixpoint dict_set (d : list (pykey * pyval)) (k : string) (v : pyval)
  : list (pykey * pyval) :=
  match d with
  | [] => [(KStr k, v)]
  | (k', v') :: rest =>
      if String.eqb (key_str k') k then (k', v) :: rest
      else (k', v') :: dict_set rest k v
  end.

(** The dictionary a comprehension builds from its pairs, in order. *)
Definition dict_of (pairs : list (string * pyval)) : list (pykey * pyval) :=
  fold_left (fun d kv => dict_set d (fst kv) (snd kv)) pairs [].

(** [pd.isna] on a scalar: [None], NaN, [pd.NA] and [pd.NaT] are missing. *)
Definition missing_scalar (v : pyval) : bool :=
  match v with
  | PNone | PNA => true
  | PFloat f | PNpFloat f => isnan f
  | _ => false
  end.

(** [np.asarray([v], dtype=object)] has exactly one element and it is
    missing: [v] is a missing scalar, or a list or tuple of one such [v]
    (numpy reads nested sequences as further dimensions). *)
Fixpoint single_missing (v : pyval) : bool :=
  match v with
  | PList [x] | PTuple [x] => single_missing x
  | _ => missing_scalar v
  end.

(** Whether [if pd.isna(obj)] is taken, inside its [try].  On a scalar
    [pd.isna] answers a [bool].  On a list it answers an array of one
    [bool] per element, whose truth value is that of its element when it
    has exactly one and an exception ([ValueError], swallowed by the
    [except]) or false otherwise.  On any other object it answers
    [False]. *)
Definition isna_taken (obj : pyval) : bool :=
  match obj with
  | PList [x] => single_missing x
  | PList _ => false
  | _ => missing_scalar obj
  end.

Section CleanJson.
Context {R : Runtime}.

(** The first test of the source, [obj is None], is the case [PNone] of
    [isna_taken].  The next tests are in the order of the source; an object
    matches one class only, numpy's [float64], a subclass of [float],
    being handled like [float] by both branches. *)
Fixpoint clean_json (obj : pyval) : pyval :=
  if isna_taken obj then PNone
  else
    match obj with
    | PNone | PNA => PNone
    | PNpInt n => PInt n
    | PNpFloat f | PFloat f => if isnan f || isinf f then PNone else PFloat f
    | PNpBool b => PBool b
    | PInt _ | PBool _ | PStr _ => obj
    | PBytes b => PStr (decode_utf8 b)
    | PDatetime naive iso => PStr (if naive then (iso ++ "+00:00")%string else iso)
    | PDate iso => PStr iso
    | PDict members =>
        PDict (dict_of (map (fun kv => (key_str (fst kv), clean_json (snd kv)))
                            members))
    | PList l | PTuple l | PSet l => PList (map clean_json l)
    | POther text => PStr text
    end.

End CleanJson.

(** The names of the keys of a dictionary, in order. *)
Definition keys (d : list (pykey * pyval)) : list string :=
  map (fun kv => key_str (fst kv)) d.

(** No list inside [v] is taken for a missing value by [pd.isna]. *)
Fixpoint isna_free (v : pyval) : bool :=
  match v with
  | PList l => negb (isna_taken v) && forallb isna_free l
  | PTuple l | PSet l => forallb isna_free l
  | PDict members => forallb (fun kv => isna_free (snd kv)) members
  | _ => true
  end.

(** The values that [json.dumps(..., allow_nan=False)] accepts and that a
    JSON column gives back unchanged: [None], [int], [bool], [str], finite
    [float], lists of such values, and dictionaries of such values under
    distinct [str] keys. *)
Inductive json_safe : pyval -> Prop :=
| safe_none : json_safe PNone
| safe_int (n : Z) : json_safe (PInt n)
| safe_bool (b : bool) : json_safe (PBool b)
| safe_str (s : string) : json_safe (PStr s)
| safe_float (f : pyfloat) :
    isnan f = false -> isinf f = false -> json_safe (PFloat f)
| safe_list (l : list pyval) : Forall json_safe l -> json_safe (PList l)
| safe_dict (members : list (pykey * pyval)) :
    NoDup (keys members) ->
    Forall (fun kv => (exists k, fst kv = KStr k) /\ json_safe (snd kv)) members ->
    json_safe (PDict members).

End Details.

(** ** A runtime to run the model on

    An instance of [Runtime] for worked examples.  Its decoder reads JSON
    texts as [json.loads] does, its [unicode_escape] and UTF-8 codecs and
    its [fromisoformat] follow the library, all within the texts this model
    can hold: an escape or a byte sequence that names a code point of 256
    or more, a named escape, and a date that is not written [YYYY-MM-DD]
    are refused (replaced by [?] in the case of UTF-8), where the library
    would answer.  The theorems quantify over every runtime and do not
    depend on this one. *)

Module Reference.

Definition chr (n : Z) : ascii := ascii_of_N (Z.to_N n).

Definition hex_value (c : ascii) : option Z :=
  let n := PyStr.ord c in
  if (48 <=? n) && (n <=? 57) then Some (n - 48)
  else if (65 <=? n) && (n <=? 70) then Some (n - 55)
  else if (97 <=? n) && (n <=? 102) then Some (n - 87)
  else None.

(** The value of exactly [count] hexadecimal digits and the rest. *)
Fixpoint read_hex (count : nat) (acc : Z) (s : string) : option (Z * string) :=
  match count with
  | O => Some (acc, s)
  | S count' =>
      match s with
      | String c r =>
          match hex_value c with
          | Some v => read_hex count' (16 * acc + v) r
          | None => None
          end
      | EmptyString => None
      end
  end.

Definition strip_prefix (p s : string) : option string :=
  if String.prefix p s
  then Some (String.substring (String.length p) (String.length s) s)
  else None.

(** *** [json.loads] *)

Definition json_space (c : ascii) : bool :=
  let n := PyStr.ord c in (n =? 32) || (n =? 9) || (n =? 10) || (n =? 13).

Definition skip (s : string) : string := PyStr.lstrip_by json_space s.

Definition json_escape (c : ascii) : option ascii :=
  let n := PyStr.ord c in
  if n =? 34 then Some c
  else if n =? 92 then Some c
  else if n =? 47 then Some c
  else if n =? 98 then Some (chr 8)
  else if n =? 102 then Some (chr 12)
  else if n =? 110 then Some (chr 10)
  else if n =? 114 then Some (chr 13)
  else if n =? 116 then Some (chr 9)
  else None.

(** The text of a string literal after its opening quote, and the rest. *)
Fixpoint read_string (s : string) : option (string * string) :=
  match s with
  | EmptyString => None
  | String c r =>
      if PyStr.ord c =? 34 then Some (EmptyString, r)
      else if PyStr.ord c =? 92 then
        match r with
        | String e r' =>
            match json_escape e with
            | Some ch =>
                match read_string r' with
                | Some (t, rest) => Some (String ch t, rest)
                | None => None
                end
            | None =>
                match r' with
                | String h1 (String h2 (String h3 (String h4 r''))) =>
                    match read_hex 4 0 (String h1 (String h2 (String h3 (String h4 EmptyString)))) with
                    | Some (v, _) =>
                        if (PyStr.ord e =? 117) && (v <? 256) then
                          match read_string r'' with
                          | Some (t, rest) => Some (String (chr v) t, rest)
                          | None => None
                          end
                        else None
                    | None => None
                    end
                | _ => None
                end
            end
        | EmptyString => None
        end
      else if PyStr.ord c <? 32 then None
      else
        match read_string r with
        | Some (t, rest) => Some (String c t, rest)
        | None => None
        end
  end.

(** [float(text)] for the decimal [digits * 10 ^ exponent]: the nearest
    binary64 value, ties to even. *)
Definition float_of_decimal (negative : bool) (digits exponent : Z) : pyfloat :=
  if digits =? 0 then S754_zero negative
  else if 0 <=? exponent
  then binary_normalize 53 1024
         ((if negative then - digits else digits) * 10 ^ exponent) 0 false
  else
    let '(q, e, l) := SFdiv_core_binary 53 1024 digits 0 (10 ^ (- exponent)) 0 in
    binary_round_aux 53 1024 negative q e l.

(** A number: an optional minus sign, then [0] or a run of digits that
    does not start with [0], then an optional fraction (a dot and digits)
    and an optional exponent ([e] or [E], an optional sign and digits).  It
    is an [int] when it has neither fraction nor exponent (of at most 4300
    digits), a [float] otherwise. *)
Definition read_number (s : string) : option (json * string) :=
  let (negative, s1) :=
    match s with
    | String "-" r => (true, r)
    | _ => (false, s)
    end in
  let int_digits :=
    match s1 with
    | String "0" _ => "0"
    | _ => Summary.span PyStr.isdecimal s1
    end in
  match int_digits with
  | EmptyString => None
  | _ =>
      let s2 := String.substring (String.length int_digits) (String.length s1) s1 in
      let (frac, s3) :=
        match s2 with
        | String "." r =>
            match Summary.span PyStr.isdecimal r with
            | EmptyString => (EmptyString, s2)
            | f => (f, Summary.drop PyStr.isdecimal r)
            end
        | _ => (EmptyString, s2)
        end in
      let exp_of (r : string) : option (Z * string) :=
        let (minus, r1) :=
          match r with
          | String "-" r' => (true, r')
          | String "+" r' => (false, r')
          | _ => (false, r)
          end in
        match Summary.span PyStr.isdecimal r1 with
        | EmptyString => None
        | ds =>
            let v := PyStr.digits_value 0 ds in
            Some (if minus then - v else v, Summary.drop PyStr.isdecimal r1)
        end in
      let (expo, s4) :=
        match s3 with
        | String c r =>
            if (PyStr.ord c =? 101) || (PyStr.ord c =? 69) then
              match exp_of r with
              | Some (v, rest) => (Some v, rest)
              | None => (None, s3)
              end
            else (None, s3)
        | EmptyString => (None, s3)
        end in
      match frac, expo with
      | EmptyString, None =>
          if 4300 <? PyStr.len int_digits then None
          else
            let v := PyStr.digits_value 0 int_digits in
            Some (JInt (if negative then - v else v), s4)
      | _, _ =>
          let e := match expo with Some v => v | None => 0 end in
          Some (JFloat (float_of_decimal negative
                          (PyStr.digits_value 0 (int_digits ++ frac)%string)
                          (e - PyStr.len frac)), s4)
      end
  end.

(** [dict(pairs)]: a repeated key keeps its first place and its last
    value. *)
Fixpoint obj_set (members : list (string * json)) (k : string) (v : json)
  : list (string * json) :=
  match members with
  | [] => [(k, v)]
  | (k', v') :: rest =>
      if String.eqb k' k then (k', v) :: rest else (k', v') :: obj_set rest k v
  end.

Definition obj_of (pairs : list (string * json)) : list (string * json) :=
  fold_left (fun d kv => obj_set d (fst kv) (snd kv)) pairs [].

(** The scanner.  [read_value] reads one value at the head of [s];
    [read_elements] reads the elements of an array after its bracket,
    [read_members] the members of an object after its brace, both up to
    the closing character.  [fuel] bounds the nesting and the number of
    elements. *)
Fixpoint read_value (fuel : nat) (s : string) {struct fuel}
  : option (json * string) :=
  match fuel with
  | O => None
  | S fuel' =>
      match s with
      | String c r =>
          let n := PyStr.ord c in
          if n =? 34 then
            match read_string r with
            | Some (t, rest) => Some (JStr t, rest)
            | None => None
            end
          else if n =? 123 then
            match skip r with
            | String "}" rest => Some (JObj [], rest)
            | r' =>
                match read_members fuel' r' with
                | Some (pairs, rest) => Some (JObj (obj_of pairs), rest)
                | None => None
                end
            end
          else if n =? 91 then
            match skip r with
            | String "]" rest => Some (JArr [], rest)
            | r' =>
                match read_elements fuel' r' with
                | Some (vs, rest) => Some (JArr vs, rest)
                | None => None
                end
            end
          else
            match strip_prefix "null" s, strip_prefix "true" s,
                  strip_prefix "false" s with
            | Some rest, _, _ => Some (JNull, rest)
            | _, Some rest, _ => Some (JBool true, rest)
            | _, _, Some rest => Some (JBool false, rest)
            | _, _, _ =>
                match read_number s with
                | Some out => Some out
                | None =>
                    match strip_prefix "NaN" s, strip_prefix "Infinity" s,
                          strip_prefix "-Infinity" s with
                    | Some rest, _, _ => Some (JFloat S754_nan, rest)
                    | _, Some rest, _ => Some (JFloat (S754_infinity false), rest)
                    | _, _, Some rest => Some (JFloat (S754_infinity true), rest)
                    | _, _, _ => None
                    end
                end
            end
      | EmptyString => None
      end
  end
with read_elements (fuel : nat) (s : string) {struct fuel}
  : option (list json * string) :=
  match fuel with
  | O => None
  | S fuel' =>
      match read_value fuel' s with
      | Some (v, rest) =>
          match skip rest with
          | String "]" rest' => Some ([v], rest')
          | String "," rest' =>
              match read_elements fuel' (skip rest') with
              | Some (vs, rest'') => Some (v :: vs, rest'')
              | None => None
              end
          | _ => None
          end
      | None => None
      end
  end
with read_members (fuel : nat) (s : string) {struct fuel}
  : option (list (string * json) * string) :=
  match fuel with
  | O => None
  | S fuel' =>
      match s with
      | String q r =>
          if PyStr.ord q =? 34 then
            match read_string r with
            | Some (k, rest) =>
                match skip rest with
                | String ":" rest' =>
                    match read_value fuel' (skip rest') with
                    | Some (v, rest'') =>
                        match skip rest'' with
                        | String "}" rest3 => Some ([(k, v)], rest3)
                        | String "," rest3 =>
                            match read_members fuel' (skip rest3) with
                            | Some (ms, rest4) => Some ((k, v) :: ms, rest4)
                            | None => None
                            end
                        | _ => None
                        end
                    | None => None
                    end
                | _ => None
                end
            | None => None
            end
          else None
      | EmptyString => None
      end
  end.

Definition loads (s : string) : option json :=
  match read_value (2 * String.length s + 2) (skip s) with
  | Some (v, rest) =>
      match skip rest with
      | EmptyString => Some v
      | _ => None
      end
  | None => None
  end.

(** *** [s.encode('utf-8').decode('unicode_escape')] *)

Fixpoint encode_utf8 (s : string) : string :=
  match s with
  | EmptyString => EmptyString
  | String c r =>
      let n := PyStr.ord c in
      if n <? 128 then String c (encode_utf8 r)
      else String (chr (192 + n / 64)) (String (chr (128 + n mod 64)) (encode_utf8 r))
  end.

Definition simple_escape (c : ascii) : option ascii :=
  let n := PyStr.ord c in
  if (n =? 92) || (n =? 39) || (n =? 34) then Some c
  else if n =? 97 then Some (chr 7)
  else if n =? 98 then Some (chr 8)
  else if n =? 102 then Some (chr 12)
  else if n =? 110 then Some (chr 10)
  else if n =? 114 then Some (chr 13)
  else if n =? 116 then Some (chr 9)
  else if n =? 118 then Some (chr 11)
  else None.

Definition is_octal (c : ascii) : bool :=
  let n := PyStr.ord c in (48 <=? n) && (n <=? 55).

(** At most [count] octal digits at the head of [s]: their value and the
    rest. *)
Fixpoint read_octal (count : nat) (acc : Z) (s : string) : Z * string :=
  match count, s with
  | S count', String c r =>
      if is_octal c then read_octal count' (8 * acc + PyStr.digit_value c) r
      else (acc, s)
  | _, _ => (acc, s)
  end.

Definition code_point (v : Z) (rest : option string) : option string :=
  match rest with
  | Some t => if v <? 256 then Some (String (chr v) t) else None
  | None => None
  end.

Fixpoint unescape (fuel : nat) (s : string) : option string :=
  match fuel with
  | O => None
  | S fuel' =>
      match s with
      | EmptyString => Some EmptyString
      | String c r =>
          if negb (PyStr.ord c =? 92) then code_point (PyStr.ord c) (unescape fuel' r)
          else
            match r with
            | EmptyString => None
            | String e r' =>
                let n := PyStr.ord e in
                if n =? 10 then unescape fuel' r'
                else
                  match simple_escape e with
                  | Some ch => code_point (PyStr.ord ch) (unescape fuel' r')
                  | None =>
                      if is_octal e then
                        let (v, rest) := read_octal 3 0 r in
                        code_point v (unescape fuel' rest)
                      else if (n =? 120) || (n =? 117) || (n =? 85) then
                        match read_hex (if n =? 120 then 2 else if n =? 117 then 4 else 8)
                                       0 r' with
                        | Some (v, rest) => code_point v (unescape fuel' rest)
                        | None => None
                        end
                      else if n =? 78 then None
                      else
                        match unescape fuel' r' with
                        | Some t => Some (String c (String e t))
                        | None => None
                        end
                  end
            end
      end
  end.

Definition escape_decode (s : string) : option string :=
  let b := encode_utf8 s in unescape (S (String.length b)) b.

(** *** [b.decode("utf-8", errors="replace")] *)

Fixpoint decode (b : list ascii) : string :=
  match b with
  | [] => EmptyString
  | c :: r =>
      if PyStr.ord c <? 128 then String c (decode r)
      else
        match r with
        | c2 :: r' =>
            if ((PyStr.ord c =? 194) || (PyStr.ord c =? 195))
               && (128 <=? PyStr.ord c2) && (PyStr.ord c2 <? 192)
            then String (chr ((PyStr.ord c - 192) * 64 + PyStr.ord c2 - 128)) (decode r')
            else String "?" (decode r)
        | [] => String "?" EmptyString
        end
  end.

(** *** [datetime.fromisoformat] on [YYYY-MM-DD] *)

Definition fromisoformat_ymd (s : string) : option date :=
  match Financilas.read_year s with
  | Some (y, String "-" (String m1 (String m2 (String "-" (String d1 (String d2 EmptyString)))))) =>
      if PyStr.isdecimal m1 && PyStr.isdecimal m2 && PyStr.isdecimal d1 && PyStr.isdecimal d2
      then
        let d := mkdate y (10 * PyStr.digit_value m1 + PyStr.digit_value m2)
                          (10 * PyStr.digit_value d1 + PyStr.digit_value d2) in
        if valid_date d then Some d else None
      else None
  | _ => None
  end.

Lemma fromisoformat_ymd_valid (s : string) (d : date) :
  fromisoformat_ymd s = Some d -> valid_date d = true.
Proof.
  unfold fromisoformat_ymd.
  destruct (Financilas.read_year s) as [[y r]|]; [|discriminate].
  repeat (match goal with
          | |- context [match ?x with _ => _ end] =>
              destruct x eqn:?; try discriminate
          end).
  intros H. injection H as <-. assumption.
Qed.

#[export] Instance runtime : Runtime := {|
  json_loads := loads;
  unicode_escape := escape_decode;
  decode_utf8 := decode;
  fromisoformat := fromisoformat_ymd;
  fromisoformat_valid := fromisoformat_ymd_valid
|}.

End Reference.

(** ** Inputs of the worked instances *)

Module Examples.

(** A JSON text written with apostrophes for its double quotes. *)
Fixpoint json_text (s : string) : string :=
  match s with
  | EmptyString => EmptyString
  | String c r =>
      String (if Ascii.eqb c "'" then double_quote else c) (json_text r)
  end.

(** The JSON string literal that holds [s], as [json.dumps(s)] writes it
    for a text of letters, digits, spaces, punctuation and double quotes. *)
Fixpoint quoted_body (s : string) : string :=
  match s with
  | EmptyString => String double_quote EmptyString
  | String c r =>
      if Ascii.eqb c double_quote
      then String "\" (String c (quoted_body r))
      else String c (quoted_body r)
  end.

Definition quoted (s : string) : string := String double_quote (quoted_body s).

Definition acme : json := JStr "ACME".

(** One quarterly income statement dated 31 October 2023. *)
Definition october_text : string :=
  json_text "{'incomestatement': {'quarterly': {'2023-10-31 00:00:00': {'TotalRevenue': 5}}}}".

Definition october_quarter : json :=
  JObj [("incomestatement",
         JObj [("quarterly",
                JObj [("2023-10-31 00:00:00", JObj [("TotalRevenue", JInt 5)])])])].

Definition october_row : Financilas.line_item :=
  Financilas.mkitem acme JNull "IS" "TotalRevenue" JNull JNull 2023 4 (JInt 5)
                    (mkdate 2023 10 31).

(** A cash flow reported for 31 December 2023 both as the year and as its
    last quarter. *)
Definition december_twice : json :=
  JObj [("cashflow",
         JObj [("yearly",
                JObj [("2023-12-31 00:00:00", JObj [("FreeCashFlow", JInt 1)])]);
               ("quarterly",
                JObj [("2023-12-31 00:00:00", JObj [("FreeCashFlow", JInt 2)])])])].

Definition morning : Summary.clock := Summary.mkclock (mkdate 2025 1 2) 3 4 5.
Definition evening : Summary.clock := Summary.mkclock (mkdate 2025 1 2) 21 4 5.

(** A profile whose structured city differs from the headquarters of its
    summary. *)
Definition austin : json :=
  JObj [("info",
         JObj [("city", JStr "Austin");
               ("longBusinessSummary",
                JStr "Acme Corp. is headquartered in Dallas, Texas.")])].

(** A source table of one row, with no symbol column and a payload that
    names no symbol; the profile table is the list of the rows written. *)
Definition one_row (_ : list Summary.summary_row) (_ : json)
  : result (option (json * column_value)) :=
  Ok (Some (JNull, ColValue (JStr (json_text "{'info': {'longName': 'Acme Corp'}}")))).

Definition write_rows (table rows : list Summary.summary_row)
  : result (list Summary.summary_row) := Ok (table ++ rows).

Definition keep (table : list Summary.summary_row)
  : result (list Summary.summary_row) := Ok table.

(** A cursor on a table created by an older version: the creation fails
    with error 1170 and there is no primary key to drop (error 1091); the
    other statements succeed. *)
Definition old_schema (q : Financilas.sql) (_ : unit) : unit * option exn :=
  match q with
  | Financilas.SCHEMA_CREATE => (tt, Some (DatabaseError 1170))
  | Financilas.DropPrimaryKey => (tt, Some (DatabaseError 1091))
  | _ => (tt, None)
  end.

(** Scenario A of the specification, as stored text. *)
Definition scenario_a : string :=
  json_text "{'info': {'longName': 'Acme Corp'}, 'cashflow': {'yearly': {'2023-12-31 00:00:00': {'FreeCashFlow': 100.0, 'CapEx': NaN}}}}".

(** A value with a key that is no text, numpy scalars, bytes, a tuple and
    a list of one element that is not missing. *)
Definition mixed : Details.pyval :=
  Details.PDict
    [(Details.KOther "1", Details.PNpFloat S754_nan);
     (Details.KStr "a",
      Details.PTuple [Details.PNpInt 1; Details.PBytes ["a"%char];
                      Details.PFloat (S754_infinity true)]);
     (Details.KStr "1", Details.PList [Details.PStr "x"])].

End Examples.

(** ** Column discovery and the loops of the three [main]s *)

(** [for c in candidates: if c in cols: found = c; break], with
    [found = None] before the loop. *)
Fixpoint first_present (candidates cols : list string) : option string :=
  match candidates with
  | [] => None
  | c :: rest =>
      if existsb (String.eqb c) cols then Some c else first_present rest cols
  end.

(** The candidates of [l] that stand before [c]. *)
Fixpoint before (c : string) (l : list string) : list string :=
  match l with
  | [] => []
  | x :: r => if String.eqb x c then [] else x :: before c r
  end.

Definition RuntimeError : exn := OtherError "RuntimeError".

Module FinancilasMain.

Definition symbol_candidates : list string :=
  ["stock"; "symbol"; "ticker"; "SYMBOL"; "TICKER"].

Definition json_candidates : list string :=
  ["json"; "payload"; "data"; "JSON"; "PAYLOAD"; "DATA"].

(** [find_symbol_and_json_columns], from the column names that
    [describe_columns] returns for [yahoo_financials]. *)
Definition find_symbol_and_json_columns (cols : list string)
  : result (string * string) :=
  match first_present symbol_candidates cols with
  | None => Raise RuntimeError
  | Some sym_col =>
      match first_present json_candidates cols with
      | None => Raise RuntimeError
      | Some json_col => Ok (sym_col, json_col)
      end
  end.

End FinancilasMain.

Module SummaryMain.

Definition symbol_candidates : list string :=
  ["stock"; "symbol"; "ticker"; "SYMBOL"; "TICKER"].

Definition json_candidates : list string :=
  ["json"; "payload"; "data"; "info"; "INFO"; "JSON"; "PAYLOAD"; "DATA";
   "yf_info"; "YF_INFO"].

(** [find_symbol_and_json_columns]: the symbol column is optional here. *)
Definition find_symbol_and_json_columns (cols : list string)
  : result (option string * string) :=
  let sym_col := first_present symbol_candidates cols in
  match first_present json_candidates cols with
  | None => Raise RuntimeError
  | Some json_col => Ok (sym_col, json_col)
  end.

End SummaryMain.

Module Loader.

Definition symbol_candidates : list string :=
  ["symbol"; "ticker"; "Symbol"; "Ticker"; "SYMBOL"; "TICKER"].

(** [find_symbol_column(df)], from [df.columns]: the first candidate that
    is a column, else the first column ([IndexError] on a frame without
    columns). *)
Definition find_symbol_column (columns : list string) : result string :=
  match first_present symbol_candidates columns with
  | Some c => Ok c
  | None =>
      match columns with
      | c :: _ => Ok c
      | [] => Raise IndexError
      end
  end.

End Loader.

(** ** Shapes of payloads

    What the normalizers read through [(v or {}).get(k)] and
    [(v or {}).items()]. *)

(** [v] is a dictionary, or [v or {}] is [{}]. *)
Definition mapping_or_falsy (v : json) : bool :=
  match v with
  | JObj _ => true
  | _ => negb (truthy v)
  end.

(** The members of [v or {}], for such a [v]. *)
Definition members_of (v : json) : list (string * json) :=
  match v with
  | JObj members => members
  | _ => []
  end.

(** [(v or {}).get(k)], for such a [v]. *)
Definition field (v : json) (k : string) : json :=
  match assoc k (members_of v) with
  | Some x => x
  | None => JNull
  end.

(** The outcome [c] is a value when [ok] holds, and an [AttributeError]
    when it does not. *)
Definition agrees {A : Type} (c : result A) (ok : bool) : Prop :=
  match c with
  | Ok _ => ok = true
  | Raise e => e = AttributeError /\ ok = false
  end.

Module FinancilasShape.
Section Shape.
Context {R : Runtime}.

(** A date group: its metrics are read only when its key parses. *)
Definition well_shaped_group (entry : string * json) : bool :=
  match Financilas.parse_date (fst entry) with
  | Some _ => mapping_or_falsy (snd entry)
  | None => true
  end.

Definition well_shaped_freq (block : json) (freq : string) : bool :=
  mapping_or_falsy (field block freq)
  && forallb well_shaped_group (members_of (field block freq)).

Definition well_shaped_block (block : json) : bool :=
  mapping_or_falsy block
  && forallb (well_shaped_freq block) ["yearly"; "quarterly"].

(** The payloads on which every [.get] and [.items] of
    [normalize_financials] is applied to a dictionary. *)
Definition well_shaped (info_json : json) : bool :=
  mapping_or_falsy info_json
  && mapping_or_falsy (field info_json "info")
  && forallb (fun entry : string * string =>
                well_shaped_block (field info_json (fst entry)))
             Financilas.folder_map.

(** *** The rows that the specification asks for

    Written after the specification, to be compared with what
    [normalize_financials] returns. *)

(** A metric gives a row when its name is not empty and its value is
    neither a dictionary nor a list. *)
Definition reported (metric : string * json) : bool :=
  negb (String.eqb (fst metric) EmptyString)
  && negb (is_dict_or_list (snd metric)).

(** The period of a statement entry: 4 under [yearly], else
    [1 + (m - 1) // 3] for the month [m] of its date. *)
Definition period_of (freq : string) (d : date) : Z :=
  if String.eqb freq "yearly" then 4 else 1 + (month d - 1) / 3.

(** The rows of one statement entry, dated [d]: one per reported metric,
    in the order of the metrics. *)
Definition entry_rows (h : Financilas.header) (stype freq : string) (d : date)
  (metrics : json) : list Financilas.line_item :=
  map (fun metric : string * json =>
         Financilas.mkitem (Financilas.h_symbol h) (Financilas.h_yf_name h)
           stype (fst metric) (Financilas.h_stockcurrency h)
           (Financilas.h_financialcurrency h) (year d) (period_of freq d)
           (Financilas.finite_or_none (snd metric)) d)
      (filter reported (members_of metrics)).

(** The rows of one date group: none when its key is no date. *)
Definition group_rows (h : Financilas.header) (stype freq : string)
  (entry : string * json) : list Financilas.line_item :=
  match Financilas.parse_date (fst entry) with
  | Some d => entry_rows h stype freq d (snd entry)
  | None => []
  end.

(** The rows of a payload: section after section, under each one the
    yearly entries and then the quarterly ones, each in the order of the
    payload. *)
Definition expected_rows (h : Financilas.header) (info_json : json)
  : list Financilas.line_item :=
  flat_map
    (fun section : string * string =>
       flat_map
         (fun freq : string =>
            flat_map (group_rows h (snd section) freq)
                     (members_of (field (field info_json (fst section)) freq)))
         ["yearly"; "quarterly"])
    Financilas.folder_map.

(** The text that [parse_json_value] decodes: the stored text, or the
    UTF-8 decoding of the stored bytes; [None] for a stored value of
    another type. *)
Definition stored_text (j : column_value) : option string :=
  match j with
  | ColBytes b => Some (decode_utf8 b)
  | ColValue (JStr s) => Some s
  | ColValue _ => None
  end.

End Shape.
End FinancilasShape.

(** ** [details.py]: labels of the statement frames *)

Module Frames.

(** A row or column label of a frame: a [pd.Timestamp], given by its date
    and by what [isoformat] writes after the separator (the time of day,
    with its fraction and offset if any), or any other object, given by its
    [str]. *)
Inductive label :=
| Timestamp (d : date) (time : string)
| Label (str : string).

(** The date of [Timestamp.isoformat]: [YYYY-MM-DD]. *)
Definition isoformat_date (d : date) : string :=
  (Summary.four_digits (year d) ++ "-" ++ Summary.two_digits (month d)
   ++ "-" ++ Summary.two_digits (day d))%string.

(** [x.isoformat(sep=" ")] *)
Definition isoformat (sep : ascii) (d : date) (time : string) : string :=
  (isoformat_date d ++ String sep time)%string.

Definition _str_key (x : label) : string :=
  match x with
  | Timestamp d time => isoformat " " d time
  | Label str => str
  end.

(** A [DataFrame]: the labels of its rows and, for every column, its label
    and its cells, one per row. *)
Record dataframe := mkframe {
  index : list label;
  columns : list (label * list Details.pyval)
}.

(** [df.empty]: one of the two axes has no label. *)
Definition empty (df : dataframe) : bool :=
  match index df, columns df with
  | [], _ | _, [] => true
  | _, _ => false
  end.

(** What the attributes of a [yfinance.Ticker] give when they are read:
    [get_info()] and [info] a dictionary, the statement attributes a
    frame or [None]; each read can raise. *)
Record ticker := mkticker {
  get_info : result (list (Details.pykey * Details.pyval));
  info : result (list (Details.pykey * Details.pyval));
  attribute : string -> result (option dataframe)
}.

(** [getattr(t, name, None)] *)
Definition getattr_or_none (t : ticker) (name : string)
  : result (option dataframe) :=
  match attribute t name with
  | Raise AttributeError => Ok None
  | outcome => outcome
  end.

Section Fetch.
Context {R : Runtime}.
(** The cell that [df2.where(pd.notnull(df2), None)] leaves in the place
    of a cell (which cells stay missing depends on the column type), and
    the text [f"{type(e).__name__}: {e}"] of an exception. *)
Variable where_notnull : Details.pyval -> Details.pyval.
Variable describe : exn -> string.

(** [df2.to_dict()] after the relabelling: one dictionary per column,
    from row label to cell.  [_str_key] raises nothing on a [label], so the
    two [except] branches, which relabel with [str], are not taken. *)
Definition df_to_jsonable (df : option dataframe) : Details.pyval :=
  match df with
  | None => Details.PDict []
  | Some df =>
      if empty df then Details.PDict []
      else
        Details.PDict
          (Details.dict_of
             (map (fun column : label * list Details.pyval =>
                     (_str_key (fst column),
                      Details.PDict
                        (Details.dict_of
                           (combine (map _str_key (index df))
                                    (map where_notnull (snd column))))))
                  (columns df)))
  end.

Definition error_info (e : exn) : list (Details.pykey * Details.pyval) :=
  [(Details.KStr "_error", Details.PStr (describe e))].

(** The two nested [try] blocks; [d or {}] is [d] for a dictionary. *)
Definition info_or_error (t : ticker) : list (Details.pykey * Details.pyval) :=
  match get_info t with
  | Ok d => d
  | Raise AttributeError =>
      match info t with
      | Ok d => d
      | Raise e => error_info e
      end
  | Raise e => error_info e
  end.

(** The dictionary display of [fetch_for_symbol]. *)
Definition payload_of (i cy cq bY bq iy iq : Details.pyval) : Details.pyval :=
  Details.PDict
    [(Details.KStr "info", i);
     (Details.KStr "cashflow",
      Details.PDict [(Details.KStr "yearly", cy); (Details.KStr "quarterly", cq)]);
     (Details.KStr "balancesheet",
      Details.PDict [(Details.KStr "yearly", bY); (Details.KStr "quarterly", bq)]);
     (Details.KStr "incomestatement",
      Details.PDict [(Details.KStr "yearly", iy); (Details.KStr "quarterly", iq)])].

(** [fetch_for_symbol], from the ticker that [yf.Ticker(symbol)] gave. *)
Definition fetch_for_symbol (t : ticker) : result Details.pyval :=
  let i := info_or_error t in
  cy <- getattr_or_none t "cashflow" ;;
  cq <- getattr_or_none t "quarterly_cashflow" ;;
  bY <- getattr_or_none t "balance_sheet" ;;
  bq <- getattr_or_none t "quarterly_balance_sheet" ;;
  iy <- getattr_or_none t "financials" ;;
  iq <- getattr_or_none t "quarterly_financials" ;;
  Ok (Details.clean_json
        (payload_of (Details.PDict i)
           (df_to_jsonable cy) (df_to_jsonable cq)
           (df_to_jsonable bY) (df_to_jsonable bq)
           (df_to_jsonable iy) (df_to_jsonable iq))).

End Fetch.

(** *** From the loader to the normalizers *)

Fixpoint all_some {A : Type} (l : list (option A)) : option (list A) :=
  match l with
  | [] => Some []
  | Some x :: rest => option_map (cons x) (all_some rest)
  | None :: _ => None
  end.

(** [sys.get_int_max_str_digits()]: the default of CPython 3.11 and
    later, which [details.py] needs for [datetime.UTC]. *)
Definition int_max_str_digits : Z := 4300.

(** [str(n)] raises [ValueError]: [n] has more than 4300 decimal digits. *)
Definition long_int (n : Z) : bool := 10 ^ int_max_str_digits <=? Z.abs n.

(** A sanitized value holds such an [int]. *)
Fixpoint holds_long_int (v : Details.pyval) : bool :=
  match v with
  | Details.PInt n => long_int n
  | Details.PList l => existsb holds_long_int l
  | Details.PDict members =>
      existsb (fun kv : Details.pykey * Details.pyval => holds_long_int (snd kv))
              members
  | _ => false
  end.

(** The value that [json.loads] reads from the text that
    [json.dumps(v, ensure_ascii=False, allow_nan=False)] writes, for the
    values that are written as they are: [None], [bool], [int] of at most
    4300 digits, [str], finite [float], lists and dictionaries with [str]
    keys of such values.  It is [None] where [json.dumps] raises (a longer
    [int], a NaN, an infinity) and on every value of another kind. *)
Fixpoint to_json (v : Details.pyval) : option json :=
  match v with
  | Details.PNone => Some JNull
  | Details.PBool b => Some (JBool b)
  | Details.PInt n => if long_int n then None else Some (JInt n)
  | Details.PStr s => Some (JStr s)
  | Details.PFloat f => if isnan f || isinf f then None else Some (JFloat f)
  | Details.PList l => option_map JArr (all_some (map to_json l))
  | Details.PDict members =>
      option_map JObj
        (all_some
           (map (fun kv : Details.pykey * Details.pyval =>
                   match fst kv with
                   | Details.KStr k => option_map (pair k) (to_json (snd kv))
                   | Details.KOther _ => None
                   end)
                members))
  | _ => None
  end.

End Frames.

(** ** Characters of a text *)

(** Every character of [s] satisfies [p]. *)
Fixpoint all_chars (p : ascii -> bool) (s : string) : bool :=
  match s with
  | EmptyString => true
  | String c r => p c && all_chars p r
  end.

(** [ch not in s] *)
Definition lacks (ch : ascii) (s : string) : bool :=
  all_chars (fun c => negb (Ascii.eqb c ch)) s.

Module SummaryShape.

(** [v] is a text, or [clean_text(v)] returns at its first test. *)
Definition text_or_falsy (v : json) : bool :=
  match v with
  | JStr _ => true
  | _ => negb (truthy v)
  end.

Definition is_mapping (v : json) : bool :=
  match v with
  | JObj _ => true
  | _ => false
  end.

(** [obj.get("info") or obj], for a dictionary or falsy [root_obj]. *)
Definition info_part (root_obj : json) : json :=
  py_or (field root_obj "info") (JObj (members_of root_obj)).

(** [d.get(k1) or d.get(k2)] *)
Definition either (d : json) (k1 k2 : string) : json :=
  py_or (field d k1) (field d k2).

(** The summary is looked up in the profile only when neither
    [info.longBusinessSummary] nor [obj.summary] is truthy. *)
Definition profile_read (root_obj : json) : bool :=
  negb (truthy (field (info_part root_obj) "longBusinessSummary"))
  && negb (truthy (field root_obj "summary")).

Definition summary_text (root_obj : json) : json :=
  py_or (field (info_part root_obj) "longBusinessSummary")
        (py_or (field root_obj "summary")
               (field (field root_obj "profile") "longBusinessSummary")).

(** The texts that [normalize_summary] hands to [clean_text], in the
    order of the source. *)
Definition cleaned_values (root_obj : json) : list json :=
  let info := info_part root_obj in
  [py_or (either info "longName" "shortName") (either info "displayName" "name");
   summary_text root_obj;
   either info "sector" "sectorDisp";
   either info "industry" "industryDisp";
   either info "website" "irWebsite";
   field info "city";
   either info "state" "province";
   field info "country";
   either info "currency" "financialCurrency"].

(** The payloads on which [normalize_summary] applies [.get] to
    dictionaries only and [.strip] to texts only. *)
Definition well_shaped (root_obj : json) : bool :=
  mapping_or_falsy root_obj
  && is_mapping (info_part root_obj)
  && (negb (profile_read root_obj)
      || mapping_or_falsy (field root_obj "profile"))
  && forallb text_or_falsy (cleaned_values root_obj).

End SummaryShape.

(** ** The loops of [Financilas.main] and [Summary.main] *)

Module FinancilasLoop.
Section Loop.
Context {R : Runtime}.
(** The connection, as in the loop of [Summary.main]: the state of the
    database, the statement that reads one source row, the batch insert
    and the commit. *)
Variable db : Type.
Variable load_one_row : db -> json -> result (option (json * column_value)).
Variable executemany : db -> list Financilas.line_item -> result db.
Variable commit : db -> result db.
Variable COMMIT_EVERY_SYMBOLS : Z.

(** [upsert_financials(cur, rows)]: the database and [len(rows)]. *)
Definition upsert_financials (cur : db) (rows : list Financilas.line_item)
  : result (db * Z) :=
  match rows with
  | [] => Ok (cur, 0)
  | _ :: _ =>
      cur' <- executemany cur rows ;;
      Ok (cur', Z.of_nat (List.length rows))
  end.

(** One iteration of the [for i, symbol in enumerate(symbols, 1)] loop. *)
Definition step (st : Summary.run db) (i : Z) (symbol : json) : Summary.run db :=
  match load_one_row (Summary.store st) symbol with
  | Raise _ => Summary.failed st
  | Ok None => st
  | Ok (Some (stock, j)) =>
      let obj := parse_json_value j in
      match Financilas.normalize_financials stock obj with
      | Raise _ => Summary.failed st
      | Ok rows =>
          match upsert_financials (Summary.store st) rows with
          | Raise _ => Summary.failed st
          | Ok (store', upserted) =>
              let st' := Summary.mkrun store' (Summary.total_rows st + upserted)
                                       (Summary.errors st) in
              if COMMIT_EVERY_SYMBOLS =? 0 then Summary.failed st'
              else if i mod COMMIT_EVERY_SYMBOLS =? 0
                   then match commit store' with
                        | Ok store'' =>
                            Summary.mkrun store'' (Summary.total_rows st')
                                          (Summary.errors st')
                        | Raise _ => Summary.failed st'
                        end
                   else st'
          end
      end
  end.

(** The loop, from the iteration numbered [i] on. *)
Fixpoint loop (st : Summary.run db) (i : Z) (symbols : list json)
  : Summary.run db :=
  match symbols with
  | [] => st
  | symbol :: rest => loop (step st i symbol) (i + 1) rest
  end.

End Loop.

Arguments upsert_financials {db} executemany cur rows.
Arguments step {R db} load_one_row executemany commit COMMIT_EVERY_SYMBOLS st i symbol.
Arguments loop {R db} load_one_row executemany commit COMMIT_EVERY_SYMBOLS st i symbols.

End FinancilasLoop.

Module SummaryLoop.
Section Loop.
Context {R : Runtime}.
Variable db : Type.
Variable load_one_row : db -> json -> result (option (json * column_value)).
Variable upsert_summary : db -> list Summary.summary_row -> result db.
Variable commit : db -> result db.
Variable COMMIT_EVERY_SYMBOLS : Z.
(** The reading of [datetime.utcnow()] during iteration [i]. *)
Variable utcnow : Z -> Summary.clock.

(** The [for i, s in enumerate(symbols, 1)] loop, from the iteration
    numbered [i] on. *)
Fixpoint loop (st : Summary.run db) (i : Z) (symbols : list json)
  : Summary.run db :=
  match symbols with
  | [] => st
  | s :: rest =>
      loop (Summary.step load_one_row upsert_summary commit
                         COMMIT_EVERY_SYMBOLS (utcnow i) st i s)
           (i + 1) rest
  end.

End Loop.

Arguments loop {R db} load_one_row upsert_summary commit COMMIT_EVERY_SYMBOLS utcnow st i symbols.

End SummaryLoop.

(** ** A connection that records what it accepted

    The database paired with the batches whose insert succeeded, oldest
    first. *)
Section Recording.
Variable db : Type.
Variable row : Type.

Definition recording_load {A : Type} (load_one_row : db -> json -> result A)
  (cur : db * list (list row)) (s : json) : result A :=
  load_one_row (fst cur) s.

Definition recording_insert (insert : db -> list row -> result db)
  (cur : db * list (list row)) (rows : list row)
  : result (db * list (list row)) :=
  cur' <- insert (fst cur) rows ;;
  Ok (cur', snd cur ++ [rows]).

Definition recording_commit (commit : db -> result db)
  (cur : db * list (list row)) : result (db * list (list row)) :=
  cur' <- commit (fst cur) ;;
  Ok (cur', snd cur).

(** Between the states [st] and [st'] of a run the database accepted the
    batches [added], and [total_rows] counted their rows. *)
Definition accepted (st st' : Summary.run (db * list (list row)))
  (added : list (list row)) : Prop :=
  snd (Summary.store st') = snd (Summary.store st) ++ added
  /\ Summary.total_rows st'
     = Summary.total_rows st + Z.of_nat (List.length (List.concat added)).

End Recording.

Arguments recording_load {db row A} load_one_row cur s.
Arguments recording_insert {db row} insert cur rows.
Arguments recording_commit {db row} commit cur.
Arguments accepted {db row} st st' added.

(** ** [details.py]: the symbols to fetch and the loop of [main] *)

Module LoaderMain.

(** [Series.dropna()]: a missing cell is [None]. *)
Definition dropna {A : Type} (col : list (option A)) : list A :=
  flat_map (fun cell => match cell with Some x => [x] | None => [] end) col.

(** [.replace({"": None})] on one cell. *)
Definition replace_empty (s : string) : option string :=
  match s with
  | EmptyString => None
  | _ => Some s
  end.

(** [Series.drop_duplicates()]: of equal values the first one stays. *)
Fixpoint drop_duplicates (l : list string) : list string :=
  match l with
  | [] => []
  | x :: rest =>
      x :: filter (fun y => negb (String.eqb y x)) (drop_duplicates rest)
  end.

(** The chain on [df[sym_col]] in [main]; a cell that is not missing is
    given by the text [astype(str)] makes of it. *)
Definition symbols_of (column : list (option string)) : list string :=
  drop_duplicates
    (dropna (map replace_empty (map PyStr.strip (dropna column)))).

(** [get_existing_symbols], from the outcome of its [SELECT]: a database
    error gives the empty set. *)
Definition get_existing_symbols (select : result (list string))
  : result (list string) :=
  match select with
  | Ok rows => Ok rows
  | Raise (DatabaseError _) => Ok []
  | Raise e => Raise e
  end.

(** [[s for s in symbols if s not in already]] *)
Definition to_fetch (symbols already : list string) : list string :=
  filter (fun s => negb (existsb (String.eqb s) already)) symbols.

Section Loop.
Variable conn : Type.
Variable payload : Type.
(** The network call, the [INSERT] (with the serialization of its
    arguments), the commit and the rollback. *)
Variable fetch_for_symbol : string -> result payload.
Variable execute_insert : conn -> string -> payload -> conn * option exn.
Variable commit : conn -> conn * option exn.
Variable rollback : conn -> conn * option exn.

(** The [except mysql.Error] block: roll back, then raise a
    [RuntimeError]; an exception of the rollback itself goes through. *)
Definition rolled_back (c : conn) : conn * option exn :=
  match rollback c with
  | (c', None) => (c', Some RuntimeError)
  | outcome => outcome
  end.

(** [insert_symbol_payload]: the insert, then the commit; a database
    error of either one is handled by the [except] block. *)
Definition insert_symbol_payload (c : conn) (symbol : string) (p : payload)
  : conn * option exn :=
  match execute_insert c symbol p with
  | (c1, None) =>
      match commit c1 with
      | (c2, Some (DatabaseError _)) => rolled_back c2
      | outcome => outcome
      end
  | (c1, Some (DatabaseError _)) => rolled_back c1
  | outcome => outcome
  end.

Record progress := mkprogress {
  connection : conn;
  loaded_ok : list string;
  failed : Z
}.

(** One iteration of the [for sym in to_fetch] loop. *)
Definition step (st : progress) (sym : string) : progress :=
  match fetch_for_symbol sym with
  | Raise _ => mkprogress (connection st) (loaded_ok st) (failed st + 1)
  | Ok p =>
      match insert_symbol_payload (connection st) sym p with
      | (c, None) => mkprogress c (loaded_ok st ++ [sym]) (failed st)
      | (c, Some _) => mkprogress c (loaded_ok st) (failed st + 1)
      end
  end.

Definition loop (st : progress) (symbols : list string) : progress :=
  fold_left step symbols st.

End Loop.

Arguments rolled_back {conn} rollback c.
Arguments insert_symbol_payload {conn payload} execute_insert commit rollback c symbol p.
Arguments mkprogress {conn} connection loaded_ok failed.
Arguments connection {conn} p.
Arguments loaded_ok {conn} p.
Arguments failed {conn} p.
Arguments step {conn payload} fetch_for_symbol execute_insert commit rollback st sym.
Arguments loop {conn payload} fetch_for_symbol execute_insert commit rollback st symbols.

End LoaderMain.

(** ** Further inputs of the worked instances *)

Module MoreExamples.

(** The columns of the table that [ensure_table] of [details.py]
    creates. *)
Definition yahoo_financials_columns : list string :=
  ["id"; "symbol"; "payload"; "loaded_at"].

(** The columns of the file that [main.py] saves. *)
Definition csv_columns : list string :=
  ["symbol"; "company"; "industry"; "market_cap"].

(** A symbol column with surrounding whitespace, a missing cell, a
    repetition and a blank cell. *)
Definition symbol_cells : list (option string) :=
  [Some " AAPL "; None; Some "MSFT"; Some "AAPL"; Some "  "].

Definition hundred : pyfloat := S754_finite false 25 2.

(** A ticker with a name, one yearly cash flow column of two metrics, one
    of them missing, and no other statement. *)
Definition acme_ticker : Frames.ticker :=
  Frames.mkticker
    (Ok [(Details.KStr "longName", Details.PStr "Acme Corp")])
    (Raise AttributeError)
    (fun name =>
       if String.eqb name "cashflow"
       then Ok (Some (Frames.mkframe
                        [Frames.Label "FreeCashFlow"; Frames.Label "CapEx"]
                        [(Frames.Timestamp (mkdate 2023 12 31) "00:00:00",
                          [Details.PFloat hundred; Details.PFloat S754_nan])]))
       else Raise AttributeError).

Definition unchanged (v : Details.pyval) : Details.pyval := v.

Definition type_name (e : exn) : string :=
  match e with
  | AttributeError => "AttributeError"
  | ValueError => "ValueError"
  | TypeError => "TypeError"
  | IndexError => "IndexError"
  | ZeroDivisionError => "ZeroDivisionError"
  | DatabaseError _ => "Error"
  | OtherError name => name
  end.

(** A network on which only [MSFT] cannot be fetched, and a table that
    accepts every insert and commit. *)
Definition fetch_but_msft (sym : string) : result unit :=
  if String.eqb sym "MSFT" then Raise (OtherError "HTTPError") else Ok tt.

Definition insert_ok (c : unit) (_ : string) (_ : unit) : unit * option exn :=
  (c, None).

Definition commit_ok (c : unit) : unit * option exn := (c, None).

Definition rollback_ok (c : unit) : unit * option exn := (c, None).

(** A table that refuses [MSFT] as a duplicate (error 1062) and accepts
    every other insert; every symbol can be fetched. *)
Definition fetch_ok (_ : string) : result unit := Ok tt.

Definition insert_but_msft (c : unit) (sym : string) (_ : unit)
  : unit * option exn :=
  if String.eqb sym "MSFT" then (c, Some (DatabaseError 1062)) else (c, None).

(** A cash flow reported for 31 March 2023 both as the year and as its
    first quarter. *)
Definition march_twice : json :=
  JObj [("cashflow",
         JObj [("yearly",
                JObj [("2023-03-31 00:00:00", JObj [("FreeCashFlow", JInt 1)])]);
               ("quarterly",
                JObj [("2023-03-31 00:00:00", JObj [("FreeCashFlow", JInt 2)])])])].

Definition march_header : Financilas.header :=
  Financilas.mkheader Examples.acme JNull JNull JNull.

Definition march_year : Financilas.line_item :=
  Financilas.mkitem Examples.acme JNull "CF" "FreeCashFlow" JNull JNull 2023 4
                    (JInt 1) (mkdate 2023 3 31).

Definition march_quarter : Financilas.line_item :=
  Financilas.mkitem Examples.acme JNull "CF" "FreeCashFlow" JNull JNull 2023 1
                    (JInt 2) (mkdate 2023 3 31).

(** A ticker whose [info] holds an [int] of 4301 digits. *)
Definition long_ticker : Frames.ticker :=
  Frames.mkticker
    (Ok [(Details.KStr "sharesOutstanding", Details.PInt (10 ^ 4300))])
    (Raise AttributeError)
    (fun _ => Raise AttributeError).

End MoreExamples.

(** * Properties *)

(** Inversion of a chain of [bind]s that ended in [Ok]: every step was
    [Ok]. *)
Ltac bind_ok H :=
  repeat match type of H with
         | bind ?c _ = Ok _ =>
             let E := fresh "E" in
             destruct c eqn:E; cbn [bind] in H; [|discriminate H]
         end.

Lemma for_each_In {A B : Type} (body : A -> result (list B)) (l : list A)
  (rows : list B) (r : B) :
  for_each body l = Ok rows -> In r rows ->
  exists a out, In a l /\ body a = Ok out /\ In r out.
Proof.
  revert rows. induction l as [|a l IH]; simpl; intros rows H Hin.
  - injection H as <-. contradiction.
  - bind_ok H. injection H as <-.
    apply in_app_or in Hin. destruct Hin as [Hin|Hin].
    + exists a, a0. auto.
    + destruct (IH _ eq_refl Hin) as (a' & out & Ha & Hb & Hr).
      exists a', out. auto.
Qed.

Lemma NoDup_append {A : Type} (l1 l2 : list A) :
  NoDup l1 -> NoDup l2 -> (forall x, In x l1 -> ~ In x l2) -> NoDup (l1 ++ l2).
Proof.
  induction l1 as [|a l1 IH]; simpl; intros H1 H2 Hd; [assumption|].
  inversion H1; subst. constructor.
  - intros Hin. apply in_app_or in Hin. destruct Hin as [Hin|Hin]; [contradiction|].
    apply (Hd a); auto.
  - apply IH; auto.
Qed.

Lemma valid_date_month (d : date) :
  valid_date d = true -> 1 <= month d <= 12.
Proof.
  unfold valid_date. rewrite !andb_true_iff, !Z.leb_le. lia.
Qed.

Lemma quarter_bounds (m : Z) : 1 <= m <= 12 -> 1 <= (m - 1) / 3 + 1 <= 4.
Proof.
  intros H.
  pose proof (Z.div_mod (m - 1) 3 ltac:(lia)).
  pose proof (Z.mod_pos_bound (m - 1) 3 ltac:(lia)).
  lia.
Qed.

Lemma fourth_quarter (m : Z) : 10 <= m <= 12 -> (m - 1) / 3 + 1 = 4.
Proof.
  intros H.
  pose proof (Z.div_mod (m - 1) 3 ltac:(lia)).
  pose proof (Z.mod_pos_bound (m - 1) 3 ltac:(lia)).
  lia.
Qed.

Lemma for_each_cons {A B : Type} (body : A -> result (list B)) (a : A)
  (l : list A) (rows : list B) :
  for_each body (a :: l) = Ok rows ->
  exists r1 r2, body a = Ok r1 /\ for_each body l = Ok r2 /\ rows = r1 ++ r2.
Proof.
  cbn [for_each]. intros H. bind_ok H. injection H as <-.
  eexists _, _. repeat split; reflexivity.
Qed.

Lemma for_each_nil {A B : Type} (body : A -> result (list B)) (rows : list B) :
  for_each body [] = Ok rows -> rows = [].
Proof. cbn [for_each]. intros H. injection H as <-. reflexivity. Qed.

Lemma unique_keys_members (members : list (string * json)) :
  unique_keys (JObj members) ->
  NoDup (map fst members) /\ forall kv, In kv members -> unique_keys (snd kv).
Proof.
  cbn [unique_keys]. intros [Hnd Hall]. split; [exact Hnd|]. clear Hnd.
  induction members as [|kv members IH]; intros kv' Hin; [contradiction|].
  destruct Hall as [Hkv Hall]. destruct Hin as [<-|Hin]; auto.
Qed.

Lemma unique_keys_items (v : json) (ms : list (string * json)) :
  unique_keys v -> items v = Ok ms ->
  NoDup (map fst ms) /\ forall kv, In kv ms -> unique_keys (snd kv).
Proof.
  destruct v; try discriminate. cbn [items]. intros Hu H. injection H as <-.
  apply unique_keys_members. exact Hu.
Qed.

Lemma assoc_In (k : string) (members : list (string * json)) (v : json) :
  assoc k members = Some v -> In (k, v) members.
Proof.
  induction members as [|(k', v') members IH]; cbn [assoc]; [discriminate|].
  destruct (String.eqb k k') eqn:E.
  - apply String.eqb_eq in E. subst k'. intros H. injection H as <-. left. reflexivity.
  - intros H. right. auto.
Qed.

Lemma unique_keys_get (v : json) (k : string) (x : json) :
  unique_keys v -> get v k = Ok x -> unique_keys x.
Proof.
  destruct v; try discriminate. unfold get, get_default. intros Hu H.
  injection H as <-. destruct (assoc k members) as [x|] eqn:E; [|exact I].
  apply assoc_In in E.
  apply (proj2 (unique_keys_members _ Hu) (k, x)). exact E.
Qed.

Lemma unique_keys_or_empty (v : json) :
  unique_keys v -> unique_keys (py_or v (JObj [])).
Proof.
  intros H. unfold py_or. destruct (truthy v); [exact H|].
  cbn. split; [constructor|exact I].
Qed.

Section FinancilasProperties.
Import Financilas.
Context {R : Runtime}.

Lemma strptime_ymd_valid (s : string) (d : date) :
  strptime_ymd s = Some d -> valid_date d = true.
Proof.
  unfold strptime_ymd.
  repeat (match goal with
          | |- context [match ?x with _ => _ end] =>
              destruct x eqn:?; try discriminate
          end).
  intros H. injection H as <-. assumption.
Qed.

Lemma parse_date_valid (dt_str : string) (d : date) :
  parse_date dt_str = Some d -> valid_date d = true.
Proof.
  unfold parse_date.
  destruct (strptime_ymd (PyStr.take 10 dt_str)) eqn:E.
  - intros H. injection H as <-. eapply strptime_ymd_valid; eauto.
  - destruct (PyStr.split_first dt_str); [|discriminate].
    apply fromisoformat_valid.
Qed.

Lemma metric_rows_In (h : header) (stype : string) (y p : Z) (d : date)
  (ms : list (string * json)) (r : line_item) :
  In r (metric_rows h stype y p d ms) ->
  stock r = h_symbol h /\ statement_type r = stype /\ calendar_year r = y
  /\ period r = p /\ statement_date r = d /\ In (metric r) (map fst ms).
Proof.
  unfold metric_rows. rewrite in_flat_map.
  intros ((k, v) & Hin & Hr).
  destruct (String.eqb k ""); [contradiction|].
  destruct (is_dict_or_list v); [contradiction|].
  destruct Hr as [<-|[]]; simpl.
  repeat split; auto. apply (in_map fst) in Hin. exact Hin.
Qed.

Lemma date_group_rows_In (h : header) (stype freq dt_str : string)
  (metrics : json) (rows : list line_item) (r : line_item) :
  date_group_rows h stype freq (dt_str, metrics) = Ok rows -> In r rows ->
  exists d, parse_date dt_str = Some d
    /\ statement_date r = d
    /\ period r = (if String.eqb freq "yearly" then 4 else quarter_from_date d)
    /\ statement_type r = stype
    /\ stock r = h_symbol h.
Proof.
  unfold date_group_rows.
  destruct (parse_date dt_str) as [d|] eqn:Ed.
  - intros H Hin. bind_ok H. injection H as <-.
    apply metric_rows_In in Hin. exists d. intuition.
  - intros H Hin. injection H as <-. contradiction.
Qed.

Lemma normalize_financials_rows (symbol payload : json) (rows : list line_item) :
  normalize_financials symbol payload = Ok rows ->
  exists h, h_symbol h = symbol
    /\ for_each (folder_rows h (py_or payload (JObj []))) folder_map = Ok rows.
Proof.
  unfold normalize_financials. intros H. bind_ok H.
  eexists. split; [|exact H]. reflexivity.
Qed.

Lemma freq_rows_entries (h : header) (root b : json) (folder stype freq : string)
  (rows : list line_item) :
  get root folder = Ok b ->
  freq_rows h stype (py_or b (JObj [])) freq = Ok rows ->
  exists groups,
    entries root folder freq = Ok groups
    /\ for_each (date_group_rows h stype freq) groups = Ok rows.
Proof.
  intros Hb H. unfold freq_rows in H. bind_ok H.
  exists a0. split; [|exact H].
  unfold entries. rewrite Hb. cbn [bind]. rewrite E. cbn [bind]. exact E0.
Qed.

(** Every row of the output was appended by the loop body of one date
    group, listed in the payload under one statement section and one of the
    two periodicity labels. *)
Lemma row_origin (symbol payload : json) (rows : list line_item) (r : line_item) :
  normalize_financials symbol payload = Ok rows -> In r rows ->
  exists h folder stype freq groups entry group,
    In (folder, stype) folder_map
    /\ (freq = "yearly" \/ freq = "quarterly")
    /\ entries (py_or payload (JObj [])) folder freq = Ok groups
    /\ In entry groups
    /\ date_group_rows h stype freq entry = Ok group
    /\ In r group.
Proof.
  intros H Hin.
  destruct (normalize_financials_rows _ _ _ H) as (h & _ & Hf).
  destruct (for_each_In _ _ _ _ Hf Hin) as ((folder, stype) & out & Hfolder & Hb & Hr).
  unfold folder_rows in Hb. bind_ok Hb.
  destruct (for_each_In _ _ _ _ Hb Hr) as (freq & out' & Hfreq & Hb' & Hr').
  destruct (freq_rows_entries _ _ _ _ _ _ _ E Hb') as (groups & He & Hg).
  destruct (for_each_In _ _ _ _ Hg Hr') as (entry & group & Hentry & Hgroup & Hrg).
  exists h, folder, stype, freq, groups, entry, group.
  repeat split; auto.
  simpl in Hfreq. intuition.
Qed.

Lemma metric_rows_keys (h : header) (stype : string) (y p : Z) (d : date)
  (ms : list (string * json)) :
  NoDup (map fst ms) -> NoDup (map key (metric_rows h stype y p d ms)).
Proof.
  induction ms as [|(k, v) ms IH]; intros Hnd; [constructor|].
  inversion Hnd as [|? ? Hk Hrest]; subst.
  change (metric_rows h stype y p d ((k, v) :: ms))
    with ((if String.eqb k "" then []
           else if is_dict_or_list v then []
           else [mkitem (h_symbol h) (h_yf_name h) stype k (h_stockcurrency h)
                        (h_financialcurrency h) y p (finite_or_none v) d])
          ++ metric_rows h stype y p d ms).
  destruct (String.eqb k ""); [apply IH; exact Hrest|].
  destruct (is_dict_or_list v); [apply IH; exact Hrest|].
  cbn [app map]. constructor; [|apply IH; exact Hrest].
  intros Hin. apply in_map_iff in Hin. destruct Hin as (r & Hkey & Hr).
  apply metric_rows_In in Hr. destruct Hr as (_ & _ & _ & _ & _ & Hm).
  unfold key in Hkey. cbn in Hkey. injection Hkey as _ _ Hmk _.
  rewrite Hmk in Hm. contradiction.
Qed.

Lemma group_rows_keys (h : header) (stype freq : string)
  (groups : list (string * json)) (rows : list line_item) :
  for_each (date_group_rows h stype freq) groups = Ok rows ->
  (forall entry, In entry groups -> unique_keys (snd entry)) ->
  NoDup (group_dates groups) ->
  NoDup (map key rows)
  /\ forall r, In r rows ->
       In (statement_date r) (group_dates groups) /\ statement_type r = stype.
Proof.
  revert rows. induction groups as [|(dt_str, metrics) groups IH]; intros rows H Hu Hnd.
  - apply for_each_nil in H. subst. split; [constructor|contradiction].
  - apply for_each_cons in H. destruct H as (r1 & r2 & H1 & H2 & ->).
    assert (Hu' : forall entry, In entry groups -> unique_keys (snd entry)).
    { intros entry Hin. apply Hu. right. exact Hin. }
    unfold group_dates in Hnd |- *. cbn [flat_map fst] in Hnd |- *.
    unfold date_group_rows in H1.
    destruct (parse_date dt_str) as [d|] eqn:Ed.
    + bind_ok H1. injection H1 as <-.
      cbn [app] in Hnd. inversion Hnd as [|? ? Hd Hrest]; subst.
      destruct (IH _ H2 Hu' Hrest) as (IHk & IHd).
      assert (Hms : NoDup (map fst a)).
      { apply (unique_keys_items (py_or metrics (JObj []))); [|exact E].
        apply unique_keys_or_empty. apply (Hu (dt_str, metrics)). left. reflexivity. }
      split.
      * rewrite map_app. apply NoDup_append; [apply metric_rows_keys; exact Hms|exact IHk|].
        intros x Hx1 Hx2.
        apply in_map_iff in Hx1. destruct Hx1 as (ra & <- & Hra).
        apply in_map_iff in Hx2. destruct Hx2 as (rb & Hkey & Hrb).
        apply metric_rows_In in Hra. destruct Hra as (_ & _ & _ & _ & Hda & _).
        apply IHd in Hrb. destruct Hrb as (Hdb & _).
        unfold key in Hkey. injection Hkey as _ _ _ Hdd.
        rewrite Hdd, Hda in Hdb. contradiction.
      * intros r Hr. apply in_app_or in Hr. destruct Hr as [Hr|Hr].
        -- apply metric_rows_In in Hr. destruct Hr as (_ & Hs & _ & _ & Hda & _).
           split; [left; symmetry; exact Hda|exact Hs].
        -- apply IHd in Hr. destruct Hr as (Hda & Hs). split; [right; exact Hda|exact Hs].
    + injection H1 as <-. cbn [app] in Hnd |- *. apply IH; assumption.
Qed.

Lemma folder_rows_keys (h : header) (root : json) (folder stype : string)
  (rows : list line_item) :
  folder_rows h root (folder, stype) = Ok rows ->
  unique_keys root ->
  (forall dates, folder_dates root folder = Ok dates -> NoDup dates) ->
  NoDup (map key rows) /\ forall r, In r rows -> statement_type r = stype.
Proof.
  unfold folder_rows. intros H Hu Hd. bind_ok H. rename a into b.
  apply for_each_cons in H. destruct H as (ry & rest & Hy & H & ->).
  apply for_each_cons in H. destruct H as (rq & rest' & Hq & H & ->).
  apply for_each_nil in H. subst rest'. rewrite app_nil_r.
  destruct (freq_rows_entries _ _ _ _ _ _ _ E Hy) as (gy & Hey & Hgy).
  destruct (freq_rows_entries _ _ _ _ _ _ _ E Hq) as (gq & Heq & Hgq).
  specialize (Hd (group_dates gy ++ group_dates gq)).
  unfold folder_dates in Hd. rewrite Hey, Heq in Hd. specialize (Hd eq_refl).
  assert (Hentries : forall freq groups,
             entries root folder freq = Ok groups ->
             forall entry, In entry groups -> unique_keys (snd entry)).
  { intros freq groups He. unfold entries in He. bind_ok He.
    apply (unique_keys_items (py_or a0 (JObj []))); [|exact He].
    apply unique_keys_or_empty. apply (unique_keys_get (py_or a (JObj [])) freq); [|exact E1].
    apply unique_keys_or_empty. apply (unique_keys_get root folder); assumption. }
  destruct (group_rows_keys _ _ _ _ _ Hgy (Hentries _ _ Hey) (NoDup_app_remove_r _ _ Hd))
    as (Hky & Hdy).
  destruct (group_rows_keys _ _ _ _ _ Hgq (Hentries _ _ Heq) (NoDup_app_remove_l _ _ Hd))
    as (Hkq & Hdq).
  split.
  - rewrite map_app. apply NoDup_append; [exact Hky|exact Hkq|].
    intros x Hx1 Hx2.
    apply in_map_iff in Hx1. destruct Hx1 as (ra & <- & Hra).
    apply in_map_iff in Hx2. destruct Hx2 as (rb & Hkey & Hrb).
    apply Hdy in Hra. apply Hdq in Hrb. destruct Hra as (Hda & _), Hrb as (Hdb & _).
    unfold key in Hkey. injection Hkey as _ _ _ Hdd. rewrite Hdd in Hdb.
    revert Hda Hdb. clear - Hd. generalize (statement_date ra) as d.
    induction (group_dates gy) as [|d0 l IH]; intros d Hin1 Hin2; [contradiction|].
    cbn [app] in Hd. inversion Hd as [|? ? Hn Hrest]; subst.
    destruct Hin1 as [->|Hin1].
    + apply Hn. apply in_or_app. right. exact Hin2.
    + apply (IH Hrest d); assumption.
  - intros r Hr. apply in_app_or in Hr. destruct Hr as [Hr|Hr].
    + apply Hdy in Hr. tauto.
    + apply Hdq in Hr. tauto.
Qed.

(** The keys are distinct when no section lists one date twice: when the
    date keys of each statement section, over both periodicities, parse to
    pairwise different dates, no two records that [normalize_financials]
    returns share [(stock, statement_type, metric, date)]. *)
Lemma keys_unique_when_dates_differ (symbol payload : json)
  (rows : list line_item) :
  normalize_financials symbol payload = Ok rows ->
  unique_keys payload ->
  (forall folder stype dates,
      In (folder, stype) folder_map ->
      folder_dates (py_or payload (JObj [])) folder = Ok dates ->
      NoDup dates) ->
  NoDup (map key rows).
Proof.
  intros H Hu Hd.
  destruct (normalize_financials_rows _ _ _ H) as (h & _ & Hf). clear H.
  pose proof (unique_keys_or_empty _ Hu) as Hroot.
  unfold folder_map in Hf, Hd.
  apply for_each_cons in Hf. destruct Hf as (r1 & t1 & H1 & Hf & ->).
  apply for_each_cons in Hf. destruct Hf as (r2 & t2 & H2 & Hf & ->).
  apply for_each_cons in Hf. destruct Hf as (r3 & t3 & H3 & Hf & ->).
  apply for_each_nil in Hf. subst t3. rewrite app_nil_r.
  apply folder_rows_keys in H1; [|exact Hroot|intros dates; apply (Hd _ "CF"); cbn; auto].
  apply folder_rows_keys in H2; [|exact Hroot|intros dates; apply (Hd _ "IS"); cbn; auto].
  apply folder_rows_keys in H3; [|exact Hroot|intros dates; apply (Hd _ "BS"); cbn; auto].
  destruct H1 as (K1 & S1), H2 as (K2 & S2), H3 as (K3 & S3).
  assert (Hdiff : forall (la lb : list line_item) (sa sb : string),
             sa <> sb ->
             (forall r, In r la -> statement_type r = sa) ->
             (forall r, In r lb -> statement_type r = sb) ->
             forall x, In x (map key la) -> ~ In x (map key lb)).
  { intros la lb sa sb Hne Ha Hb x Hx1 Hx2.
    apply in_map_iff in Hx1. destruct Hx1 as (ra & <- & Hra).
    apply in_map_iff in Hx2. destruct Hx2 as (rb & Hkey & Hrb).
    unfold key in Hkey. injection Hkey as _ Hs _ _.
    apply Ha in Hra. apply Hb in Hrb. congruence. }
  rewrite !map_app. apply NoDup_append; [exact K1| |].
  - apply NoDup_append; [exact K2|exact K3|].
    apply (Hdiff r2 r3 "IS" "BS"); [discriminate|exact S2|exact S3].
  - intros x Hx1 Hx2. apply in_app_or in Hx2. destruct Hx2 as [Hx2|Hx2].
    + revert Hx2. apply (Hdiff r1 r2 "CF" "IS"); [discriminate|exact S1|exact S2|exact Hx1].
    + revert Hx2. apply (Hdiff r1 r3 "CF" "BS"); [discriminate|exact S1|exact S3|exact Hx1].
Qed.

End FinancilasProperties.

(** ** The profile normalizer *)

Lemma rae_ok {A : Type} (a : A) : raises_attribute_error (Ok a).
Proof. intros e H. discriminate H. Qed.

Lemma rae_bind {A B : Type} (c : result A) (k : A -> result B) :
  raises_attribute_error c -> (forall a, raises_attribute_error (k a)) ->
  raises_attribute_error (bind c k).
Proof.
  intros Hc Hk e. destruct c as [a|e']; cbn [bind].
  - apply Hk.
  - intros H. injection H as <-. apply Hc. reflexivity.
Qed.

Lemma rae_get_default (d : json) (k : string) (v : json) :
  raises_attribute_error (get_default d k v).
Proof. intros e. destruct d; cbn; intros H; congruence. Qed.

Lemma rae_get (d : json) (k : string) : raises_attribute_error (get d k).
Proof. apply rae_get_default. Qed.

Lemma rae_or_else (a : json) (b : result json) :
  raises_attribute_error b -> raises_attribute_error (or_else a b).
Proof. intros Hb. unfold or_else. destruct (truthy a); [apply rae_ok|exact Hb]. Qed.

Lemma rae_clean_text (s : json) : raises_attribute_error (Summary.clean_text s).
Proof.
  intros e. unfold Summary.clean_text.
  destruct (negb (truthy s)); [discriminate|]. destruct s; congruence.
Qed.

Create HintDb rae.
#[local] Hint Resolve rae_ok rae_get rae_get_default rae_clean_text : rae.
#[local] Hint Extern 2 (raises_attribute_error (bind _ _)) =>
  apply rae_bind; [|intro] : rae.
#[local] Hint Extern 2 (raises_attribute_error (or_else _ _)) =>
  apply rae_or_else : rae.

Section SummaryProperties.
Import Summary.
Context {R : Runtime}.

Lemma normalize_summary_raises (now : clock) (symbol_hint root_obj : json) :
  raises_attribute_error (normalize_summary now symbol_hint root_obj).
Proof.
  unfold normalize_summary, info_of, get2. auto 40 with rae.
Qed.

(** C9: when the structured [info.city] is present and not empty after
    cleaning, the city of the record is that cleaned value, whatever the
    long summary says about headquarters; likewise for the state (read
    from [info.state], else [info.province]) and the country. *)
Theorem structured_location_kept (now : clock) (symbol_hint root_obj : json)
  (rec : summary_row) (info : json) :
  normalize_summary now symbol_hint root_obj = Ok rec ->
  info_of (py_or root_obj (JObj [])) = Ok info ->
  (forall raw c, get info "city" = Ok raw ->
     clean_text raw = Ok (Some c) -> c <> "" -> city rec = Some c)
  /\ (forall raw c, get2 info "state" "province" = Ok raw ->
        clean_text raw = Ok (Some c) -> c <> "" -> state rec = Some c)
  /\ (forall raw c, get info "country" = Ok raw ->
        clean_text raw = Ok (Some c) -> c <> "" -> country rec = Some c).
Proof.
  unfold normalize_summary. intros H Hinfo.
  rewrite Hinfo in H. cbn [bind] in H. bind_ok H. injection H as <-.
  cbn [city state country].
  repeat split; intros raw c Hget Hclean Hne;
    match goal with
    | |- text_or ?y _ = _ => assert (y = Some c) as -> by congruence
    end;
    (destruct c; [contradiction|reflexivity]).
Qed.

(** C3 (amended): two runs of [normalize_financials] on the same payload
    return the same sequence.  Two runs of [normalize_summary] on the same
    symbol hint and payload, at the clock readings [now1] and [now2], end
    alike; when they end in records, these agree in every field but
    [updated_at], which is the reading of the clock at each run. *)
Theorem rerun_differs_in_updated_at_only (now1 now2 : clock)
  (symbol symbol_hint payload : json) :
  Financilas.normalize_financials symbol payload
  = Financilas.normalize_financials symbol payload
  /\ match normalize_summary now1 symbol_hint payload,
           normalize_summary now2 symbol_hint payload with
     | Ok r1, Ok r2 =>
         r1 = with_updated_at (strftime now1) r2
         /\ updated_at r1 = strftime now1
         /\ updated_at r2 = strftime now2
     | Raise e1, Raise e2 => e1 = e2
     | _, _ => False
     end.
Proof.
  split; [reflexivity|].
  unfold normalize_summary.
  repeat match goal with
         | |- context [bind ?c _] =>
             destruct c; cbn [bind]; [|reflexivity]
         end.
  repeat split.
Qed.

Section LoopProperties.
Variable db : Type.
Variable load_one_row : db -> json -> result (option (json * column_value)).
Variable upsert_summary : db -> list summary_row -> result db.
Variable commit : db -> result db.
Variable COMMIT_EVERY_SYMBOLS : Z.

(** C7 (amended): when no usable company identifier can be determined
    (the symbol hint is empty and [info.symbol or info.ticker] is empty or
    absent), [normalize_summary] raises nothing on that account: it returns
    a record whose [stock] is empty, and the loop of [main] skips it,
    leaving the store and both counters as they were.  Should another field
    make the normalizer raise, the exception is an [AttributeError], which
    the loop counts as one error before it goes on. *)
Theorem missing_identifier_is_skipped (now : clock) (st : run db) (i : Z)
  (s symbol_hint : json) (j : column_value) :
  load_one_row (store st) s = Ok (Some (symbol_hint, j)) ->
  truthy symbol_hint = false ->
  (forall info v,
      info_of (py_or (parse_json_value j) (JObj [])) = Ok info ->
      get2 info "symbol" "ticker" = Ok v -> truthy v = false) ->
  match normalize_summary now symbol_hint (parse_json_value j) with
  | Ok rec =>
      truthy (stock rec) = false
      /\ step load_one_row upsert_summary commit COMMIT_EVERY_SYMBOLS now st i s = st
  | Raise e =>
      e = AttributeError
      /\ step load_one_row upsert_summary commit COMMIT_EVERY_SYMBOLS now st i s
         = failed st
  end.
Proof.
  intros Hrow Hhint Hinfo. unfold step. rewrite Hrow.
  destruct (normalize_summary now symbol_hint (parse_json_value j)) as [rec|e] eqn:E.
  - assert (Hs : truthy (stock rec) = false).
    { unfold normalize_summary in E. bind_ok E. injection E as <-.
      cbn [stock]. unfold or_else in E1. rewrite Hhint in E1.
      eapply Hinfo; eauto. }
    rewrite Hs. split; reflexivity.
  - split; [|reflexivity].
    apply (normalize_summary_raises now symbol_hint (parse_json_value j)). exact E.
Qed.

End LoopProperties.

End SummaryProperties.

(** ** Stored payloads *)

Section PayloadProperties.
Context {R : Runtime}.

(** C5 (amended): [parse_json_value] is total (it has no exception to
    raise).  It returns the empty mapping when the stored text and its
    unquoted, unescaped form are both undecodable, when the decoded root is
    neither a mapping nor a text, when it is a text that is undecodable in
    turn, and when the stored value is neither text nor a mapping.  On the
    empty mapping [normalize_financials] returns no row, and
    [normalize_summary] returns one record, whose [stock] is the symbol
    hint and whose other fields read from the payload are null. *)
Theorem malformed_payload_fallback (symbol symbol_hint : json)
  (now : Summary.clock) :
  (forall s,
      json_loads s = None ->
      (forall s', unicode_escape (PyStr.strip_char double_quote s) = Some s' ->
                  json_loads s' = None) ->
      parse_json_value (ColValue (JStr s)) = JObj [])
  /\ (forall s v,
        json_loads s = Some v
        \/ (json_loads s = None
            /\ exists s', unicode_escape (PyStr.strip_char double_quote s) = Some s'
                          /\ json_loads s' = Some v) ->
        (forall m, v <> JObj m) ->
        (forall t, v = JStr t -> json_loads t = None) ->
        parse_json_value (ColValue (JStr s)) = JObj [])
  /\ (forall b,
        parse_json_value (ColBytes b)
        = parse_json_value (ColValue (JStr (decode_utf8 b))))
  /\ (forall v,
        (forall m, v <> JObj m) -> (forall t, v <> JStr t) ->
        parse_json_value (ColValue v) = JObj [])
  /\ Financilas.normalize_financials symbol (JObj []) = Ok []
  /\ Summary.normalize_summary now symbol_hint (JObj [])
     = Ok (Summary.mkrow (py_or symbol_hint JNull) None None None None None
                         None None None None None None None
                         (Summary.strftime now)).
Proof.
  assert (Hreload : forall v,
             (forall m, v <> JObj m) ->
             (forall t, v = JStr t -> json_loads t = None) ->
             dict_or_reload v = JObj []).
  { intros v Hm Ht. destruct v; try reflexivity.
    - unfold dict_or_reload. rewrite (Ht s eq_refl). reflexivity.
    - exfalso. apply (Hm members). reflexivity. }
  repeat apply conj.
  - intros s H1 H2. unfold parse_json_value, loads_or_unescape.
    cbv beta iota zeta. rewrite H1.
    destruct (unicode_escape (PyStr.strip_char double_quote s)) as [s'|] eqn:E.
    + rewrite (H2 s' eq_refl). reflexivity.
    + reflexivity.
  - intros s v Hv Hm Ht. unfold parse_json_value, loads_or_unescape.
    cbv beta iota zeta.
    destruct Hv as [Hv|(Hn & s' & Hs' & Hv)].
    + rewrite Hv. apply Hreload; assumption.
    + rewrite Hn, Hs', Hv. apply Hreload; assumption.
  - reflexivity.
  - intros v Hm Ht. unfold parse_json_value.
    destruct v; try reflexivity.
    + exfalso. apply (Ht s). reflexivity.
    + exfalso. apply (Hm members). reflexivity.
  - reflexivity.
  - unfold Summary.normalize_summary, py_or. cbn.
    unfold or_else. destruct (truthy symbol_hint); reflexivity.
Qed.

End PayloadProperties.

(** ** The schema repair *)

Section SchemaProperties.
Import Financilas.
Variable cursor : Type.
Variable execute : sql -> cursor -> cursor * option exn.

Lemma logged_eq (q : sql) (c : cursor) (l : list sql) :
  logged execute q (c, l) = ((fst (execute q c), l ++ [q]), snd (execute q c)).
Proof. unfold logged. cbn [fst snd]. destruct (execute q c). reflexivity. Qed.

Lemma logged_best_effort (q : sql) (c : cursor) (l : list sql) :
  (forall e, snd (execute q c) = Some e -> exists n, e = DatabaseError n) ->
  execute_best_effort (logged execute) q (c, l)
  = ((fst (execute q c), l ++ [q]), None).
Proof.
  intros Hdb. unfold execute_best_effort. rewrite logged_eq.
  destruct (execute q c) as [c' [e|]]; cbn [fst snd] in *; [|reflexivity].
  destruct (Hdb e eq_refl) as (n & ->). reflexivity.
Qed.

(** C8: [ensure_financials_table] runs the creation statement.  When it
    succeeds nothing else runs.  Every exception of the creation other than
    the database error 1170 is raised again as it is, and nothing else
    runs.  On error 1170, when the three best-effort statements raise
    nothing but database errors, the statements run are, in order: drop the
    primary key, widen [metric], widen [stock], add the primary key
    [(stock, statement_type, metric, date)]; failures of the first three
    are ignored and the outcome is that of the last. *)
Theorem ensure_financials_table_repairs_1170_only (cur : cursor) :
  let run := ensure_financials_table (logged execute) (cur, []) in
  (forall cur', execute SCHEMA_CREATE cur = (cur', None) ->
                run = ((cur', [SCHEMA_CREATE]), None))
  /\ (forall cur' e, execute SCHEMA_CREATE cur = (cur', Some e) ->
                     e <> DatabaseError 1170 ->
                     run = ((cur', [SCHEMA_CREATE]), Some e))
  /\ (forall cur0,
        execute SCHEMA_CREATE cur = (cur0, Some (DatabaseError 1170)) ->
        (forall q c e, In q (removelast repair_statements) ->
                       snd (execute q c) = Some e -> exists n, e = DatabaseError n) ->
        let cur1 := fst (execute DropPrimaryKey cur0) in
        let cur2 := fst (execute (ModifyColumn "metric" 191) cur1) in
        let cur3 := fst (execute (ModifyColumn "stock" 32) cur2) in
        let last := execute (AddPrimaryKey ["stock"; "statement_type"; "metric"; "date"]) cur3 in
        run = ((fst last, SCHEMA_CREATE :: repair_statements), snd last)).
Proof.
  cbv zeta. unfold ensure_financials_table. rewrite logged_eq. cbn [app].
  repeat apply conj.
  - intros cur' H. rewrite H. reflexivity.
  - intros cur' e H Hne. rewrite H. cbn [fst snd].
    destruct e; try reflexivity.
    destruct (errno =? 1170) eqn:E; [|reflexivity].
    apply Z.eqb_eq in E. subst. contradiction.
  - intros cur0 H Hdb. rewrite H. cbn [fst snd negb Z.eqb Pos.eqb].
    unfold repair, repair_statements.
    rewrite logged_best_effort by (intros e; apply Hdb; cbn; auto).
    cbn [and_then app].
    rewrite logged_best_effort by (intros e; apply Hdb; cbn; auto).
    cbn [and_then app].
    rewrite logged_best_effort by (intros e; apply Hdb; cbn; auto).
    cbn [and_then app].
    rewrite logged_eq. reflexivity.
Qed.

End SchemaProperties.

(** ** Text cleaning *)

Section TextProperties.
Import PyStr.

Lemma split_lstrip (s : string) : split (lstrip_by isspace s) = split s.
Proof.
  induction s as [|c r IH]; [reflexivity|].
  cbn [lstrip_by]. destruct (isspace c) eqn:E.
  - rewrite IH. cbn [split]. rewrite E. reflexivity.
  - reflexivity.
Qed.

Lemma rstrip_blank (r : string) : split r = [] -> rstrip_by isspace r = "".
Proof.
  induction r as [|c r IH]; [reflexivity|].
  cbn [split rstrip_by]. destruct (isspace c) eqn:E.
  - intros H. rewrite (IH H). reflexivity.
  - destruct (split r) as [|w ws]; [discriminate|].
    destruct (starts_with_space r); discriminate.
Qed.

Lemma rstrip_not_blank (r : string) : split r <> [] -> rstrip_by isspace r <> "".
Proof.
  induction r as [|c r IH]; [intros H; contradiction H; reflexivity|].
  cbn [split rstrip_by]. destruct (isspace c) eqn:E.
  - intros H. specialize (IH H). destruct (rstrip_by isspace r); [contradiction|discriminate].
  - intros _. destruct (rstrip_by isspace r); discriminate.
Qed.

Lemma join_cons_char (c : ascii) (w : string) (ws : list string) :
  join " " (String c w :: ws) = String c (join " " (w :: ws)).
Proof. destruct ws; reflexivity. Qed.

Lemma rstrip_cons (c : ascii) (r : string) :
  rstrip_by isspace r <> "" ->
  rstrip_by isspace (String c r) = String c (rstrip_by isspace r).
Proof.
  intros H. cbn [rstrip_by]. destruct (rstrip_by isspace r); [contradiction|reflexivity].
Qed.

Lemma sub_ws_rstrip (r : string) (in_run : bool) :
  split r <> [] ->
  sub_ws in_run (rstrip_by isspace r)
  = ((if starts_with_space r && negb in_run then " " else "")
     ++ join " " (split r))%string.
Proof.
  revert in_run. induction r as [|c r IH]; intros in_run H.
  - contradiction H; reflexivity.
  - cbn [split starts_with_space] in *.
    destruct (isspace c) eqn:E.
    + rewrite rstrip_cons by (apply rstrip_not_blank; exact H).
      cbn [sub_ws]. rewrite E. specialize (IH true H).
      rewrite andb_false_r in IH. cbn [append] in IH.
      destruct in_run; cbn [andb negb append]; rewrite IH; reflexivity.
    + cbn [andb append].
      destruct (split r) as [|w ws] eqn:Es.
      * cbn [rstrip_by]. rewrite (rstrip_blank r Es), E. cbn [sub_ws]. rewrite E. reflexivity.
      * assert (Hne : w :: ws <> []) by discriminate.
        rewrite rstrip_cons by (apply rstrip_not_blank; rewrite Es; exact Hne).
        specialize (IH false Hne). rewrite andb_true_r in IH.
        cbn [sub_ws]. rewrite E. rewrite IH.
        destruct (starts_with_space r).
        -- destruct ws; reflexivity.
        -- rewrite join_cons_char. reflexivity.
Qed.

Lemma take_all (n : Z) (t : string) : len t <= n -> take n t = t.
Proof.
  revert n. induction t as [|c t IH]; intros n H; [reflexivity|].
  cbn [len] in H. cbn [take].
  assert (0 <= len t) by (clear; induction t; cbn [len]; lia).
  destruct (n <=? 0) eqn:E; [apply Z.leb_le in E; lia|].
  rewrite IH by lia. reflexivity.
Qed.

Lemma len_take (n : Z) (t : string) : 0 <= n -> len (take n t) <= n.
Proof.
  revert n. induction t as [|c t IH]; intros n H; cbn [take len]; [lia|].
  destruct (n <=? 0) eqn:E; cbn [len]; [lia|].
  apply Z.leb_gt in E. specialize (IH (n - 1)). lia.
Qed.

(** The cleaned text is the words of the text joined by single spaces,
    cut to 200000 characters. *)
Lemma clean_str_joins_words (s : string) :
  Summary.clean_str s = take 200000 (join " " (split s)).
Proof.
  unfold Summary.clean_str, strip.
  assert (H : sub_ws false (rstrip_by isspace (lstrip_by isspace s))
              = join " " (split s)).
  { destruct (split s) as [|w ws] eqn:Es.
    - rewrite rstrip_blank by (rewrite split_lstrip; exact Es). reflexivity.
    - rewrite sub_ws_rstrip by (rewrite split_lstrip, Es; discriminate).
      rewrite split_lstrip, Es, andb_true_r.
      replace (starts_with_space (lstrip_by isspace s)) with false; [reflexivity|].
      clear. induction s as [|c r IH]; [reflexivity|].
      cbn [lstrip_by]. destruct (isspace c) eqn:E; [exact IH|].
      cbn [starts_with_space]. symmetry. exact E. }
  rewrite H. cbv zeta.
  destruct (200000 <? len (join " " (split s))) eqn:E; [reflexivity|].
  apply Z.ltb_ge in E. symmetry. apply take_all. exact E.
Qed.

(** X1: on a text that is not empty, [clean_text] returns its words
    (maximal runs of characters that are not whitespace) joined by single
    spaces, cut to 200000 characters: every run of whitespace between two
    words has become one space and the whitespace at both ends is gone.
    The empty text and [None] give [None]. *)
Theorem clean_text_joins_words (s : string) :
  Summary.clean_text (JStr s)
  = Ok (match s with
        | EmptyString => None
        | _ => Some (take 200000 (join " " (split s)))
        end)
  /\ Summary.clean_text JNull = Ok None
  /\ len (take 200000 (join " " (split s))) <= 200000.
Proof.
  split; [|split; [reflexivity|apply len_take; lia]].
  destruct s as [|c r]; [reflexivity|].
  unfold Summary.clean_text. cbn [truthy negb].
  rewrite clean_str_joins_words. reflexivity.
Qed.

End TextProperties.

(** ** The sanitizer *)

Section SanitizerProperties.
Import Details.

(** Induction on a value and, with it, on the elements of the containers
    inside it. *)
Section PyvalInduction.
Variable P : pyval -> Prop.
Hypothesis Hnone : P PNone.
Hypothesis Hna : P PNA.
Hypothesis Hnpint : forall n, P (PNpInt n).
Hypothesis Hnpfloat : forall f, P (PNpFloat f).
Hypothesis Hnpbool : forall b, P (PNpBool b).
Hypothesis Hfloat : forall f, P (PFloat f).
Hypothesis Hint : forall n, P (PInt n).
Hypothesis Hbool : forall b, P (PBool b).
Hypothesis Hstr : forall s, P (PStr s).
Hypothesis Hbytes : forall b, P (PBytes b).
Hypothesis Hdatetime : forall naive iso, P (PDatetime naive iso).
Hypothesis Hdate : forall iso, P (PDate iso).
Hypothesis Hdict : forall members,
    Forall (fun kv => P (snd kv)) members -> P (PDict members).
Hypothesis Hlist : forall l, Forall P l -> P (PList l).
Hypothesis Htuple : forall l, Forall P l -> P (PTuple l).
Hypothesis Hset : forall l, Forall P l -> P (PSet l).
Hypothesis Hother : forall text, P (POther text).

Fixpoint pyval_nested_ind (v : pyval) : P v :=
  let all :=
    fix all (l : list pyval) : Forall P l :=
      match l with
      | [] => Forall_nil P
      | x :: r => Forall_cons x (pyval_nested_ind x) (all r)
      end in
  match v with
  | PNone => Hnone
  | PNA => Hna
  | PNpInt n => Hnpint n
  | PNpFloat f => Hnpfloat f
  | PNpBool b => Hnpbool b
  | PFloat f => Hfloat f
  | PInt n => Hint n
  | PBool b => Hbool b
  | PStr s => Hstr s
  | PBytes b => Hbytes b
  | PDatetime naive iso => Hdatetime naive iso
  | PDate iso => Hdate iso
  | PDict members =>
      Hdict members
        ((fix all' (l : list (pykey * pyval)) : Forall (fun kv => P (snd kv)) l :=
            match l with
            | [] => Forall_nil _
            | kv :: r => Forall_cons kv (pyval_nested_ind (snd kv)) (all' r)
            end) members)
  | PList l => Hlist l (all l)
  | PTuple l => Htuple l (all l)
  | PSet l => Hset l (all l)
  | POther text => Hother text
  end.
End PyvalInduction.

Lemma dict_set_known (d : list (pykey * pyval)) (k : string) (v : pyval) :
  In k (keys d) -> keys (dict_set d k v) = keys d.
Proof.
  induction d as [|(k', v') d IH]; [contradiction|].
  cbn [dict_set keys map fst]. intros Hin.
  destruct (String.eqb (key_str k') k) eqn:E; [reflexivity|].
  cbn [map fst]. f_equal. apply IH.
  destruct Hin as [Hin|Hin]; [|exact Hin].
  apply String.eqb_neq in E. contradiction.
Qed.

Lemma dict_set_fresh (d : list (pykey * pyval)) (k : string) (v : pyval) :
  ~ In k (keys d) -> dict_set d k v = d ++ [(KStr k, v)].
Proof.
  induction d as [|(k', v') d IH]; [reflexivity|].
  cbn [dict_set keys map fst app]. intros Hin.
  destruct (String.eqb (key_str k') k) eqn:E.
  - apply String.eqb_eq in E. exfalso. apply Hin. left. exact E.
  - f_equal. apply IH. intros H. apply Hin. right. exact H.
Qed.

Lemma dict_set_values (Q : pyval -> Prop) (d : list (pykey * pyval))
  (k : string) (v : pyval) :
  Forall (fun kv => (exists k, fst kv = KStr k) /\ Q (snd kv)) d -> Q v ->
  Forall (fun kv => (exists k, fst kv = KStr k) /\ Q (snd kv)) (dict_set d k v).
Proof.
  intros Hd Hv. induction d as [|(k', v') d IH].
  - constructor; [|constructor]. split; [eexists; reflexivity|exact Hv].
  - inversion Hd as [|? ? [Hk Hq] Hrest]; subst. cbn [dict_set].
    destruct (String.eqb (key_str k') k).
    + constructor; [|exact Hrest]. split; [exact Hk|exact Hv].
    + constructor; [split; assumption|]. apply IH. exact Hrest.
Qed.

Lemma dict_set_nodup (d : list (pykey * pyval)) (k : string) (v : pyval) :
  NoDup (keys d) -> NoDup (keys (dict_set d k v)).
Proof.
  intros Hd. destruct (in_dec string_dec k (keys d)) as [Hin|Hin].
  - rewrite dict_set_known by exact Hin. exact Hd.
  - rewrite dict_set_fresh by exact Hin. unfold keys. rewrite map_app.
    apply NoDup_append; [exact Hd|repeat constructor; intros []|].
    intros x Hx [<-|[]]. contradiction.
Qed.

Lemma dict_of_safe (Q : pyval -> Prop) (pairs : list (string * pyval)) :
  Forall (fun kv => Q (snd kv)) pairs ->
  NoDup (keys (dict_of pairs))
  /\ Forall (fun kv => (exists k, fst kv = KStr k) /\ Q (snd kv)) (dict_of pairs).
Proof.
  unfold dict_of.
  assert (H : forall acc,
             NoDup (keys acc) ->
             Forall (fun kv => (exists k, fst kv = KStr k) /\ Q (snd kv)) acc ->
             Forall (fun kv => Q (snd kv)) pairs ->
             NoDup (keys (fold_left (fun d kv => dict_set d (fst kv) (snd kv)) pairs acc))
             /\ Forall (fun kv => (exists k, fst kv = KStr k) /\ Q (snd kv))
                  (fold_left (fun d kv => dict_set d (fst kv) (snd kv)) pairs acc)).
  { induction pairs as [|(k, v) pairs IH]; intros acc Hn Hq Hp; [split; assumption|].
    inversion Hp; subst. cbn [fold_left fst snd]. apply IH.
    - apply dict_set_nodup. exact Hn.
    - apply dict_set_values; assumption.
    - assumption. }
  intros Hp. apply H; [constructor|constructor|exact Hp].
Qed.

Lemma dict_of_fixed (members : list (pykey * pyval)) :
  NoDup (keys members) ->
  Forall (fun kv => exists k, fst kv = KStr k) members ->
  dict_of (map (fun kv => (key_str (fst kv), snd kv)) members) = members.
Proof.
  unfold dict_of.
  assert (H : forall acc,
             NoDup (keys acc ++ keys members) ->
             Forall (fun kv => exists k, fst kv = KStr k) members ->
             fold_left (fun d kv => dict_set d (fst kv) (snd kv))
               (map (fun kv => (key_str (fst kv), snd kv)) members) acc
             = acc ++ members).
  { induction members as [|(k, v) members IH]; intros acc Hn Hk.
    - rewrite app_nil_r. reflexivity.
    - inversion Hk as [|? ? [k0 Hk0] Hrest]; subst. cbn [fst] in Hk0. subst k.
      cbn [map fold_left fst snd key_str].
      rewrite dict_set_fresh.
      + rewrite IH; [rewrite <- app_assoc; reflexivity| |exact Hrest].
        unfold keys in *. rewrite map_app, <- app_assoc. exact Hn.
      + intros Hin. cbn [keys map fst key_str] in Hn.
        apply NoDup_remove_2 in Hn. apply Hn. apply in_or_app. left. exact Hin. }
  intros Hn Hk. apply (H []); assumption.
Qed.

Section Idempotence.
Context {R : Runtime}.

Lemma clean_json_safe (x : pyval) : json_safe (clean_json x).
Proof.
  induction x using pyval_nested_ind;
    try (cbn; constructor; fail);
    try (cbn; destruct (isnan f) eqn:En; [constructor|];
         cbn; destruct (isinf f) eqn:Ei; constructor; assumption).
  - cbn [clean_json isna_taken missing_scalar].
    destruct (dict_of_safe json_safe
                (map (fun kv => (key_str (fst kv), clean_json (snd kv))) members))
      as (Hn & Hq).
    { rewrite Forall_map. exact H. }
    constructor; assumption.
  - cbn [clean_json]. destruct (isna_taken (PList l)); [constructor|].
    constructor. rewrite Forall_map. exact H.
  - cbn [clean_json isna_taken missing_scalar]. constructor. rewrite Forall_map. exact H.
  - cbn [clean_json isna_taken missing_scalar]. constructor. rewrite Forall_map. exact H.
Qed.

Lemma clean_json_fixed (y : pyval) :
  json_safe y -> isna_free y = true -> clean_json y = y.
Proof.
  induction y using pyval_nested_ind; intros Hs Hst;
    try (inversion Hs; fail); try reflexivity.
  - inversion Hs as [| | | |? Hn Hi| |]; subst. cbn. rewrite Hn, Hi. reflexivity.
  - inversion Hs as [| | | | | |? Hn Hk]; subst.
    cbn [clean_json isna_taken missing_scalar]. f_equal.
    cbn [isna_free] in Hst. rewrite forallb_forall in Hst.
    rewrite Forall_forall in H, Hk.
    rewrite (map_ext_in _ (fun kv => (key_str (fst kv), snd kv))).
    + apply dict_of_fixed; [exact Hn|].
      rewrite Forall_forall. intros kv Hin. apply (Hk kv Hin).
    + intros kv Hin. f_equal. apply H; [exact Hin|apply (Hk kv Hin)|apply Hst; exact Hin].
  - inversion Hs as [| | | | |? Hl|]; subst.
    cbn [isna_free] in Hst. apply andb_true_iff in Hst. destruct Hst as [Hna Hst].
    apply negb_true_iff in Hna. cbn [clean_json]. rewrite Hna. f_equal.
    rewrite forallb_forall in Hst. rewrite Forall_forall in H, Hl.
    rewrite <- (map_id l) at 2. apply map_ext_in.
    intros v Hin. apply H; auto.
Qed.

(** X2: [clean_json] returns a JSON-safe value, and sanitizing its result
    again changes nothing provided that result holds no list that
    [pd.isna] takes for a missing value (a list of exactly one missing
    element, nested or not). *)
Theorem clean_json_idempotent_without_isna_lists (x : pyval) :
  json_safe (clean_json x)
  /\ (isna_free (clean_json x) = true ->
      clean_json (clean_json x) = clean_json x).
Proof.
  split; [apply clean_json_safe|].
  intros H. apply clean_json_fixed; [apply clean_json_safe|exact H].
Qed.

End Idempotence.

End SanitizerProperties.

(** ** The sanitizer and the text cleaning at their failing inputs *)

(** C4 (the code breaks the claim): the list that holds one infinite float
    is sanitized to the list that holds [None]; sanitizing that list again
    gives [None], because [pd.isna] of a one-element list is a one-element
    array, which is true when its element is missing. *)
Lemma clean_json_collapses_singleton :
  let x := Details.PList [Details.PFloat (S754_infinity false)] in
  Details.clean_json (R := Reference.runtime) x = Details.PList [Details.PNone]
  /\ Details.clean_json (R := Reference.runtime)
       (Details.clean_json (R := Reference.runtime) x) = Details.PNone
  /\ Details.clean_json (R := Reference.runtime)
       (Details.clean_json (R := Reference.runtime) x)
     <> Details.clean_json (R := Reference.runtime) x.
Proof. cbv zeta. repeat split. discriminate. Qed.

(** C6 (the code breaks the claim): a text of three spaces is not empty, so
    the guard lets it through; stripped, it is the empty text, which is
    what [clean_text] returns, not [None]. *)
Lemma clean_text_keeps_blank :
  Summary.clean_text (JStr "   ") = Ok (Some "")
  /\ Summary.clean_text (JStr "   ") <> Ok None.
Proof. split; [reflexivity|discriminate]. Qed.

(** ** Worked instances *)

(** C1, the claim as written fails: the quarterly entry of 31 October 2023
    is emitted with period 4, outside 1..3. *)
Lemma quarterly_october_has_period_4 :
  Financilas.normalize_financials (R := Reference.runtime)
    Examples.acme Examples.october_quarter = Ok [Examples.october_row]
  /\ Financilas.date_group_rows (R := Reference.runtime)
       (Financilas.mkheader Examples.acme JNull JNull JNull) "IS" "quarterly"
       ("2023-10-31 00:00:00", JObj [("TotalRevenue", JInt 5)])
     = Ok [Examples.october_row]
  /\ Financilas.period Examples.october_row = 4
  /\ ~ (1 <= Financilas.period Examples.october_row <= 3).
Proof.
  split; [vm_compute; reflexivity|].
  split; [vm_compute; reflexivity|].
  split; [reflexivity|]. cbn. lia.
Qed.

(** C2 (the code breaks the claim): a payload that lists 31 December 2023
    under [yearly] and under [quarterly] of one section, as the loader's
    payloads do for every fiscal year end, gives two records with one key
    [(stock, statement_type, metric, date)], which is the primary key of
    the [financials] table.  The payload is an ordinary one (no dictionary
    in it repeats a key); the two records differ in their values and
    agree in their periods, so the record that the upsert keeps cannot be
    told from the one it overwrote. *)
Lemma yearly_and_quarterly_share_a_key :
  unique_keys Examples.december_twice
  /\ exists r1 r2,
       Financilas.normalize_financials (R := Reference.runtime)
         Examples.acme Examples.december_twice = Ok [r1; r2]
       /\ Financilas.period r1 = 4 /\ Financilas.value r1 = JInt 1
       /\ Financilas.period r2 = 4 /\ Financilas.value r2 = JInt 2
       /\ Financilas.key r1 = Financilas.key r2
       /\ Financilas.key r1
          = (Examples.acme, "CF", "FreeCashFlow", mkdate 2023 12 31)
       /\ ~ NoDup (map Financilas.key [r1; r2]).
Proof.
  split.
  { cbn. repeat split; repeat constructor; cbn; intuition discriminate. }
  eexists _, _. split; [vm_compute; reflexivity|].
  repeat (split; [reflexivity|]).
  intros H. inversion H as [|? ? Hin _]. apply Hin. left. reflexivity.
Qed.

(** C3, the claim as written fails: two runs of the profile normalizer on
    one payload, at two readings of the clock, return different records. *)
Lemma updated_at_differs_between_runs :
  exists r1 r2,
    Summary.normalize_summary Examples.morning Examples.acme Examples.austin = Ok r1
    /\ Summary.normalize_summary Examples.evening Examples.acme Examples.austin = Ok r2
    /\ Summary.updated_at r1 = "2025-01-02 03:04:05"
    /\ Summary.updated_at r2 = "2025-01-02 21:04:05"
    /\ r1 <> r2.
Proof.
  eexists _, _. split; [vm_compute; reflexivity|].
  split; [vm_compute; reflexivity|].
  split; [reflexivity|]. split; [reflexivity|]. discriminate.
Qed.

(** C5, the claim as written fails.  A payload stored as a JSON string
    that holds the JSON text of a mapping decodes to a text, not to a
    mapping, yet [parse_json_value] returns that mapping, not the empty
    one, and rows are derived from it.  And for an undecodable payload the
    profile normalizer still derives one record from the empty mapping. *)
Lemma double_encoded_payload_yields_rows :
  json_loads (Runtime := Reference.runtime) (Examples.quoted Examples.october_text)
  = Some (JStr Examples.october_text)
  /\ parse_json_value (R := Reference.runtime)
       (ColValue (JStr (Examples.quoted Examples.october_text)))
     = Examples.october_quarter
  /\ Financilas.normalize_financials (R := Reference.runtime) Examples.acme
       (parse_json_value (R := Reference.runtime)
          (ColValue (JStr (Examples.quoted Examples.october_text))))
     = Ok [Examples.october_row]
  /\ json_loads (Runtime := Reference.runtime) "not json" = None
  /\ parse_json_value (R := Reference.runtime) (ColValue (JStr "not json")) = JObj []
  /\ exists rec,
       Summary.normalize_summary Examples.morning Examples.acme
         (parse_json_value (R := Reference.runtime) (ColValue (JStr "not json")))
       = Ok rec
       /\ Summary.stock rec = Examples.acme.
Proof.
  repeat (split; [vm_compute; reflexivity|]).
  eexists. split; [vm_compute; reflexivity|reflexivity].
Qed.

(** C7, the claim as written fails: with no symbol hint and an empty
    payload the profile normalizer raises nothing; it returns a record
    whose [stock] is [None]. *)
Lemma missing_identifier_returns_a_record :
  exists rec,
    Summary.normalize_summary Examples.morning JNull (JObj []) = Ok rec
    /\ Summary.stock rec = JNull.
Proof. eexists. split; [vm_compute; reflexivity|reflexivity]. Qed.

Lemma missing_identifier_is_skipped_witness :
  let st := Summary.mkrun (@nil Summary.summary_row) 0 0 in
  match Summary.normalize_summary Examples.morning JNull
          (parse_json_value (R := Reference.runtime)
             (ColValue (JStr (Examples.json_text "{'info': {'longName': 'Acme Corp'}}")))) with
  | Ok rec =>
      truthy (Summary.stock rec) = false
      /\ Summary.step (R := Reference.runtime) Examples.one_row Examples.write_rows
           Examples.keep 20 Examples.morning st 1 (JInt 0) = st
  | Raise e =>
      e = AttributeError
      /\ Summary.step (R := Reference.runtime) Examples.one_row Examples.write_rows
           Examples.keep 20 Examples.morning st 1 (JInt 0) = Summary.failed st
  end.
Proof.
  cbv zeta.
  apply (missing_identifier_is_skipped (R := Reference.runtime)
           (list Summary.summary_row) Examples.one_row Examples.write_rows
           Examples.keep 20 Examples.morning
           (Summary.mkrun (@nil Summary.summary_row) 0 0) 1 (JInt 0) JNull).
  - reflexivity.
  - reflexivity.
  - intros info v Hi Hv. vm_compute in Hi. injection Hi as <-.
    vm_compute in Hv. injection Hv as <-. reflexivity.
Defined.

Lemma structured_location_kept_witness :
  exists rec,
    Summary.normalize_summary Examples.morning Examples.acme Examples.austin = Ok rec
    /\ Summary.city rec = Some "Austin"
    /\ Summary.state rec = Some "Texas".
Proof.
  eexists. split; [vm_compute; reflexivity|]. split; [|reflexivity].
  refine (proj1 (structured_location_kept
                   Examples.morning Examples.acme Examples.austin _
                   (JObj [("city", JStr "Austin");
                          ("longBusinessSummary",
                           JStr "Acme Corp. is headquartered in Dallas, Texas.")])
                   _ _)
                (JStr "Austin") "Austin" _ _ _).
  - vm_compute. reflexivity.
  - reflexivity.
  - reflexivity.
  - reflexivity.
  - discriminate.
Defined.

Lemma malformed_payload_fallback_witness :
  parse_json_value (R := Reference.runtime) (ColValue (JStr "not json")) = JObj [].
Proof.
  apply (proj1 (malformed_payload_fallback (R := Reference.runtime)
                  JNull JNull Examples.morning)).
  - vm_compute. reflexivity.
  - intros s' H. vm_compute in H. injection H as <-. vm_compute. reflexivity.
Defined.

Lemma ensure_financials_table_witness :
  Financilas.ensure_financials_table (Financilas.logged Examples.old_schema) (tt, [])
  = ((tt, Financilas.SCHEMA_CREATE :: Financilas.repair_statements), None).
Proof.
  apply (proj2 (proj2 (ensure_financials_table_repairs_1170_only
                         unit Examples.old_schema tt)) tt).
  - reflexivity.
  - intros q c e Hq He. cbn in Hq.
    destruct Hq as [<-|[<-|[<-|[]]]]; cbn in He; try discriminate.
    injection He as <-. exists 1091. reflexivity.
Defined.

Lemma clean_json_idempotent_witness :
  Details.clean_json (R := Reference.runtime) Examples.mixed
  = Details.PDict
      [(Details.KStr "1", Details.PList [Details.PStr "x"]);
       (Details.KStr "a",
        Details.PList [Details.PInt 1; Details.PStr "a"; Details.PNone])]
  /\ Details.clean_json (R := Reference.runtime)
       (Details.clean_json (R := Reference.runtime) Examples.mixed)
     = Details.clean_json (R := Reference.runtime) Examples.mixed.
Proof.
  split; [vm_compute; reflexivity|].
  apply (proj2 (clean_json_idempotent_without_isna_lists
                  (R := Reference.runtime) Examples.mixed)).
  vm_compute. reflexivity.
Defined.

(** ** The scenarios of the specification *)

(** Scenario A: the NaN of [CapEx] becomes null, both rows are annual. *)
Example scenario_a_gives_two_rows :
  exists payload r1 r2,
    json_loads (Runtime := Reference.runtime) Examples.scenario_a = Some payload
    /\ Financilas.normalize_financials (R := Reference.runtime) Examples.acme payload
       = Ok [r1; r2]
    /\ Financilas.key r1 = (Examples.acme, "CF", "FreeCashFlow", mkdate 2023 12 31)
    /\ Financilas.yf_name r1 = JStr "Acme Corp"
    /\ Financilas.calendar_year r1 = 2023 /\ Financilas.period r1 = 4
    /\ Financilas.value r1 = JFloat (Reference.float_of_decimal false 100 0)
    /\ Financilas.key r2 = (Examples.acme, "CF", "CapEx", mkdate 2023 12 31)
    /\ Financilas.period r2 = 4 /\ Financilas.value r2 = JNull.
Proof.
  eexists _, _, _. split; [vm_compute; reflexivity|].
  split; [vm_compute; reflexivity|]. repeat split.
Qed.

(** Scenario B: headquarters read from the summary when no city is given. *)
Example scenario_b_reads_headquarters :
  exists rec,
    Summary.normalize_summary Examples.morning Examples.acme
      (JObj [("info",
              JObj [("longBusinessSummary",
                     JStr "Acme Corp. was founded in 1999 and is headquartered in Austin, Texas.")])])
    = Ok rec
    /\ Summary.city rec = Some "Austin" /\ Summary.state rec = Some "Texas"
    /\ Summary.country rec = None /\ Summary.founded_year rec = Some 1999.
Proof. eexists. split; [vm_compute; reflexivity|]. repeat split. Qed.

(** Scenario C: no statement section, no row. *)
Example scenario_c_gives_no_row :
  Financilas.normalize_financials (R := Reference.runtime) Examples.acme
    (JObj [("info", JObj [("longName", JStr "Acme Corp")])]) = Ok [].
Proof. reflexivity. Qed.
(** * Further properties *)

(** ** Column discovery *)

Lemma existsb_eqb_In (c : string) (cols : list string) :
  existsb (String.eqb c) cols = true <-> In c cols.
Proof.
  rewrite existsb_exists. split.
  - intros (x & Hin & Heq). apply String.eqb_eq in Heq. subst. exact Hin.
  - intros Hin. exists c. split; [exact Hin|apply String.eqb_refl].
Qed.

Lemma first_present_some (candidates cols : list string) (c : string) :
  first_present candidates cols = Some c ->
  In c candidates /\ In c cols
  /\ forall c', In c' (before c candidates) -> ~ In c' cols.
Proof.
  induction candidates as [|x rest IH]; cbn [first_present before]; [discriminate|].
  destruct (existsb (String.eqb x) cols) eqn:E.
  - intros H. injection H as <-. rewrite String.eqb_refl.
    apply existsb_eqb_In in E. repeat split; [left; reflexivity|exact E|contradiction].
  - intros H. destruct (IH H) as (Hc & Hcols & Hb).
    repeat split; [right; exact Hc|exact Hcols|].
    destruct (String.eqb x c) eqn:Exc.
    + apply String.eqb_eq in Exc. subst x.
      apply existsb_eqb_In in Hcols. congruence.
    + intros c' [<-|Hin].
      * intros Hin. apply existsb_eqb_In in Hin. congruence.
      * apply Hb. exact Hin.
Qed.

Lemma first_present_none (candidates cols : list string) :
  first_present candidates cols = None <->
  forall c, In c candidates -> ~ In c cols.
Proof.
  induction candidates as [|x rest IH]; cbn [first_present].
  - split; [intros _ c []|reflexivity].
  - destruct (existsb (String.eqb x) cols) eqn:E.
    + split; [discriminate|]. intros H. exfalso.
      apply (H x); [left; reflexivity|apply existsb_eqb_In; exact E].
    + rewrite IH. split.
      * intros H c [<-|Hin]; [|apply H; exact Hin].
        intros Hin. apply existsb_eqb_In in Hin. congruence.
      * intros H c Hin. apply H. right. exact Hin.
Qed.

(** X3: [find_symbol_and_json_columns] of [Financilas.py] returns two
    columns of the table, each the first of its candidates (in the order
    of the source) that the table has; it raises [RuntimeError] exactly
    when the table has no symbol candidate or no JSON candidate. *)
Theorem financials_columns_found (cols : list string) :
  (forall sym_col json_col,
      FinancilasMain.find_symbol_and_json_columns cols = Ok (sym_col, json_col) ->
      In sym_col cols /\ In json_col cols
      /\ In sym_col FinancilasMain.symbol_candidates
      /\ In json_col FinancilasMain.json_candidates
      /\ (forall c, In c (before sym_col FinancilasMain.symbol_candidates) -> ~ In c cols)
      /\ (forall c, In c (before json_col FinancilasMain.json_candidates) -> ~ In c cols))
  /\ (forall e, FinancilasMain.find_symbol_and_json_columns cols = Raise e <->
                e = RuntimeError
                /\ ((forall c, In c FinancilasMain.symbol_candidates -> ~ In c cols)
                    \/ (forall c, In c FinancilasMain.json_candidates -> ~ In c cols))).
Proof.
  unfold FinancilasMain.find_symbol_and_json_columns. split.
  - intros sym_col json_col H.
    destruct (first_present FinancilasMain.symbol_candidates cols) as [s|] eqn:Es;
      [|discriminate].
    destruct (first_present FinancilasMain.json_candidates cols) as [j|] eqn:Ej;
      [|discriminate].
    injection H as <- <-.
    apply first_present_some in Es. apply first_present_some in Ej. tauto.
  - intros e.
    destruct (first_present FinancilasMain.symbol_candidates cols) as [s|] eqn:Es.
    + destruct (first_present FinancilasMain.json_candidates cols) as [j|] eqn:Ej.
      * split; [discriminate|]. intros (_ & [H|H]).
        -- apply first_present_none in H. congruence.
        -- apply first_present_none in H. congruence.
      * split.
        -- intros H. injection H as <-. split; [reflexivity|].
           right. apply first_present_none. exact Ej.
        -- intros (-> & _). reflexivity.
    + split.
      * intros H. injection H as <-. split; [reflexivity|].
        left. apply first_present_none. exact Es.
      * intros (-> & _). reflexivity.
Qed.

(** X4: [find_symbol_and_json_columns] of [Summary.py] raises
    [RuntimeError] exactly when the table has none of the JSON candidates;
    a table without a symbol column is accepted, with [None] as its symbol
    column.  What it returns are columns of the table, each the first of
    its candidates that the table has. *)
Theorem summary_columns_found (cols : list string) :
  (forall sym_col json_col,
      SummaryMain.find_symbol_and_json_columns cols = Ok (sym_col, json_col) ->
      In json_col cols /\ In json_col SummaryMain.json_candidates
      /\ (forall c, In c (before json_col SummaryMain.json_candidates) -> ~ In c cols)
      /\ match sym_col with
         | Some s =>
             In s cols /\ In s SummaryMain.symbol_candidates
             /\ forall c, In c (before s SummaryMain.symbol_candidates) -> ~ In c cols
         | None => forall c, In c SummaryMain.symbol_candidates -> ~ In c cols
         end)
  /\ (forall e, SummaryMain.find_symbol_and_json_columns cols = Raise e <->
                e = RuntimeError
                /\ forall c, In c SummaryMain.json_candidates -> ~ In c cols).
Proof.
  unfold SummaryMain.find_symbol_and_json_columns. split.
  - intros sym_col json_col H.
    destruct (first_present SummaryMain.json_candidates cols) as [j|] eqn:Ej;
      [|discriminate].
    apply first_present_some in Ej.
    destruct (first_present SummaryMain.symbol_candidates cols) as [s|] eqn:Es;
      injection H as <- <-.
    + apply first_present_some in Es. tauto.
    + rewrite first_present_none in Es. tauto.
  - intros e.
    destruct (first_present SummaryMain.json_candidates cols) as [j|] eqn:Ej.
    + split; [discriminate|]. intros (_ & H).
      apply first_present_none in H. congruence.
    + split.
      * intros H. injection H as <-. split; [reflexivity|].
        apply first_present_none. exact Ej.
      * intros (-> & _). reflexivity.
Qed.

(** X5: [find_symbol_column] of [details.py] returns a column of the
    frame whenever the frame has one: the first candidate that is a column,
    or, when no candidate is, the first column.  It raises ([IndexError])
    only on a frame without columns. *)
Theorem symbol_column_is_a_column (columns : list string) :
  (forall c, Loader.find_symbol_column columns = Ok c ->
             In c columns
             /\ ((In c Loader.symbol_candidates
                  /\ forall c', In c' (before c Loader.symbol_candidates) ->
                                ~ In c' columns)
                 \/ ((forall c', In c' Loader.symbol_candidates -> ~ In c' columns)
                     /\ hd_error columns = Some c)))
  /\ (forall e, Loader.find_symbol_column columns = Raise e <->
                e = IndexError /\ columns = []).
Proof.
  unfold Loader.find_symbol_column. split.
  - intros c H.
    destruct (first_present Loader.symbol_candidates columns) as [s|] eqn:Es.
    + injection H as <-. apply first_present_some in Es. tauto.
    + rewrite first_present_none in Es.
      destruct columns as [|c0 rest]; [discriminate|]. injection H as <-.
      split; [left; reflexivity|]. right. split; [exact Es|reflexivity].
  - intros e.
    destruct (first_present Loader.symbol_candidates columns) as [s|] eqn:Es.
    + split; [discriminate|]. intros (_ & ->). discriminate Es.
    + destruct columns as [|c0 rest].
      * split; [intros H; injection H as <-; auto|intros (-> & _); reflexivity].
      * split; [discriminate|]. intros (_ & H). discriminate H.
Qed.

(** ** Reading through [(v or {})] *)

Lemma or_empty_mapping (v : json) :
  mapping_or_falsy v = true -> py_or v (JObj []) = JObj (members_of v).
Proof.
  unfold py_or. destruct v as [| | | | | |members]; cbn [mapping_or_falsy members_of];
    try (intros H; apply negb_true_iff in H; rewrite H; reflexivity).
  intros _. destruct members; reflexivity.
Qed.

Lemma or_empty_other (v : json) :
  mapping_or_falsy v = false -> py_or v (JObj []) = v /\ forall m, v <> JObj m.
Proof.
  unfold py_or. destruct v; cbn [mapping_or_falsy]; try discriminate;
    intros H; apply negb_false_iff in H; rewrite H; split; try reflexivity;
    intros m; discriminate.
Qed.

Lemma get_default_or_empty (v : json) (k : string) (dflt : json) :
  mapping_or_falsy v = true ->
  get_default (py_or v (JObj [])) k dflt
  = Ok (match assoc k (members_of v) with Some x => x | None => dflt end).
Proof. intros H. rewrite (or_empty_mapping v H). reflexivity. Qed.

Lemma get_or_empty (v : json) (k : string) :
  mapping_or_falsy v = true -> get (py_or v (JObj [])) k = Ok (field v k).
Proof. intros H. unfold get. rewrite get_default_or_empty by exact H. reflexivity. Qed.

Lemma items_or_empty (v : json) :
  mapping_or_falsy v = true -> items (py_or v (JObj [])) = Ok (members_of v).
Proof. intros H. rewrite (or_empty_mapping v H). reflexivity. Qed.

Lemma get_default_or_other (v : json) (k : string) (dflt : json) :
  mapping_or_falsy v = false ->
  get_default (py_or v (JObj [])) k dflt = Raise AttributeError.
Proof.
  intros H. destruct (or_empty_other v H) as (-> & Hm).
  destruct v; try reflexivity. exfalso. apply (Hm members). reflexivity.
Qed.

Lemma get_or_other (v : json) (k : string) :
  mapping_or_falsy v = false -> get (py_or v (JObj [])) k = Raise AttributeError.
Proof. apply get_default_or_other. Qed.

Lemma items_or_other (v : json) :
  mapping_or_falsy v = false -> items (py_or v (JObj [])) = Raise AttributeError.
Proof.
  intros H. destruct (or_empty_other v H) as (-> & Hm).
  destruct v; try reflexivity. exfalso. apply (Hm members). reflexivity.
Qed.

Lemma agrees_for_each {A B : Type} (body : A -> result (list B))
  (p : A -> bool) (l : list A) :
  (forall a, In a l -> agrees (body a) (p a)) ->
  agrees (for_each body l) (forallb p l).
Proof.
  induction l as [|a l IH]; intros H; [reflexivity|].
  cbn [for_each forallb].
  pose proof (H a (or_introl eq_refl)) as Ha.
  specialize (IH (fun x Hx => H x (or_intror Hx))).
  unfold agrees in *.
  destruct (body a) as [rows|e]; cbn [bind].
  - rewrite Ha. cbn [andb].
    destruct (for_each body l) as [more|e]; cbn [bind]; exact IH.
  - destruct Ha as (-> & ->). split; reflexivity.
Qed.

Lemma for_each_member {A B : Type} (body : A -> result (list B)) (l : list A)
  (rows out : list B) (a : A) (r : B) :
  for_each body l = Ok rows -> In a l -> body a = Ok out -> In r out ->
  In r rows.
Proof.
  revert rows. induction l as [|x l IH]; intros rows H Hin Hb Hr; [contradiction|].
  apply for_each_cons in H. destruct H as (r1 & r2 & H1 & H2 & ->).
  apply in_or_app. destruct Hin as [->|Hin].
  - left. congruence.
  - right. apply (IH r2); assumption.
Qed.

(** ** The statement normalizer on every payload *)

Section FinancilasFurther.
Import Financilas FinancilasShape.
Context {R : Runtime}.

Lemma metric_rows_row (h : header) (stype : string) (y p : Z) (d : date)
  (ms : list (string * json)) (r : line_item) :
  In r (metric_rows h stype y p d ms) <->
  exists k v, In (k, v) ms /\ k <> "" /\ is_dict_or_list v = false
    /\ r = mkitem (h_symbol h) (h_yf_name h) stype k (h_stockcurrency h)
                  (h_financialcurrency h) y p (finite_or_none v) d.
Proof.
  unfold metric_rows. rewrite in_flat_map. split.
  - intros ((k, v) & Hin & Hr).
    destruct (String.eqb k "") eqn:Ek; [contradiction|].
    destruct (is_dict_or_list v) eqn:Ev; [contradiction|].
    destruct Hr as [<-|[]]. exists k, v.
    apply String.eqb_neq in Ek. auto.
  - intros (k & v & Hin & Hk & Hv & ->). exists (k, v). split; [exact Hin|].
    apply String.eqb_neq in Hk. rewrite Hk, Hv. left. reflexivity.
Qed.

Lemma finite_or_none_scalar (v : json) :
  is_dict_or_list v = false ->
  is_dict_or_list (finite_or_none v) = false
  /\ forall f, finite_or_none v = JFloat f -> isnan f = false /\ isinf f = false.
Proof.
  destruct v; cbn [finite_or_none is_dict_or_list]; try discriminate;
    intros _; try (split; [reflexivity|discriminate]).
  destruct (isnan f || isinf f) eqn:E.
  - split; [reflexivity|discriminate].
  - split; [reflexivity|]. intros f' H. injection H as <-.
    apply orb_false_iff in E. exact E.
Qed.

(** Every row of the output was built from one metric of one date group,
    under the header of the call. *)
Lemma row_shape (h : header) (root : json) (rows : list line_item)
  (r : line_item) :
  for_each (folder_rows h root) folder_map = Ok rows -> In r rows ->
  exists folder stype freq dt_str d k v,
    In (folder, stype) folder_map
    /\ (freq = "yearly" \/ freq = "quarterly")
    /\ parse_date dt_str = Some d
    /\ k <> "" /\ is_dict_or_list v = false
    /\ r = mkitem (h_symbol h) (h_yf_name h) stype k (h_stockcurrency h)
                  (h_financialcurrency h) (year d)
                  (if String.eqb freq "yearly" then 4 else quarter_from_date d)
                  (finite_or_none v) d.
Proof.
  intros Hf Hin.
  destruct (for_each_In _ _ _ _ Hf Hin) as ((folder, stype) & out & Hfolder & Hb & Hr).
  unfold folder_rows in Hb. bind_ok Hb.
  destruct (for_each_In _ _ _ _ Hb Hr) as (freq & out' & Hfreq & Hb' & Hr').
  unfold freq_rows in Hb'. bind_ok Hb'.
  destruct (for_each_In _ _ _ _ Hb' Hr') as ((dt_str, metrics) & group & _ & Hg & Hrg).
  unfold date_group_rows in Hg.
  destruct (parse_date dt_str) as [d|] eqn:Ed.
  - bind_ok Hg. injection Hg as <-.
    apply metric_rows_row in Hrg. destruct Hrg as (k & v & _ & Hk & Hv & ->).
    exists folder, stype, freq, dt_str, d, k, v.
    split; [exact Hfolder|]. split; [destruct Hfreq as [<-|[<-|[]]]; auto|].
    repeat split; assumption.
  - injection Hg as <-. contradiction.
Qed.

Lemma rows_carry_the_symbol (symbol payload : json) (rows : list line_item)
  (r : line_item) :
  normalize_financials symbol payload = Ok rows -> In r rows -> stock r = symbol.
Proof.
  intros H Hin.
  destruct (normalize_financials_rows _ _ _ H) as (h & Hs & Hf).
  destruct (row_shape _ _ _ _ Hf Hin)
    as (? & ? & ? & ? & ? & ? & ? & _ & _ & _ & _ & _ & ->).
  exact Hs.
Qed.

(** X6: every row that [normalize_financials] returns carries the symbol
    it was called with, one of the statement types [CF], [IS], [BS], a
    metric name that is not empty, a value that is neither a dictionary nor
    a list nor a NaN nor an infinity, a calendar date, the year of that
    date as its calendar year and a period between 1 and 4; and all rows of
    one call carry the same company name and the same two currencies. *)
Theorem line_items_well_formed (symbol payload : json) (rows : list line_item) :
  normalize_financials symbol payload = Ok rows ->
  (forall r, In r rows ->
     stock r = symbol
     /\ In (statement_type r) ["CF"; "IS"; "BS"]
     /\ metric r <> ""
     /\ is_dict_or_list (value r) = false
     /\ (forall f, value r = JFloat f -> isnan f = false /\ isinf f = false)
     /\ valid_date (statement_date r) = true
     /\ calendar_year r = year (statement_date r)
     /\ 1 <= period r <= 4)
  /\ (forall r r', In r rows -> In r' rows ->
        yf_name r = yf_name r'
        /\ stockcurrency r = stockcurrency r'
        /\ financialcurrency r = financialcurrency r').
Proof.
  intros H.
  destruct (normalize_financials_rows _ _ _ H) as (h & Hs & Hf). split.
  - intros r Hin.
    destruct (row_shape _ _ _ _ Hf Hin)
      as (folder & stype & freq & dt_str & d & k & v
          & Hfolder & Hfreq & Hd & Hk & Hv & ->).
    cbn [stock statement_type metric value statement_date calendar_year period].
    destruct (finite_or_none_scalar v Hv) as (Hv1 & Hv2).
    pose proof (parse_date_valid _ _ Hd) as Hvalid.
    split; [exact Hs|]. split.
    { cbn in Hfolder.
      destruct Hfolder as [E|[E|[E|[]]]]; injection E as _ <-; cbn; auto. }
    split; [exact Hk|]. split; [exact Hv1|]. split; [exact Hv2|].
    split; [exact Hvalid|]. split; [reflexivity|].
    destruct (String.eqb freq "yearly"); [lia|].
    apply quarter_bounds, valid_date_month. exact Hvalid.
  - intros r r' Hin Hin'.
    destruct (row_shape _ _ _ _ Hf Hin)
      as (? & ? & ? & ? & ? & ? & ? & _ & _ & _ & _ & _ & ->).
    destruct (row_shape _ _ _ _ Hf Hin')
      as (? & ? & ? & ? & ? & ? & ? & _ & _ & _ & _ & _ & ->).
    repeat split.
Qed.

(** X7: nothing that qualifies is dropped.  For every date group listed
    under a statement section and a periodicity label whose key parses to a
    date, every metric of the group with a name that is not empty and a
    value that is neither a dictionary nor a list has its row in the
    output: with that section's statement type, that name, that date, the
    value (null for a NaN or an infinity), the year of the date, and the
    period of the label. *)
Theorem every_scalar_metric_has_a_row (symbol payload : json)
  (rows : list line_item) (folder stype freq dt_str : string)
  (groups ms : list (string * json)) (metrics v : json) (d : date) (k : string) :
  normalize_financials symbol payload = Ok rows ->
  In (folder, stype) folder_map ->
  freq = "yearly" \/ freq = "quarterly" ->
  entries (py_or payload (JObj [])) folder freq = Ok groups ->
  In (dt_str, metrics) groups ->
  parse_date dt_str = Some d ->
  items (py_or metrics (JObj [])) = Ok ms ->
  In (k, v) ms ->
  k <> "" ->
  is_dict_or_list v = false ->
  exists r,
    In r rows
    /\ stock r = symbol /\ statement_type r = stype /\ metric r = k
    /\ statement_date r = d /\ value r = finite_or_none v
    /\ calendar_year r = year d
    /\ period r = (if String.eqb freq "yearly" then 4 else quarter_from_date d).
Proof.
  intros H Hfolder Hfreq He Hg Hd Hms Hin Hk Hv.
  destruct (normalize_financials_rows _ _ _ H) as (h & Hs & Hf).
  set (r := mkitem (h_symbol h) (h_yf_name h) stype k (h_stockcurrency h)
                   (h_financialcurrency h) (year d)
                   (if String.eqb freq "yearly" then 4 else quarter_from_date d)
                   (finite_or_none v) d).
  exists r. split; [|repeat split; exact Hs].
  unfold entries in He. bind_ok He. rename a into b, a0 into fb.
  destruct (folder_rows h (py_or payload (JObj [])) (folder, stype))
    as [frows|e] eqn:Efolder.
  2:{ exfalso. clear - Hf Hfolder Efolder.
      revert rows Hf. induction folder_map as [|x l IH]; intros rows Hf; [contradiction|].
      apply for_each_cons in Hf. destruct Hf as (r1 & r2 & H1 & H2 & _).
      destruct Hfolder as [->|Hin]; [congruence|]. apply (IH Hin r2 H2). }
  apply (for_each_member _ _ _ frows (folder, stype) r Hf Hfolder Efolder).
  unfold folder_rows in Efolder. rewrite E in Efolder. cbn [bind] in Efolder.
  assert (Hfreq' : In freq ["yearly"; "quarterly"]).
  { destruct Hfreq as [->| ->]; cbn; auto. }
  destruct (freq_rows h stype (py_or b (JObj [])) freq) as [qrows|e] eqn:Efreq.
  2:{ exfalso. clear - Efolder Hfreq' Efreq.
      revert frows Efolder.
      induction ["yearly"; "quarterly"] as [|x l IH]; intros frows Hf; [contradiction|].
      apply for_each_cons in Hf. destruct Hf as (r1 & r2 & H1 & H2 & _).
      destruct Hfreq' as [->|Hin]; [congruence|]. apply (IH Hin r2 H2). }
  apply (for_each_member _ _ _ qrows freq r Efolder Hfreq' Efreq).
  unfold freq_rows in Efreq. rewrite E0 in Efreq. cbn [bind] in Efreq.
  rewrite He in Efreq. cbn [bind] in Efreq.
  assert (Hgroup : date_group_rows h stype freq (dt_str, metrics)
                   = Ok (metric_rows h stype (year d)
                           (if String.eqb freq "yearly" then 4 else quarter_from_date d)
                           d ms)).
  { unfold date_group_rows. rewrite Hd, Hms. reflexivity. }
  apply (for_each_member _ _ _ _ (dt_str, metrics) r Efreq Hg Hgroup).
  apply metric_rows_row. exists k, v. repeat split; assumption.
Qed.

Lemma agrees_groups (h : header) (stype freq : string)
  (groups : list (string * json)) :
  agrees (for_each (date_group_rows h stype freq) groups)
         (forallb well_shaped_group groups).
Proof.
  apply agrees_for_each. intros (dt_str, metrics) _.
  unfold date_group_rows, well_shaped_group. cbn [fst snd].
  destruct (parse_date dt_str) as [d|]; [|reflexivity].
  destruct (mapping_or_falsy metrics) eqn:E.
  - rewrite items_or_empty by exact E. reflexivity.
  - rewrite items_or_other by exact E. split; reflexivity.
Qed.

Lemma agrees_freq (h : header) (stype : string) (b : json) (freq : string) :
  mapping_or_falsy b = true ->
  agrees (freq_rows h stype (py_or b (JObj [])) freq) (well_shaped_freq b freq).
Proof.
  intros Hb. unfold freq_rows, well_shaped_freq.
  rewrite get_or_empty by exact Hb. cbn [bind].
  destruct (mapping_or_falsy (field b freq)) eqn:E.
  - rewrite items_or_empty by exact E. cbn [bind andb]. apply agrees_groups.
  - rewrite items_or_other by exact E. split; reflexivity.
Qed.

Lemma agrees_folder (h : header) (payload : json) (folder stype : string) :
  mapping_or_falsy payload = true ->
  agrees (folder_rows h (py_or payload (JObj [])) (folder, stype))
         (well_shaped_block (field payload folder)).
Proof.
  intros Hp. unfold folder_rows, well_shaped_block.
  rewrite get_or_empty by exact Hp. cbn [bind].
  destruct (mapping_or_falsy (field payload folder)) eqn:E.
  - cbn [andb]. apply agrees_for_each. intros freq _. apply agrees_freq. exact E.
  - cbn [for_each andb]. unfold freq_rows.
    rewrite get_or_other by exact E. split; reflexivity.
Qed.

Lemma normalize_financials_agrees (symbol payload : json) :
  agrees (normalize_financials symbol payload) (well_shaped payload).
Proof.
  unfold normalize_financials, well_shaped.
  destruct (mapping_or_falsy payload) eqn:Ep.
  2:{ rewrite get_default_or_other by exact Ep. split; reflexivity. }
  rewrite get_default_or_empty by exact Ep. cbn [bind andb].
  assert (Hinfo : mapping_or_falsy
                    (match assoc "info" (members_of payload) with
                     | Some x => x
                     | None => JObj []
                     end)
                  = mapping_or_falsy (field payload "info")).
  { unfold field. destruct (assoc "info" (members_of payload)); reflexivity. }
  rewrite <- Hinfo. clear Hinfo.
  set (i := match assoc "info" (members_of payload) with
            | Some x => x
            | None => JObj []
            end).
  destruct (mapping_or_falsy i) eqn:Ei.
  2:{ rewrite get_or_other by exact Ei. split; reflexivity. }
  rewrite !get_or_empty by exact Ei. cbn [bind andb].
  unfold or_else.
  repeat match goal with
         | |- context [if truthy ?x then _ else _] => destruct (truthy x)
         end;
    cbn [bind]; rewrite ?get_or_empty by exact Ei; cbn [bind];
    (apply agrees_for_each; intros (folder, stype) _; cbn [fst];
     apply agrees_folder; exact Ep).
Qed.

(** X8: [normalize_financials] returns rows exactly on the payloads in
    which every container it walks is a dictionary or a falsy value (which
    it reads as the empty dictionary): the payload, its [info], the three
    statement sections, their [yearly] and [quarterly] blocks, and the
    metrics of every date group whose key parses to a date.  On every other
    payload it raises [AttributeError], and it raises nothing else.  The
    values of [info] and the metrics themselves can be of any type. *)
Theorem normalize_financials_raises_iff_ill_shaped (symbol payload : json) :
  match normalize_financials symbol payload with
  | Ok _ => well_shaped payload = true
  | Raise e => e = AttributeError /\ well_shaped payload = false
  end.
Proof. exact (normalize_financials_agrees symbol payload). Qed.

(** *** The rows of every entry *)

Lemma for_each_flat_map {A B : Type} (body : A -> result (list B))
  (f : A -> list B) (l : list A) :
  (forall a, In a l -> body a = Ok (f a)) ->
  for_each body l = Ok (flat_map f l).
Proof.
  induction l as [|a l IH]; intros H; [reflexivity|].
  cbn [for_each flat_map].
  rewrite (H a (or_introl eq_refl)), (IH (fun x Hx => H x (or_intror Hx))).
  reflexivity.
Qed.

Lemma metric_rows_reported (h : header) (stype : string) (y p : Z) (d : date)
  (ms : list (string * json)) :
  metric_rows h stype y p d ms
  = map (fun metric : string * json =>
           mkitem (h_symbol h) (h_yf_name h) stype (fst metric)
                  (h_stockcurrency h) (h_financialcurrency h) y p
                  (finite_or_none (snd metric)) d)
        (filter reported ms).
Proof.
  unfold metric_rows. induction ms as [|(k, v) ms IH]; [reflexivity|].
  cbn [flat_map filter]. unfold reported at 1. cbn [fst snd].
  destruct (String.eqb k ""); cbn [negb andb app]; [exact IH|].
  destruct (is_dict_or_list v); cbn [negb app map fst snd]; [exact IH|].
  rewrite IH. reflexivity.
Qed.

Lemma period_of_source (freq : string) (d : date) :
  (if String.eqb freq "yearly" then 4 else quarter_from_date d) = period_of freq d.
Proof.
  unfold period_of, quarter_from_date.
  destruct (String.eqb freq "yearly"); [reflexivity|apply Z.add_comm].
Qed.

Lemma date_group_rows_expected (h : header) (stype freq : string)
  (entry : string * json) :
  well_shaped_group entry = true ->
  date_group_rows h stype freq entry = Ok (group_rows h stype freq entry).
Proof.
  destruct entry as (dt_str, metrics).
  unfold well_shaped_group, date_group_rows, group_rows. cbn [fst snd].
  destruct (parse_date dt_str) as [d|]; [|reflexivity].
  intros Hm. rewrite items_or_empty by exact Hm. cbn [bind].
  rewrite metric_rows_reported, period_of_source. reflexivity.
Qed.

Lemma freq_rows_expected (h : header) (stype : string) (b : json)
  (freq : string) :
  mapping_or_falsy b = true -> well_shaped_freq b freq = true ->
  freq_rows h stype (py_or b (JObj [])) freq
  = Ok (flat_map (group_rows h stype freq) (members_of (field b freq))).
Proof.
  intros Hb Hf. unfold well_shaped_freq in Hf.
  apply andb_true_iff in Hf. destruct Hf as (Hm & Hg).
  unfold freq_rows. rewrite get_or_empty by exact Hb. cbn [bind].
  rewrite items_or_empty by exact Hm. cbn [bind].
  apply for_each_flat_map. intros entry Hin.
  apply date_group_rows_expected.
  rewrite forallb_forall in Hg. apply Hg. exact Hin.
Qed.

Lemma folder_rows_expected (h : header) (payload : json)
  (section : string * string) :
  mapping_or_falsy payload = true ->
  well_shaped_block (field payload (fst section)) = true ->
  folder_rows h (py_or payload (JObj [])) section
  = Ok (flat_map
          (fun freq : string =>
             flat_map (group_rows h (snd section) freq)
                      (members_of (field (field payload (fst section)) freq)))
          ["yearly"; "quarterly"]).
Proof.
  destruct section as (folder, stype). cbn [fst snd].
  intros Hp Hb. unfold well_shaped_block in Hb.
  apply andb_true_iff in Hb. destruct Hb as (Hm & Hf).
  unfold folder_rows. rewrite get_or_empty by exact Hp. cbn [bind].
  apply for_each_flat_map. intros freq Hin.
  apply freq_rows_expected; [exact Hm|].
  rewrite forallb_forall in Hf. apply Hf. exact Hin.
Qed.

(** What [normalize_financials] returns is what the specification asks
    for, row by row. *)
Lemma normalize_financials_expected (symbol payload : json)
  (rows : list line_item) :
  normalize_financials symbol payload = Ok rows ->
  exists h, h_symbol h = symbol /\ rows = expected_rows h payload.
Proof.
  intros H.
  pose proof (normalize_financials_agrees symbol payload) as Hw.
  rewrite H in Hw. cbn [agrees] in Hw. unfold well_shaped in Hw.
  apply andb_true_iff in Hw. destruct Hw as (Hw & Hblocks).
  apply andb_true_iff in Hw. destruct Hw as (Hp & _).
  destruct (normalize_financials_rows _ _ _ H) as (h & Hs & Hf).
  exists h. split; [exact Hs|].
  assert (E : for_each (folder_rows h (py_or payload (JObj []))) folder_map
              = Ok (expected_rows h payload)).
  { unfold expected_rows. apply for_each_flat_map. intros section Hin.
    apply folder_rows_expected; [exact Hp|].
    rewrite forallb_forall in Hblocks. apply (Hblocks section Hin). }
  rewrite E in Hf. injection Hf as <-. reflexivity.
Qed.

Lemma quarter_by_month (m : Z) :
  (1 <= m <= 3 -> (m - 1) / 3 + 1 = 1)
  /\ (4 <= m <= 6 -> (m - 1) / 3 + 1 = 2)
  /\ (7 <= m <= 9 -> (m - 1) / 3 + 1 = 3)
  /\ (10 <= m <= 12 -> (m - 1) / 3 + 1 = 4).
Proof.
  pose proof (Z.div_mod (m - 1) 3 ltac:(lia)).
  pose proof (Z.mod_pos_bound (m - 1) 3 ltac:(lia)).
  repeat split; intros; lia.
Qed.

(** C1 (amended): the records that [normalize_financials] returns are,
    section after section and statement entry after statement entry in the
    order of the payload, the records of the entries: one record per
    reported metric of every entry whose key parses to a date, and none
    for the other entries.  Every record of an entry under [yearly] has
    period 4.  Every record of an entry under [quarterly] whose date is in
    month [m] has period [1 + (m - 1) // 3], a value from 1 to 4, which is
    4 for the months October to December. *)
Theorem period_of_statement_entry (symbol payload : json)
  (rows : list line_item) :
  normalize_financials symbol payload = Ok rows ->
  exists h,
    h_symbol h = symbol
    /\ rows = expected_rows h payload
    /\ forall stype freq dt_str metrics d,
         parse_date dt_str = Some d ->
         group_rows h stype freq (dt_str, metrics)
         = entry_rows h stype freq d metrics
         /\ List.length (entry_rows h stype freq d metrics)
            = List.length (filter reported (members_of metrics))
         /\ forall r, In r (entry_rows h stype freq d metrics) ->
              statement_date r = d
              /\ (freq = "yearly" -> period r = 4)
              /\ (freq = "quarterly" ->
                  period r = 1 + (month d - 1) / 3
                  /\ 1 <= period r <= 4
                  /\ (10 <= month d <= 12 -> period r = 4)).
Proof.
  intros H.
  destruct (normalize_financials_expected _ _ _ H) as (h & Hs & Hrows).
  exists h. split; [exact Hs|]. split; [exact Hrows|].
  intros stype freq dt_str metrics d Hd.
  split; [unfold group_rows; cbn [fst snd]; rewrite Hd; reflexivity|].
  split; [unfold entry_rows; apply length_map|].
  intros r Hr. unfold entry_rows in Hr. apply in_map_iff in Hr.
  destruct Hr as (metric & <- & _). cbn [statement_date period].
  split; [reflexivity|]. split.
  - intros ->. reflexivity.
  - intros ->. unfold period_of. cbn [String.eqb Ascii.eqb Bool.eqb].
    pose proof (valid_date_month _ (parse_date_valid _ _ Hd)) as Hm.
    pose proof (quarter_bounds (month d) Hm).
    pose proof (quarter_by_month (month d)) as (_ & _ & _ & H4).
    split; [reflexivity|]. split; [lia|]. intros Hq. specialize (H4 Hq). lia.
Qed.

(** C10: for every parsed date [d], [quarter_from_date d] is
    [(d.month - 1) // 3 + 1] and lies between 1 and 4: it is 1 for January
    to March, 2 for April to June, 3 for July to September and 4 for
    October to December.  Under [quarterly] the loop body gives one record
    per reported metric of the entry dated [d], each with
    [quarter_from_date d] as its period, hence with period 4 for October to
    December; under [yearly] it gives the same records with period 4, the
    annual sentinel. *)
Theorem quarter_from_date_range (dt_str : string) (d : date) :
  parse_date dt_str = Some d ->
  quarter_from_date d = (month d - 1) / 3 + 1
  /\ 1 <= quarter_from_date d <= 4
  /\ (1 <= month d <= 3 -> quarter_from_date d = 1)
  /\ (4 <= month d <= 6 -> quarter_from_date d = 2)
  /\ (7 <= month d <= 9 -> quarter_from_date d = 3)
  /\ (10 <= month d <= 12 -> quarter_from_date d = 4)
  /\ forall h stype metrics,
       mapping_or_falsy metrics = true ->
       date_group_rows h stype "quarterly" (dt_str, metrics)
       = Ok (map (fun metric : string * json =>
                    mkitem (h_symbol h) (h_yf_name h) stype (fst metric)
                           (h_stockcurrency h) (h_financialcurrency h) (year d)
                           (quarter_from_date d) (finite_or_none (snd metric)) d)
                 (filter reported (members_of metrics)))
       /\ date_group_rows h stype "yearly" (dt_str, metrics)
          = Ok (map (fun metric : string * json =>
                       mkitem (h_symbol h) (h_yf_name h) stype (fst metric)
                              (h_stockcurrency h) (h_financialcurrency h) (year d)
                              4 (finite_or_none (snd metric)) d)
                    (filter reported (members_of metrics))).
Proof.
  intros Hd.
  pose proof (valid_date_month _ (parse_date_valid _ _ Hd)) as Hm.
  pose proof (quarter_by_month (month d)) as (Q1 & Q2 & Q3 & Q4).
  split; [reflexivity|].
  split; [apply quarter_bounds; exact Hm|].
  split; [exact Q1|]. split; [exact Q2|]. split; [exact Q3|]. split; [exact Q4|].
  intros h stype metrics Hmap.
  unfold date_group_rows. rewrite Hd.
  rewrite items_or_empty by exact Hmap. cbn [bind].
  rewrite !metric_rows_reported. split; reflexivity.
Qed.

End FinancilasFurther.

(** ** Statement dates from the loader to the normalizer *)

Section DateKeys.
Import Financilas.
Context {R : Runtime}.

Lemma digit_decimal (n : Z) :
  PyStr.isdecimal (Summary.digit n) = true
  /\ PyStr.digit_value (Summary.digit n) = n mod 10.
Proof.
  unfold Summary.digit.
  pose proof (Z.mod_pos_bound n 10 ltac:(lia)) as H.
  assert (E : n mod 10 = 0 \/ n mod 10 = 1 \/ n mod 10 = 2 \/ n mod 10 = 3
              \/ n mod 10 = 4 \/ n mod 10 = 5 \/ n mod 10 = 6 \/ n mod 10 = 7
              \/ n mod 10 = 8 \/ n mod 10 = 9) by lia.
  repeat (destruct E as [E|E]); rewrite E; split; reflexivity.
Qed.

Lemma four_digits_value (y : Z) :
  0 <= y <= 9999 ->
  10 * (10 * (10 * ((y / 100 / 10) mod 10) + (y / 100) mod 10)
        + (y / 10) mod 10) + y mod 10 = y.
Proof.
  intros H.
  pose proof (Z.div_mod y 10 ltac:(lia)).
  pose proof (Z.mod_pos_bound y 10 ltac:(lia)).
  pose proof (Z.div_mod (y / 10) 10 ltac:(lia)).
  pose proof (Z.mod_pos_bound (y / 10) 10 ltac:(lia)).
  pose proof (Z.div_mod (y / 100) 10 ltac:(lia)).
  pose proof (Z.mod_pos_bound (y / 100) 10 ltac:(lia)).
  assert (E : y / 100 = y / 10 / 10) by (rewrite Z.div_div by lia; reflexivity).
  assert (y / 100 / 10 < 10).
  { apply Z.div_lt_upper_bound; [lia|]. apply Z.div_lt_upper_bound; lia. }
  assert (0 <= y / 100 / 10).
  { apply Z.div_pos; [apply Z.div_pos|]; lia. }
  rewrite (Z.mod_small (y / 100 / 10) 10) by lia.
  lia.
Qed.

Lemma read_year_four_digits (y : Z) (rest : string) :
  0 <= y <= 9999 ->
  read_year (Summary.four_digits y ++ rest) = Some (y, rest).
Proof.
  intros H. unfold Summary.four_digits, Summary.two_digits.
  cbn [append read_year].
  rewrite !(proj1 (digit_decimal _)). cbn [andb PyStr.digits_value].
  rewrite !(proj2 (digit_decimal _)).
  replace (10 * 0 + (y / 100 / 10) mod 10) with ((y / 100 / 10) mod 10) by lia.
  rewrite four_digits_value by exact H. reflexivity.
Qed.

Lemma read_month_two_digits (m : Z) (rest : string) :
  1 <= m <= 12 ->
  read_month (Summary.two_digits m ++ String "-" rest) = Some (m, String "-" rest).
Proof.
  intros H.
  assert (E : m = 1 \/ m = 2 \/ m = 3 \/ m = 4 \/ m = 5 \/ m = 6 \/ m = 7
              \/ m = 8 \/ m = 9 \/ m = 10 \/ m = 11 \/ m = 12) by lia.
  repeat (destruct E as [E|E]); subst m; reflexivity.
Qed.

Lemma read_day_two_digits (d : Z) :
  1 <= d <= 31 ->
  read_day (Summary.two_digits d) = Some (d, "").
Proof.
  intros H.
  assert (E : d = 1 \/ d = 2 \/ d = 3 \/ d = 4 \/ d = 5 \/ d = 6 \/ d = 7
              \/ d = 8 \/ d = 9 \/ d = 10 \/ d = 11 \/ d = 12 \/ d = 13
              \/ d = 14 \/ d = 15 \/ d = 16 \/ d = 17 \/ d = 18 \/ d = 19
              \/ d = 20 \/ d = 21 \/ d = 22 \/ d = 23 \/ d = 24 \/ d = 25
              \/ d = 26 \/ d = 27 \/ d = 28 \/ d = 29 \/ d = 30 \/ d = 31) by lia.
  repeat (destruct E as [E|E]); subst d; reflexivity.
Qed.

Lemma days_in_month_bound (y m : Z) : days_in_month y m <= 31.
Proof.
  unfold days_in_month.
  repeat match goal with |- context [if ?b then _ else _] => destruct b end; lia.
Qed.

Lemma strptime_isoformat_date (d : date) :
  valid_date d = true -> strptime_ymd (Frames.isoformat_date d) = Some d.
Proof.
  intros Hv. pose proof Hv as Hv'.
  unfold valid_date in Hv'. rewrite !andb_true_iff, !Z.leb_le in Hv'.
  pose proof (days_in_month_bound (year d) (month d)).
  unfold strptime_ymd, Frames.isoformat_date.
  rewrite read_year_four_digits by lia. cbn [append].
  rewrite read_month_two_digits by lia.
  rewrite read_day_two_digits by lia.
  destruct d as [y m dd]. cbn [year month day] in *. rewrite Hv. reflexivity.
Qed.

Lemma len_nonneg (s : string) : 0 <= PyStr.len s.
Proof. induction s; cbn [PyStr.len]; lia. Qed.

Lemma take_prefix (a b : string) : PyStr.take (PyStr.len a) (a ++ b) = a.
Proof.
  induction a as [|c a IH]; cbn [append PyStr.len PyStr.take].
  - destruct b; [reflexivity|]. reflexivity.
  - pose proof (len_nonneg a).
    destruct (1 + PyStr.len a <=? 0) eqn:E; [apply Z.leb_le in E; lia|].
    replace (1 + PyStr.len a - 1) with (PyStr.len a) by lia.
    rewrite IH. reflexivity.
Qed.

(** X9: the statement dates survive the way from the loader to the
    normalizer.  The key that [_str_key] writes for a [Timestamp] column
    label, its [isoformat] with a space as separator, is read back by the
    date loop of [normalize_financials] as the date of that timestamp,
    whatever follows the date in the key (time of day, fraction, offset),
    and already by the first [strptime] attempt. *)
Theorem timestamp_key_reads_back (d : date) (time : string) :
  valid_date d = true ->
  parse_date (Frames._str_key (Frames.Timestamp d time)) = Some d
  /\ strptime_ymd (PyStr.take 10 (Frames._str_key (Frames.Timestamp d time)))
     = Some d.
Proof.
  intros Hv.
  assert (H : strptime_ymd
                (PyStr.take 10 (Frames._str_key (Frames.Timestamp d time)))
              = Some d).
  { cbn [Frames._str_key]. unfold Frames.isoformat.
    replace 10 with (PyStr.len (Frames.isoformat_date d)) by reflexivity.
    rewrite take_prefix. apply strptime_isoformat_date. exact Hv. }
  split; [|exact H]. unfold parse_date. rewrite H. reflexivity.
Qed.

End DateKeys.

(** ** Stored payloads that decode *)

Section PayloadFurther.
Context {R : Runtime}.

Lemma normalize_financials_falsy (symbol v : json) :
  truthy v = false ->
  Financilas.normalize_financials symbol v = Ok [].
Proof.
  intros H. unfold Financilas.normalize_financials, py_or. rewrite H. reflexivity.
Qed.

Lemma parse_stored_text (j : column_value) (s : string) :
  FinancilasShape.stored_text j = Some s ->
  parse_json_value j = dict_or_reload (loads_or_unescape s).
Proof.
  destruct j as [b|v]; cbn [FinancilasShape.stored_text].
  - intros H. injection H as <-. reflexivity.
  - destruct v; try discriminate. intros H. injection H as <-. reflexivity.
Qed.

(** X10: what [parse_json_value] returns for a payload that decodes.  A
    dictionary handed over by the driver is returned as it is.  A stored
    text (or the UTF-8 decoding of stored bytes) that [json.loads] decodes
    to an object is returned as that object.  A stored text whose decoded
    root is itself a text [t] is decoded once more: the result is what
    [json.loads] makes of [t], whatever that is, and the empty dictionary
    when [t] does not decode.  So the value returned is a dictionary in
    every case but one: the decoded root of the stored text is a text
    whose content decodes to something that is no object (a list, a
    number, a text, [None]); that value is returned as it is, although the
    function is documented to return a dictionary.  On a value that is no
    dictionary [normalize_financials] raises [AttributeError] when the
    value is truthy and returns no row when it is falsy. *)
Theorem parse_json_value_decodes :
  (forall m, parse_json_value (ColValue (JObj m)) = JObj m)
  /\ (forall j s m,
        FinancilasShape.stored_text j = Some s ->
        json_loads s = Some (JObj m) ->
        parse_json_value j = JObj m)
  /\ (forall j s t,
        FinancilasShape.stored_text j = Some s ->
        loads_or_unescape s = JStr t ->
        parse_json_value j
        = match json_loads t with
          | Some v => v
          | None => JObj []
          end)
  /\ (forall j,
        match parse_json_value j with
        | JObj _ => True
        | v =>
            exists s t,
              FinancilasShape.stored_text j = Some s
              /\ loads_or_unescape s = JStr t
              /\ json_loads t = Some v
        end)
  /\ (forall symbol v,
        (forall m, v <> JObj m) ->
        Financilas.normalize_financials symbol v
        = if truthy v then Raise AttributeError else Ok []).
Proof.
  repeat apply conj.
  - reflexivity.
  - intros j s m Hs H. rewrite (parse_stored_text j s Hs).
    unfold loads_or_unescape. rewrite H. reflexivity.
  - intros j s t Hs H. rewrite (parse_stored_text j s Hs), H. reflexivity.
  - intros j.
    assert (Hroot : forall s,
               FinancilasShape.stored_text j = Some s ->
               match dict_or_reload (loads_or_unescape s) with
               | JObj _ => True
               | v =>
                   exists s0 t,
                     FinancilasShape.stored_text j = Some s0
                     /\ loads_or_unescape s0 = JStr t
                     /\ json_loads t = Some v
               end).
    { intros s Hs.
      destruct (loads_or_unescape s) as [| | | |t| |] eqn:E;
        cbn [dict_or_reload]; try exact I.
      destruct (json_loads t) as [v|] eqn:Et; [|exact I].
      destruct v; try exact I; exists s, t; auto. }
    destruct j as [b|v].
    + rewrite (parse_stored_text (ColBytes b) _ eq_refl). apply Hroot. reflexivity.
    + destruct v; try exact I.
      rewrite (parse_stored_text (ColValue (JStr s)) _ eq_refl).
      apply Hroot. reflexivity.
  - intros symbol v Hm. destruct (truthy v) eqn:E.
    + unfold Financilas.normalize_financials, py_or. rewrite E.
      destruct v as [| | | | | |m]; try reflexivity.
      exfalso. apply (Hm m). reflexivity.
    + apply normalize_financials_falsy. exact E.
Qed.

End PayloadFurther.

(** ** What the patterns extract from a summary *)

Section ExtractProperties.
Import PyStr Summary.

Lemma search_found {A : Type} (at_position : string -> option A)
  (prev_word : bool) (s : string) (a : A) :
  search at_position prev_word s = Some a -> exists s', at_position s' = Some a.
Proof.
  revert prev_word. induction s as [|c r IH]; intros prev_word; cbn [search].
  - destruct (word_boundary prev_word ""); [|discriminate].
    destruct (at_position "") as [x|] eqn:E; [|discriminate].
    intros H. injection H as <-. exists "". exact E.
  - destruct (if word_boundary prev_word (String c r)
              then at_position (String c r) else None) as [x|] eqn:E.
    + intros H. injection H as <-.
      destruct (word_boundary prev_word (String c r)); [|discriminate].
      exists (String c r). exact E.
    + apply IH.
Qed.

Lemma decimal_value (c : ascii) :
  isdecimal c = true -> 0 <= digit_value c <= 9.
Proof.
  unfold isdecimal, digit_value. rewrite andb_true_iff, !Z.leb_le. lia.
Qed.

Lemma founded_at_year (s digits : string) :
  founded_at s = Some digits -> 0 <= digits_value 0 digits <= 9999.
Proof.
  unfold founded_at.
  destruct (starts_with_nocase "founded in " s)
    as [[|a [|b [|c [|d r]]]]|]; try discriminate.
  destruct (isdecimal a) eqn:Ea; [|discriminate].
  destruct (isdecimal b) eqn:Eb; [|discriminate].
  destruct (isdecimal c) eqn:Ec; [|discriminate].
  destruct (isdecimal d) eqn:Ed; [|discriminate].
  destruct (word_boundary true r); [|discriminate].
  intros H. injection H as <-. cbn [digits_value].
  apply decimal_value in Ea, Eb, Ec, Ed. lia.
Qed.

Lemma all_chars_span (p : ascii -> bool) (s : string) :
  all_chars p (span p s) = true.
Proof.
  induction s as [|c r IH]; [reflexivity|].
  cbn [span]. destruct (p c) eqn:E; [|reflexivity].
  cbn [all_chars]. rewrite E, IH. reflexivity.
Qed.

Lemma all_chars_before_final_newline (p : ascii -> bool) (s : string) :
  all_chars p s = true -> all_chars p (before_final_newline s) = true.
Proof.
  induction s as [|c r IH]; [reflexivity|].
  cbn [all_chars]. rewrite andb_true_iff. intros (Hc & Hr).
  cbn [before_final_newline].
  destruct r as [|n [|x r']].
  - cbn [all_chars]. rewrite Hc. reflexivity.
  - destruct (Ascii.eqb n newline); cbn [all_chars] in *; rewrite Hc; [reflexivity|exact Hr].
  - cbn [all_chars]. rewrite Hc. cbn [andb]. apply IH. exact Hr.
Qed.

Lemma all_chars_lstrip (p q : ascii -> bool) (s : string) :
  all_chars p s = true -> all_chars p (lstrip_by q s) = true.
Proof.
  induction s as [|c r IH]; [reflexivity|].
  cbn [lstrip_by]. destruct (q c); [|trivial].
  cbn [all_chars]. rewrite andb_true_iff. intros (_ & Hr). apply IH. exact Hr.
Qed.

Lemma all_chars_rstrip (p q : ascii -> bool) (s : string) :
  all_chars p s = true -> all_chars p (rstrip_by q s) = true.
Proof.
  induction s as [|c r IH]; [reflexivity|].
  cbn [all_chars]. rewrite andb_true_iff. intros (Hc & Hr).
  specialize (IH Hr). cbn [rstrip_by].
  destruct (rstrip_by q r) as [|x r'].
  - destruct (q c); [reflexivity|]. cbn [all_chars]. rewrite Hc. reflexivity.
  - cbn [all_chars] in *. rewrite Hc. exact IH.
Qed.

Lemma all_chars_strip (p : ascii -> bool) (s : string) :
  all_chars p s = true -> all_chars p (strip s) = true.
Proof. intros H. apply all_chars_rstrip, all_chars_lstrip. exact H. Qed.

Lemma all_chars_split_on (p : ascii -> bool) (sep : ascii) (s : string) :
  all_chars p s = true ->
  Forall (fun part => all_chars p part = true /\ lacks sep part = true)
         (split_on sep s).
Proof.
  induction s as [|c r IH]; intros H.
  - repeat constructor.
  - cbn [all_chars] in H. apply andb_true_iff in H. destruct H as (Hc & Hr).
    specialize (IH Hr). cbn [split_on].
    destruct (Ascii.eqb c sep) eqn:E.
    + constructor; [split; reflexivity|exact IH].
    + destruct (split_on sep r) as [|h t].
      * constructor; [|constructor].
        unfold lacks. cbn [all_chars]. rewrite Hc, E. split; reflexivity.
      * inversion IH as [|? ? (Hh1 & Hh2) Ht]; subst.
        constructor; [|exact Ht].
        unfold lacks in *. cbn [all_chars]. rewrite Hc, E, Hh1, Hh2.
        split; reflexivity.
Qed.

Lemma split_on_not_empty (sep : ascii) (s : string) : split_on sep s <> [].
Proof.
  destruct s as [|c r]; cbn [split_on]; [discriminate|].
  destruct (Ascii.eqb c sep); [discriminate|].
  destruct (split_on sep r); discriminate.
Qed.

Lemma all_chars_append (p : ascii -> bool) (a b : string) :
  all_chars p (a ++ b) = all_chars p a && all_chars p b.
Proof.
  induction a as [|c a IH]; [reflexivity|].
  cbn [append all_chars]. rewrite IH, andb_assoc. reflexivity.
Qed.

Lemma all_chars_join (p : ascii -> bool) (sep : string) (parts : list string) :
  all_chars p sep = true ->
  Forall (fun part => all_chars p part = true) parts ->
  all_chars p (join sep parts) = true.
Proof.
  intros Hsep. induction parts as [|x l IH]; intros H; [reflexivity|].
  inversion H as [|? ? Hx Hl]; subst. cbn [join].
  destruct l as [|y l']; [exact Hx|].
  rewrite !all_chars_append, Hx, Hsep. cbn [andb]. apply IH. exact Hl.
Qed.

Lemma lstrip_stripped (p : ascii -> bool) (s : string) :
  lstrip_by p (lstrip_by p s) = lstrip_by p s.
Proof.
  induction s as [|c r IH]; [reflexivity|].
  cbn [lstrip_by]. destruct (p c) eqn:E; [exact IH|].
  cbn [lstrip_by]. rewrite E. reflexivity.
Qed.

Lemma rstrip_stripped (p : ascii -> bool) (s : string) :
  rstrip_by p (rstrip_by p s) = rstrip_by p s.
Proof.
  induction s as [|c r IH]; [reflexivity|].
  cbn [rstrip_by]. destruct (rstrip_by p r) as [|x r'] eqn:Er.
  - destruct (p c) eqn:E; [reflexivity|]. cbn [rstrip_by]. rewrite E. reflexivity.
  - cbn [rstrip_by]. cbn [rstrip_by] in IH. rewrite IH. reflexivity.
Qed.

Lemma lstrip_rstrip (p : ascii -> bool) (s : string) :
  lstrip_by p (rstrip_by p (lstrip_by p s)) = rstrip_by p (lstrip_by p s).
Proof.
  induction s as [|c r IH]; [reflexivity|].
  cbn [lstrip_by]. destruct (p c) eqn:E; [exact IH|].
  cbn [rstrip_by]. destruct (rstrip_by p r) as [|x r'].
  - rewrite E. cbn [lstrip_by]. rewrite E. reflexivity.
  - cbn [lstrip_by]. rewrite E. reflexivity.
Qed.

Lemma strip_stripped (s : string) : strip (strip s) = strip s.
Proof. unfold strip. rewrite lstrip_rstrip, rstrip_stripped. reflexivity. Qed.

Lemma hq_at_no_period (s group : string) :
  hq_at s = Some group -> lacks "." group = true.
Proof.
  unfold hq_at.
  destruct (starts_with_nocase "headquartered in " s) as [rest|]; [|discriminate].
  assert (H : all_chars (not_in ".") (span (not_in ".") rest) = true)
    by apply all_chars_span.
  assert (Hl : forall t, all_chars (not_in ".") t = true -> lacks "." t = true).
  { intros t. unfold lacks. induction t as [|c t IH]; [reflexivity|].
    cbn [all_chars]. rewrite !andb_true_iff. intros (Hc & Ht).
    split; [|apply IH; exact Ht].
    unfold not_in in Hc. cbn in Hc. rewrite orb_false_r in Hc. exact Hc. }
  destruct (span (not_in ".") rest) as [|c run]; [discriminate|].
  destruct (drop (not_in ".") rest); intros E; injection E as <-.
  - apply Hl. apply (all_chars_before_final_newline _ (String c run)). exact H.
  - apply Hl. exact H.
Qed.

(** X11: what [extract_from_summary] returns.  A founding year lies
    between 0 and 9999.  The location is filled from the left: there is a
    state only with a city, and a country only with a state.  City and
    state hold neither a comma nor a period and are stripped of surrounding
    whitespace; the country holds no period.  A summary that is [None] or
    empty gives five [None]. *)
Theorem extract_from_summary_fields (summary : option string) :
  let e := extract_from_summary summary in
  (forall y, founded e = Some y -> 0 <= y <= 9999)
  /\ (s_state e <> None -> s_city e <> None)
  /\ (s_country e <> None -> s_state e <> None)
  /\ (forall c, s_city e = Some c ->
        lacks "," c = true /\ lacks "." c = true /\ strip c = c)
  /\ (forall s, s_state e = Some s ->
        lacks "," s = true /\ lacks "." s = true /\ strip s = s)
  /\ (forall c, s_country e = Some c -> lacks "." c = true)
  /\ (summary = None \/ summary = Some "" ->
      e = mkextracted None None None None None).
Proof.
  cbv zeta.
  destruct summary as [[|c0 text0]|];
    [cbn; repeat split; try discriminate; congruence| |
     cbn; repeat split; try discriminate; congruence].
  unfold extract_from_summary. set (text := String c0 text0).
  assert (Hf : forall y,
             match search founded_at false text with
             | Some digits => Some (digits_value 0 digits)
             | None => None
             end = Some y -> 0 <= y <= 9999).
  { intros y. destruct (search founded_at false text) as [digits|] eqn:E;
      [|discriminate].
    intros H. injection H as <-.
    destruct (search_found _ _ _ _ E) as (s' & Hs').
    apply (founded_at_year s'). exact Hs'. }
  assert (Hlast : forall e : extracted,
             Some (String c0 text0) = None \/ Some (String c0 text0) = Some "" ->
             e = mkextracted None None None None None).
  { intros e [H|H]; discriminate H. }
  destruct (search hq_at false text) as [group|] eqn:Ehq.
  2:{ cbn [founded s_city s_state s_country].
      do 6 (split; [first [exact Hf|congruence|discriminate]|]). apply Hlast. }
  destruct (search_found _ _ _ _ Ehq) as (s' & Hs').
  apply hq_at_no_period in Hs'.
  pose proof (all_chars_split_on _ "," _ (all_chars_strip _ _ Hs')) as Hparts.
  fold (lacks "." (strip group)) in Hparts.
  assert (Hstripped : Forall (fun part => lacks "," part = true
                                          /\ lacks "." part = true
                                          /\ strip part = part)
                        (map strip (split_on "," (strip group)))).
  { apply Forall_map. eapply Forall_impl; [|exact Hparts].
    cbn beta. intros part (H1 & H2).
    split; [apply all_chars_strip; exact H2|].
    split; [apply all_chars_strip; exact H1|apply strip_stripped]. }
  assert (Hperiod : Forall (fun part => all_chars (fun c => negb (Ascii.eqb c ".")) part = true)
                      (map strip (split_on "," (strip group)))).
  { eapply Forall_impl; [|exact Hstripped]. cbn beta. unfold lacks. tauto. }
  destruct (map strip (split_on "," (strip group))) as [|c [|s [|x more]]] eqn:Em.
  - cbn [founded s_city s_state s_country].
    do 6 (split; [first [exact Hf|congruence|discriminate]|]). apply Hlast.
  - inversion Hstripped as [|? ? Hc _]; subst.
    cbn [founded s_city s_state s_country].
    do 6 (split; [first [exact Hf|congruence|discriminate
                        |intros ? H; injection H as <-; tauto]|]).
    apply Hlast.
  - inversion Hstripped as [|? ? Hc Hrest]; subst.
    inversion Hrest as [|? ? Hs _]; subst.
    cbn [founded s_city s_state s_country].
    do 6 (split; [first [exact Hf|congruence|discriminate
                        |intros ? H; injection H as <-; tauto]|]).
    apply Hlast.
  - inversion Hstripped as [|? ? Hc Hrest]; subst.
    inversion Hrest as [|? ? Hs _]; subst.
    inversion Hperiod as [|? ? _ Hp1]; subst.
    inversion Hp1 as [|? ? _ Hp2]; subst.
    cbn [founded s_city s_state s_country].
    do 5 (split; [first [exact Hf|congruence|discriminate
                        |intros ? H; injection H as <-; tauto]|]).
    split; [|apply Hlast].
    intros ? H. injection H as <-. unfold lacks.
    apply (all_chars_join _ ", " (x :: more)); [reflexivity|exact Hp2].
Qed.

End ExtractProperties.

(** ** The profile normalizer on every payload *)

Section SummaryFurther.
Import Summary SummaryShape.
Context {R : Runtime}.

Lemma agrees_bind {A B : Type} (c : result A) (k : A -> result B) (b1 b2 : bool) :
  agrees c b1 -> (forall a, agrees (k a) b2) -> agrees (bind c k) (b1 && b2).
Proof.
  unfold agrees. destruct c as [a|e]; cbn [bind].
  - intros -> H. apply H.
  - intros (-> & ->) _. split; reflexivity.
Qed.

Lemma agrees_clean_text (v : json) : agrees (clean_text v) (text_or_falsy v).
Proof.
  unfold clean_text, text_or_falsy, agrees.
  destruct v as [| b | n | f | s | l | m]; cbn [truthy negb]; try reflexivity.
  - destruct b; cbn; auto.
  - destruct (n =? 0); cbn; auto.
  - destruct f; cbn; auto.
  - destruct s; reflexivity.
  - destruct l; cbn; auto.
  - destruct m; cbn; auto.
Qed.

Lemma get_mapping (m : list (string * json)) (k : string) :
  get (JObj m) k = Ok (field (JObj m) k).
Proof. reflexivity. Qed.

Lemma get2_mapping (m : list (string * json)) (k1 k2 : string) :
  get2 (JObj m) k1 k2 = Ok (either (JObj m) k1 k2).
Proof.
  unfold get2, either, or_else, py_or. rewrite get_mapping. cbn [bind].
  destruct (truthy (field (JObj m) k1)); reflexivity.
Qed.

(** X12: [normalize_summary] returns a record exactly on the payloads on
    which it applies [.get] to dictionaries only and [.strip] to texts
    only: the payload is a dictionary or falsy; [obj.get("info") or obj]
    is a dictionary; [obj.profile], read only when neither
    [info.longBusinessSummary] nor [obj.summary] is truthy, is a
    dictionary or falsy; and each of the nine values handed to
    [clean_text] is a text or falsy.  On every other payload it raises
    [AttributeError].  When it returns, [stock] is the symbol hint if that
    is truthy, else [info.symbol or info.ticker], and it is not cleaned;
    [updated_at] is the clock reading. *)
Theorem normalize_summary_raises_iff_ill_shaped (now : clock)
  (symbol_hint root_obj : json) :
  match normalize_summary now symbol_hint root_obj with
  | Ok rec =>
      well_shaped root_obj = true
      /\ stock rec = py_or symbol_hint
                       (either (info_part root_obj) "symbol" "ticker")
      /\ updated_at rec = strftime now
  | Raise e => e = AttributeError /\ well_shaped root_obj = false
  end.
Proof.
  unfold normalize_summary, well_shaped, info_of.
  destruct (mapping_or_falsy root_obj) eqn:Ep.
  2:{ rewrite get_or_other by exact Ep. split; reflexivity. }
  rewrite get_or_empty by exact Ep. cbn [bind andb].
  rewrite (or_empty_mapping _ Ep).
  fold (info_part root_obj).
  destruct (info_part root_obj) as [| | | | | |m] eqn:Ei;
    try (unfold or_else; destruct (truthy symbol_hint); split; reflexivity).
  cbn [is_mapping andb].
  rewrite !get2_mapping, !get_mapping. cbn [bind].
  assert (Hstock : or_else symbol_hint (Ok (either (JObj m) "symbol" "ticker"))
                   = Ok (py_or symbol_hint (either (JObj m) "symbol" "ticker"))).
  { unfold or_else, py_or. destruct (truthy symbol_hint); reflexivity. }
  rewrite Hstock. cbn [bind].
  assert (Hname : or_else (either (JObj m) "longName" "shortName")
                          (Ok (either (JObj m) "displayName" "name"))
                  = Ok (py_or (either (JObj m) "longName" "shortName")
                              (either (JObj m) "displayName" "name"))).
  { unfold or_else, py_or. destruct (truthy (either _ _ _)); reflexivity. }
  rewrite Hname. cbn [bind].
  change (field (JObj (members_of root_obj))) with (field root_obj).
  assert (Hsum :
            or_else (field (JObj m) "longBusinessSummary")
              (or_else (field root_obj "summary")
                 (get (py_or (field root_obj "profile") (JObj []))
                      "longBusinessSummary"))
            = if negb (profile_read root_obj)
                 || mapping_or_falsy (field root_obj "profile")
              then Ok (summary_text root_obj)
              else Raise AttributeError).
  { unfold profile_read, summary_text. rewrite Ei.
    destruct (mapping_or_falsy (field root_obj "profile")) eqn:Epr.
    - rewrite get_or_empty by exact Epr. rewrite orb_true_r.
      unfold or_else, py_or.
      destruct (truthy (field (JObj m) "longBusinessSummary")); [reflexivity|].
      destruct (truthy (field root_obj "summary")); reflexivity.
    - rewrite get_or_other by exact Epr. rewrite orb_false_r.
      unfold or_else, py_or.
      destruct (truthy (field (JObj m) "longBusinessSummary")); [reflexivity|].
      destruct (truthy (field root_obj "summary")); reflexivity. }
  rewrite Hsum.
  destruct (negb (profile_read root_obj)
            || mapping_or_falsy (field root_obj "profile"));
    [|split; reflexivity].
  cbn [bind andb]. unfold cleaned_values. rewrite Ei. cbn [forallb].
  repeat match goal with
         | |- context [bind (clean_text ?v) _] =>
             let E := fresh "E" in
             pose proof (agrees_clean_text v) as E; unfold agrees in E;
             destruct (clean_text v); cbn [bind];
             [rewrite E; clear E; cbn [andb]
             |destruct E as (-> & ->); rewrite ?andb_false_r;
              split; reflexivity]
         end.
  cbn [stock updated_at]. repeat split.
Qed.

End SummaryFurther.

(** ** The counters of the two loops *)

Section LoopCounters.
Context {R : Runtime}.
Variable db : Type.
Variable load_one_row : db -> json -> result (option (json * column_value)).
Variable commit : db -> result db.
Variable COMMIT_EVERY_SYMBOLS : Z.

Lemma accepted_nothing {row : Type} (st st' : Summary.run (db * list (list row))) :
  snd (Summary.store st') = snd (Summary.store st) ->
  Summary.total_rows st' = Summary.total_rows st ->
  accepted st st' [].
Proof.
  intros H1 H2. unfold accepted. rewrite H1, H2, app_nil_r. cbn. split; [reflexivity|lia].
Qed.

Lemma accepted_trans {row : Type} (st1 st2 st3 : Summary.run (db * list (list row)))
  (a b : list (list row)) :
  accepted st1 st2 a -> accepted st2 st3 b -> accepted st1 st3 (a ++ b).
Proof.
  unfold accepted. intros (H1 & H2) (K1 & K2).
  split; [rewrite K1, H1, app_assoc; reflexivity|].
  rewrite K2, H2, List.concat_app, List.length_app. lia.
Qed.

(** The end of an iteration that sent [batch]: the commit, when it is
    due, changes neither the record nor [total_rows]. *)
Lemma accepted_then_commit {row : Type} (st : Summary.run (db * list (list row)))
  (i : Z) (c : db) (batch : list row) (upserted : Z) :
  upserted = Z.of_nat (List.length batch) ->
  let st' := Summary.mkrun (c, snd (Summary.store st) ++ [batch])
                           (Summary.total_rows st + upserted) (Summary.errors st) in
  let st'' := if COMMIT_EVERY_SYMBOLS =? 0 then Summary.failed st'
              else if i mod COMMIT_EVERY_SYMBOLS =? 0
                   then match recording_commit commit (Summary.store st') with
                        | Ok store'' =>
                            Summary.mkrun store'' (Summary.total_rows st')
                                          (Summary.errors st')
                        | Raise _ => Summary.failed st'
                        end
                   else st' in
  accepted st st'' [batch]
  /\ Summary.errors st <= Summary.errors st'' <= Summary.errors st + 1.
Proof.
  intros ->. cbv zeta. unfold accepted, recording_commit.
  cbn [List.concat]. rewrite app_nil_r.
  destruct (COMMIT_EVERY_SYMBOLS =? 0); [cbn; repeat split; lia|].
  destruct (i mod COMMIT_EVERY_SYMBOLS =? 0); [|cbn; repeat split; lia].
  cbn [Summary.store fst snd].
  destruct (commit c); cbn; repeat split; lia.
Qed.

Section Statements.
Import Financilas.
Variable executemany : db -> list line_item -> result db.

Lemma financials_step_counters (st : Summary.run (db * list (list line_item)))
  (i : Z) (symbol : json) :
  let st' := FinancilasLoop.step (recording_load load_one_row)
               (recording_insert executemany) (recording_commit commit)
               COMMIT_EVERY_SYMBOLS st i symbol in
  exists added,
    accepted st st' added
    /\ Forall (fun batch => batch <> []
                            /\ exists symbol, forall r, In r batch -> stock r = symbol)
              added
    /\ (List.length added <= 1)%nat
    /\ Summary.errors st <= Summary.errors st' <= Summary.errors st + 1.
Proof.
  cbv zeta. unfold FinancilasLoop.step, recording_load.
  assert (Hnone : forall st' : Summary.run (db * list (list line_item)),
             snd (Summary.store st') = snd (Summary.store st) ->
             Summary.total_rows st' = Summary.total_rows st ->
             Summary.errors st <= Summary.errors st' <= Summary.errors st + 1 ->
             exists added,
               accepted st st' added
               /\ Forall (fun batch => batch <> []
                            /\ exists symbol, forall r, In r batch -> stock r = symbol)
                         added
               /\ (List.length added <= 1)%nat
               /\ Summary.errors st <= Summary.errors st' <= Summary.errors st + 1).
  { intros st' H1 H2 H3. exists [].
    split; [apply accepted_nothing; assumption|].
    split; [constructor|]. split; [cbn; lia|exact H3]. }
  destruct (load_one_row (fst (Summary.store st)) symbol) as [[(stock0, j)|]|e];
    [|apply Hnone; cbn; auto; lia|apply Hnone; cbn; auto; lia].
  destruct (normalize_financials stock0 (parse_json_value j)) as [rows|e] eqn:En;
    [|apply Hnone; cbn; auto; lia].
  unfold FinancilasLoop.upsert_financials.
  destruct rows as [|r0 rows'].
  - destruct (COMMIT_EVERY_SYMBOLS =? 0); [apply Hnone; cbn; auto; lia|].
    destruct (i mod COMMIT_EVERY_SYMBOLS =? 0); [|apply Hnone; cbn; auto; lia].
    unfold recording_commit. cbn [Summary.store].
    destruct (commit (fst (Summary.store st))); cbn [bind];
      apply Hnone; cbn; auto; lia.
  - unfold recording_insert.
    destruct (executemany (fst (Summary.store st)) (r0 :: rows')) as [c|e];
      cbn [bind]; [|apply Hnone; cbn; auto; lia].
    exists [r0 :: rows'].
    pose proof (accepted_then_commit st i c (r0 :: rows') _ eq_refl) as H.
    cbv zeta in H. destruct H as (H1 & H2).
    split; [exact H1|]. split; [|split; [cbn; lia|exact H2]].
    constructor; [|constructor]. split; [discriminate|].
    exists stock0. intros r Hr. apply (rows_carry_the_symbol _ _ _ _ En Hr).
Qed.

(** X13: the counters of the loop of [Financilas.main], on a connection
    that records the batches whose insert succeeded.  After the loop,
    [total_rows] has grown by exactly the number of rows in the batches
    the database accepted during the loop; no empty batch was sent; all
    rows of a batch carry one symbol; there is at most one batch per
    source symbol, and [errors] has grown by at most one per source
    symbol. *)
Theorem financials_loop_counters (symbols : list json)
  (st : Summary.run (db * list (list line_item))) (i : Z) :
  let st' := FinancilasLoop.loop (recording_load load_one_row)
               (recording_insert executemany) (recording_commit commit)
               COMMIT_EVERY_SYMBOLS st i symbols in
  exists added,
    accepted st st' added
    /\ Forall (fun batch => batch <> []
                            /\ exists symbol, forall r, In r batch -> stock r = symbol)
              added
    /\ (List.length added <= List.length symbols)%nat
    /\ Summary.errors st <= Summary.errors st'
       <= Summary.errors st + Z.of_nat (List.length symbols).
Proof.
  cbv zeta. revert st i. induction symbols as [|s rest IH]; intros st i.
  - exists []. cbn [FinancilasLoop.loop].
    split; [apply accepted_nothing; reflexivity|].
    split; [constructor|]. cbn. lia.
  - cbn [FinancilasLoop.loop].
    destruct (financials_step_counters st i s) as (a1 & H1 & H2 & H3 & H4).
    cbv zeta in H1, H4.
    destruct (IH (FinancilasLoop.step (recording_load load_one_row)
                    (recording_insert executemany) (recording_commit commit)
                    COMMIT_EVERY_SYMBOLS st i s) (i + 1))
      as (a2 & K1 & K2 & K3 & K4).
    exists (a1 ++ a2).
    split; [exact (accepted_trans _ _ _ _ _ H1 K1)|].
    split; [apply Forall_app; split; assumption|].
    split; [rewrite List.length_app; cbn [List.length]; lia|].
    cbn [List.length]. lia.
Qed.

End Statements.

Section Profiles.
Import Summary.
Variable upsert_summary : db -> list summary_row -> result db.
Variable utcnow : Z -> clock.

Lemma summary_step_counters (st : run (db * list (list summary_row)))
  (i : Z) (s : json) (now : clock) :
  let st' := step (recording_load load_one_row)
               (recording_insert upsert_summary) (recording_commit commit)
               COMMIT_EVERY_SYMBOLS now st i s in
  exists added,
    accepted st st' added
    /\ Forall (fun batch => exists rec, batch = [rec] /\ truthy (stock rec) = true)
              added
    /\ (List.length added <= 1)%nat
    /\ errors st <= errors st' <= errors st + 1.
Proof.
  cbv zeta. unfold step, recording_load.
  assert (Hnone : forall st' : run (db * list (list summary_row)),
             snd (store st') = snd (store st) -> total_rows st' = total_rows st ->
             errors st <= errors st' <= errors st + 1 ->
             exists added,
               accepted st st' added
               /\ Forall (fun batch => exists rec, batch = [rec] /\ truthy (stock rec) = true)
                         added
               /\ (List.length added <= 1)%nat
               /\ errors st <= errors st' <= errors st + 1).
  { intros st' H1 H2 H3. exists [].
    split; [apply accepted_nothing; assumption|].
    split; [constructor|]. split; [cbn; lia|exact H3]. }
  destruct (load_one_row (fst (store st)) s) as [[(symbol_hint, j)|]|e];
    [|apply Hnone; cbn; auto; lia|apply Hnone; cbn; auto; lia].
  destruct (normalize_summary now symbol_hint (parse_json_value j)) as [rec|e];
    [|apply Hnone; cbn; auto; lia].
  destruct (truthy (stock rec)) eqn:Es; cbn [negb];
    [|apply Hnone; cbn; auto; lia].
  unfold recording_insert.
  destruct (upsert_summary (fst (store st)) [rec]) as [c|e]; cbn [bind];
    [|apply Hnone; cbn; auto; lia].
  exists [[rec]].
  pose proof (accepted_then_commit st i c [rec] 1 eq_refl) as H.
  cbv zeta in H. destruct H as (H1 & H2).
  split; [exact H1|]. split; [|split; [cbn; lia|exact H2]].
  constructor; [|constructor]. exists rec. auto.
Qed.

(** X14: the counters of the loop of [Summary.main], on a connection that
    records the batches whose upsert succeeded.  After the loop,
    [total_rows] has grown by exactly the number of upserts the database
    accepted; every upsert carried one record, whose [stock] is truthy, so
    no record without a company identifier reaches the table; there is at
    most one upsert per source row, and [errors] has grown by at most one
    per source row. *)
Theorem summary_loop_counters (symbols : list json)
  (st : run (db * list (list summary_row))) (i : Z) :
  let st' := SummaryLoop.loop (recording_load load_one_row)
               (recording_insert upsert_summary) (recording_commit commit)
               COMMIT_EVERY_SYMBOLS utcnow st i symbols in
  exists added,
    accepted st st' added
    /\ total_rows st' = total_rows st + Z.of_nat (List.length added)
    /\ Forall (fun batch => exists rec, batch = [rec] /\ truthy (stock rec) = true)
              added
    /\ (List.length added <= List.length symbols)%nat
    /\ errors st <= errors st' <= errors st + Z.of_nat (List.length symbols).
Proof.
  cbv zeta.
  assert (Hlen : forall added : list (list summary_row),
             Forall (fun batch => exists rec, batch = [rec] /\ truthy (stock rec) = true)
                    added ->
             List.length (List.concat added) = List.length added).
  { induction added as [|b l IH]; intros H; [reflexivity|].
    inversion H as [|? ? (rec & -> & _) Hl]; subst.
    cbn. rewrite IH by exact Hl. reflexivity. }
  assert (Hmain : forall symbols (st : run (db * list (list summary_row))) i,
             exists added,
               accepted st (SummaryLoop.loop (recording_load load_one_row)
                              (recording_insert upsert_summary) (recording_commit commit)
                              COMMIT_EVERY_SYMBOLS utcnow st i symbols) added
               /\ Forall (fun batch => exists rec, batch = [rec] /\ truthy (stock rec) = true)
                         added
               /\ (List.length added <= List.length symbols)%nat
               /\ errors st
                  <= errors (SummaryLoop.loop (recording_load load_one_row)
                               (recording_insert upsert_summary) (recording_commit commit)
                               COMMIT_EVERY_SYMBOLS utcnow st i symbols)
                  <= errors st + Z.of_nat (List.length symbols)).
  { clear symbols st i. induction symbols as [|s rest IH]; intros st i.
    - exists []. cbn [SummaryLoop.loop].
      split; [apply accepted_nothing; reflexivity|].
      split; [constructor|]. cbn. lia.
    - cbn [SummaryLoop.loop].
      destruct (summary_step_counters st i s (utcnow i)) as (a1 & H1 & H2 & H3 & H4).
      cbv zeta in H1, H4.
      destruct (IH (step (recording_load load_one_row)
                      (recording_insert upsert_summary) (recording_commit commit)
                      COMMIT_EVERY_SYMBOLS (utcnow i) st i s) (i + 1))
        as (a2 & K1 & K2 & K3 & K4).
      exists (a1 ++ a2).
      split; [exact (accepted_trans _ _ _ _ _ H1 K1)|].
      split; [apply Forall_app; split; assumption|].
      split; [rewrite List.length_app; cbn [List.length]; lia|].
      cbn [List.length]. lia. }
  destruct (Hmain symbols st i) as (added & H1 & H2 & H3 & H4).
  exists added. split; [exact H1|].
  split; [destruct H1 as (_ & ->); rewrite Hlen by exact H2; reflexivity|].
  auto.
Qed.

End Profiles.

End LoopCounters.

(** ** Cleaning a cleaned text *)

Section CleanAgain.
Import PyStr.

(** A word: not empty, and without whitespace. *)
Lemma split_words (s : string) :
  Forall (fun w => w <> "" /\ all_chars (fun c => negb (isspace c)) w = true)
         (split s).
Proof.
  induction s as [|c r IH]; [constructor|].
  cbn [split]. destruct (isspace c) eqn:E; [exact IH|].
  destruct (split r) as [|w ws].
  - constructor; [|constructor]. split; [discriminate|].
    cbn [all_chars]. rewrite E. reflexivity.
  - inversion IH as [|? ? (Hw1 & Hw2) Hws]; subst.
    destruct (starts_with_space r).
    + constructor; [|constructor; [split; assumption|exact Hws]].
      split; [discriminate|]. cbn [all_chars]. rewrite E. reflexivity.
    + constructor; [|exact Hws]. split; [discriminate|].
      cbn [all_chars]. rewrite E, Hw2. reflexivity.
Qed.

Lemma split_word (w : string) :
  w <> "" -> all_chars (fun c => negb (isspace c)) w = true -> split w = [w].
Proof.
  induction w as [|c w IH]; intros Hne H; [contradiction Hne; reflexivity|].
  cbn [all_chars] in H. apply andb_true_iff in H. destruct H as (Hc & Hw).
  apply negb_true_iff in Hc. cbn [split]. rewrite Hc.
  destruct w as [|c' w']; [reflexivity|].
  rewrite IH by (discriminate || exact Hw).
  cbn [all_chars] in Hw. apply andb_true_iff in Hw. destruct Hw as (Hc' & _).
  apply negb_true_iff in Hc'. cbn [starts_with_space]. rewrite Hc'. reflexivity.
Qed.

Lemma split_word_then (w r : string) :
  w <> "" -> all_chars (fun c => negb (isspace c)) w = true ->
  split (w ++ String " " r) = w :: split r.
Proof.
  induction w as [|c w IH]; intros Hne H; [contradiction Hne; reflexivity|].
  cbn [all_chars] in H. apply andb_true_iff in H. destruct H as (Hc & Hw).
  apply negb_true_iff in Hc. cbn [append split]. rewrite Hc.
  destruct w as [|c' w'].
  - cbn [append]. change (split (String " " r)) with (split r).
    cbn [starts_with_space]. change (isspace " ") with true.
    destruct (split r); reflexivity.
  - rewrite IH by (discriminate || exact Hw).
    cbn [all_chars] in Hw. apply andb_true_iff in Hw. destruct Hw as (Hc' & _).
    apply negb_true_iff in Hc'. cbn [append starts_with_space]. rewrite Hc'.
    reflexivity.
Qed.

Lemma split_join (ws : list string) :
  Forall (fun w => w <> "" /\ all_chars (fun c => negb (isspace c)) w = true) ws ->
  split (join " " ws) = ws.
Proof.
  induction ws as [|w ws IH]; intros H; [reflexivity|].
  inversion H as [|? ? (Hw1 & Hw2) Hws]; subst. cbn [join].
  destruct ws as [|w' ws']; [apply split_word; assumption|].
  cbn [append]. rewrite split_word_then by assumption.
  rewrite IH by exact Hws. reflexivity.
Qed.

(** X15: cleaning is idempotent below the cut.  When the words of a text,
    joined by single spaces, have at most 200000 characters, cleaning the
    cleaned text changes nothing; and [clean_text] maps its own result to
    itself unless that result is empty (which [clean_text] reads as no
    text and turns into [None]). *)
Theorem clean_text_idempotent_below_cut (s : string) :
  len (join " " (split s)) <= 200000 ->
  Summary.clean_str (Summary.clean_str s) = Summary.clean_str s
  /\ (Summary.clean_str s <> "" ->
      Summary.clean_text (JStr (Summary.clean_str s))
      = Ok (Some (Summary.clean_str s)))
  /\ (Summary.clean_str s = "" ->
      Summary.clean_text (JStr (Summary.clean_str s)) = Ok None).
Proof.
  intros H.
  assert (E : Summary.clean_str (Summary.clean_str s) = Summary.clean_str s).
  { rewrite (clean_str_joins_words s), (take_all _ _ H).
    rewrite clean_str_joins_words, split_join by apply split_words.
    apply take_all. exact H. }
  split; [exact E|]. split.
  - intros Hne. unfold Summary.clean_text.
    destruct (Summary.clean_str s) as [|c r] eqn:Es; [contradiction Hne; reflexivity|].
    cbn [truthy negb]. rewrite E. reflexivity.
  - intros ->. reflexivity.
Qed.

End CleanAgain.

(** ** The symbols that the loader fetches *)

Section LoaderProperties.
Import LoaderMain.

Lemma dropna_In {A : Type} (col : list (option A)) (x : A) :
  In x (dropna col) <-> In (Some x) col.
Proof.
  unfold dropna. rewrite in_flat_map. split.
  - intros ([y|] & Hin & Hx); [|contradiction].
    destruct Hx as [->|[]]. exact Hin.
  - intros H. exists (Some x). split; [exact H|left; reflexivity].
Qed.

Lemma drop_duplicates_In (l : list string) (x : string) :
  In x (drop_duplicates l) <-> In x l.
Proof.
  induction l as [|y l IH]; [reflexivity|].
  cbn [drop_duplicates In]. rewrite filter_In, IH. split.
  - intros [H|(H & _)]; auto.
  - intros [H|H]; [auto|].
    destruct (String.eqb x y) eqn:E.
    + apply String.eqb_eq in E. auto.
    + right. split; [exact H|reflexivity].
Qed.

Lemma filter_keeps_NoDup {A : Type} (p : A -> bool) (l : list A) :
  NoDup l -> NoDup (filter p l).
Proof.
  induction 1 as [|x l Hx Hl IH]; cbn [filter]; [constructor|].
  destruct (p x); [|exact IH].
  constructor; [|exact IH]. rewrite filter_In. tauto.
Qed.

Lemma drop_duplicates_NoDup (l : list string) : NoDup (drop_duplicates l).
Proof.
  induction l as [|y l IH]; cbn [drop_duplicates]; constructor.
  - rewrite filter_In. intros (_ & H). cbn beta in H.
    rewrite String.eqb_refl in H. discriminate H.
  - apply filter_keeps_NoDup. exact IH.
Qed.

Lemma symbols_of_In (column : list (option string)) (s : string) :
  In s (symbols_of column) <->
  s <> "" /\ exists cell, In (Some cell) column /\ PyStr.strip cell = s.
Proof.
  unfold symbols_of. rewrite drop_duplicates_In, dropna_In, in_map_iff. split.
  - intros (t & Ht & Hin). apply in_map_iff in Hin.
    destruct Hin as (cell & <- & Hin). apply dropna_In in Hin.
    unfold replace_empty in Ht.
    destruct (PyStr.strip cell) eqn:E; [discriminate|].
    injection Ht as <-. split; [discriminate|]. exists cell. auto.
  - intros (Hne & cell & Hin & <-). exists (PyStr.strip cell). split.
    + unfold replace_empty. destruct (PyStr.strip cell); [contradiction|reflexivity].
    + apply in_map. apply dropna_In. exact Hin.
Qed.

Lemma to_fetch_In (symbols already : list string) (s : string) :
  In s (to_fetch symbols already) <-> In s symbols /\ ~ In s already.
Proof.
  unfold to_fetch. rewrite filter_In, negb_true_iff.
  rewrite <- not_true_iff_false, existsb_eqb_In. reflexivity.
Qed.

(** X16: the symbols that [main] of [details.py] fetches.  A text is
    fetched exactly when it is the stripped text of a cell of the symbol
    column that is not missing, is not empty, and is not among the symbols
    already in the table.  No symbol is fetched twice, and every fetched
    symbol is free of surrounding whitespace.  When the [SELECT] of
    [get_existing_symbols] fails with a database error, the set of known
    symbols is empty and every symbol of the column is fetched again. *)
Theorem fetched_symbols (column : list (option string)) (already : list string) :
  let fetched := to_fetch (symbols_of column) already in
  NoDup fetched
  /\ (forall s, In s fetched <->
                s <> "" /\ ~ In s already
                /\ exists cell, In (Some cell) column /\ PyStr.strip cell = s)
  /\ (forall s, In s fetched -> PyStr.strip s = s)
  /\ (forall errno known,
        get_existing_symbols (Raise (DatabaseError errno)) = Ok known ->
        to_fetch (symbols_of column) known = symbols_of column).
Proof.
  cbv zeta. split; [apply filter_keeps_NoDup, drop_duplicates_NoDup|].
  assert (H : forall s, In s (to_fetch (symbols_of column) already) <->
                        s <> "" /\ ~ In s already
                        /\ exists cell, In (Some cell) column /\ PyStr.strip cell = s).
  { intros s. rewrite to_fetch_In, symbols_of_In. tauto. }
  split; [exact H|]. split.
  - intros s Hs. apply H in Hs. destruct Hs as (_ & _ & cell & _ & <-).
    apply strip_stripped.
  - intros errno known E. cbn [get_existing_symbols] in E. injection E as <-.
    unfold to_fetch. cbn [existsb negb]. clear H.
    induction (symbols_of column) as [|x l IH]; [reflexivity|].
    cbn [filter]. rewrite IH. reflexivity.
Qed.

Section LoaderLoop.
Variable conn : Type.
Variable payload : Type.
Variable fetch_for_symbol : string -> result payload.
Variable execute_insert : conn -> string -> payload -> conn * option exn.
Variable commit : conn -> conn * option exn.
Variable rollback : conn -> conn * option exn.

Lemma insert_symbol_payload_outcome (c : conn) (symbol : string) (p : payload) :
  let (c', e) := insert_symbol_payload execute_insert commit rollback c symbol p in
  match e with
  | None =>
      exists c1, execute_insert c symbol p = (c1, None) /\ commit c1 = (c', None)
  | Some e' =>
      forall errno, e' = DatabaseError errno ->
                    exists c0, rollback c0 = (c', Some (DatabaseError errno))
  end.
Proof.
  assert (Hr : forall c0,
             let (c', e) := rolled_back rollback c0 in
             match e with
             | None => False
             | Some e' =>
                 forall errno, e' = DatabaseError errno ->
                               exists c0, rollback c0 = (c', Some (DatabaseError errno))
             end).
  { intros c0. unfold rolled_back.
    destruct (rollback c0) as [c' [e|]] eqn:Er.
    - intros errno ->. exists c0. exact Er.
    - intros errno H. unfold RuntimeError in H. discriminate H. }
  unfold insert_symbol_payload.
  destruct (execute_insert c symbol p) as [c1 [e|]].
  - destruct e; try (intros n H; discriminate H).
    specialize (Hr c1). destruct (rolled_back rollback c1) as [c' [e|]];
      [exact Hr|contradiction].
  - destruct (commit c1) as [c2 [e|]] eqn:Ec.
    + destruct e; try (intros n H; discriminate H).
      specialize (Hr c2). destruct (rolled_back rollback c2) as [c' [e|]];
        [exact Hr|contradiction].
    + exists c1. auto.
Qed.

Lemma insert_symbol_payload_done (c : conn) (symbol : string) (p : payload)
  (c1 c2 : conn) :
  execute_insert c symbol p = (c1, None) -> commit c1 = (c2, None) ->
  insert_symbol_payload execute_insert commit rollback c symbol p = (c2, None).
Proof. intros H1 H2. unfold insert_symbol_payload. rewrite H1, H2. reflexivity. Qed.

Lemma loader_step (st : progress conn) (sym : string) :
  let st' := step fetch_for_symbol execute_insert commit rollback st sym in
  (exists p c1,
      fetch_for_symbol sym = Ok p
      /\ execute_insert (connection st) sym p = (c1, None)
      /\ commit c1 = (connection st', None)
      /\ st' = mkprogress (connection st') (loaded_ok st ++ [sym]) (failed st))
  \/ ((forall p c1 c2,
         fetch_for_symbol sym = Ok p ->
         execute_insert (connection st) sym p = (c1, None) ->
         commit c1 = (c2, None) -> False)
      /\ loaded_ok st' = loaded_ok st /\ failed st' = failed st + 1).
Proof.
  cbv zeta. unfold step.
  destruct (fetch_for_symbol sym) as [p|e] eqn:Ef.
  2:{ right. split; [intros p c1 c2 H; discriminate H|split; reflexivity]. }
  pose proof (insert_symbol_payload_outcome (connection st) sym p) as H.
  destruct (insert_symbol_payload execute_insert commit rollback (connection st) sym p)
    as [c' [e|]] eqn:Ei.
  - right. split; [|split; reflexivity].
    intros p' c1 c2 Hp H1 H2. injection Hp as <-.
    rewrite (insert_symbol_payload_done _ _ _ _ _ H1 H2) in Ei. discriminate Ei.
  - left. destruct H as (c1 & H1 & H2). cbn [loaded_ok failed connection].
    exists p, c1. auto.
Qed.

Lemma loop_app (st : progress conn) (pre post : list string) :
  loop fetch_for_symbol execute_insert commit rollback st (pre ++ post)
  = loop fetch_for_symbol execute_insert commit rollback
      (loop fetch_for_symbol execute_insert commit rollback st pre) post.
Proof. unfold loop. apply fold_left_app. Qed.

Lemma loader_loop_total (symbols : list string) (st : progress conn) :
  let st' := loop fetch_for_symbol execute_insert commit rollback st symbols in
  exists added,
    loaded_ok st' = loaded_ok st ++ added
    /\ Z.of_nat (List.length added) + failed st'
       = failed st + Z.of_nat (List.length symbols)
    /\ (forall s, In s added -> In s symbols)
    /\ (NoDup symbols -> NoDup added).
Proof.
  cbv zeta. revert st. induction symbols as [|sym rest IH]; intros st.
  - exists []. cbn [loop fold_left]. rewrite app_nil_r.
    split; [reflexivity|]. split; [cbn; lia|].
    split; [intros s []|intros _; constructor].
  - unfold loop. cbn [fold_left].
    fold (loop fetch_for_symbol execute_insert commit rollback
            (step fetch_for_symbol execute_insert commit rollback st sym) rest).
    destruct (IH (step fetch_for_symbol execute_insert commit rollback st sym))
      as (a2 & K1 & K2 & K3 & K4).
    destruct (loader_step st sym) as [(p & c1 & _ & _ & _ & Hst)|(_ & H1 & H2)];
      cbv zeta in *.
    + assert (Hl : loaded_ok (step fetch_for_symbol execute_insert commit rollback st sym)
                   = loaded_ok st ++ [sym]) by (rewrite Hst; reflexivity).
      assert (Hf : failed (step fetch_for_symbol execute_insert commit rollback st sym)
                   = failed st) by (rewrite Hst; reflexivity).
      exists (sym :: a2).
      split; [rewrite K1, Hl, <- app_assoc; reflexivity|].
      split; [cbn [List.length]; lia|]. split.
      * intros s [<-|Hs]; [left; reflexivity|right; apply K3; exact Hs].
      * intros Hnd. inversion Hnd as [|? ? Hn Hr]; subst.
        constructor; [|apply K4; exact Hr].
        intros Hin. apply Hn. apply (K3 sym Hin).
    + exists a2.
      split; [rewrite K1, H1; reflexivity|].
      split; [cbn [List.length]; lia|]. split.
      * intros s Hs. right. apply K3. exact Hs.
      * intros Hnd. inversion Hnd; subst. apply K4. assumption.
Qed.

(** X17: the loop of [main] of [details.py] and [insert_symbol_payload].
    Every symbol of the loop ends either in [loaded_ok] or in the count
    [failed]: the two grow together by the number of symbols, the symbols
    added are symbols of the loop and none is added twice when the loop
    names none twice.  At every iteration, with the connection that the
    run has reached: when the fetch succeeds and the insert and the commit
    on that connection succeed, the symbol is appended to [loaded_ok],
    [failed] stays and the run goes on with the committed connection; in
    every other case (the fetch raised, or the insert or the commit on
    that connection raised) the symbol is not recorded and [failed] grows
    by one.  A database error of the insert, or of the commit after a
    successful insert, does not leave [insert_symbol_payload]: when the
    rollback succeeds, the function ends with the rolled-back connection
    and raises [RuntimeError] in its place. *)
Theorem loaded_symbols_were_committed (symbols : list string)
  (st : progress conn) :
  let run := loop fetch_for_symbol execute_insert commit rollback in
  (exists added,
      loaded_ok (run st symbols) = loaded_ok st ++ added
      /\ Z.of_nat (List.length added) + failed (run st symbols)
         = failed st + Z.of_nat (List.length symbols)
      /\ (forall s, In s added -> In s symbols)
      /\ (NoDup symbols -> NoDup added))
  /\ (forall pre sym post,
        symbols = pre ++ sym :: post ->
        let before := run st pre in
        let after := run st (pre ++ [sym]) in
        (forall p c1 c2,
            fetch_for_symbol sym = Ok p ->
            execute_insert (connection before) sym p = (c1, None) ->
            commit c1 = (c2, None) ->
            after = mkprogress c2 (loaded_ok before ++ [sym]) (failed before))
        /\ ((forall p c1 c2,
                fetch_for_symbol sym = Ok p ->
                execute_insert (connection before) sym p = (c1, None) ->
                commit c1 = (c2, None) -> False) ->
            loaded_ok after = loaded_ok before
            /\ failed after = failed before + 1))
  /\ (forall c s p c1 errno c',
        execute_insert c s p = (c1, Some (DatabaseError errno)) ->
        rollback c1 = (c', None) ->
        insert_symbol_payload execute_insert commit rollback c s p
        = (c', Some RuntimeError))
  /\ (forall c s p c1 c2 errno c',
        execute_insert c s p = (c1, None) ->
        commit c1 = (c2, Some (DatabaseError errno)) ->
        rollback c2 = (c', None) ->
        insert_symbol_payload execute_insert commit rollback c s p
        = (c', Some RuntimeError)).
Proof.
  cbv zeta. split; [apply loader_loop_total|]. split; [|split].
  - intros pre sym post _. rewrite loop_app.
    set (before := loop fetch_for_symbol execute_insert commit rollback st pre).
    assert (Hone : loop fetch_for_symbol execute_insert commit rollback before [sym]
                   = step fetch_for_symbol execute_insert commit rollback before sym)
      by reflexivity.
    rewrite Hone. clear Hone.
    destruct (loader_step before sym)
      as [(p & c1 & Hp & H1 & H2 & Hst)|(Hnot & Hl & Hf)]; cbv zeta in *.
    + split.
      * intros p' c1' c2' Hp' H1' H2'.
        rewrite Hp in Hp'. injection Hp' as <-.
        rewrite H1 in H1'. injection H1' as <-.
        rewrite H2 in H2'. injection H2' as <-.
        exact Hst.
      * intros Hnone. exfalso. apply (Hnone p c1 _ Hp H1 H2).
    + split.
      * intros p c1 c2 Hp H1 H2. exfalso. apply (Hnot p c1 c2 Hp H1 H2).
      * intros _. split; assumption.
  - intros c s p c1 errno c' H1 H2.
    unfold insert_symbol_payload, rolled_back. rewrite H1, H2. reflexivity.
  - intros c s p c1 c2 errno c' H1 H2 H3.
    unfold insert_symbol_payload, rolled_back. rewrite H1, H2, H3. reflexivity.
Qed.

End LoaderLoop.

End LoaderProperties.

(** ** From the loader to the statement normalizer *)

Section LoaderToNormalizer.
Import Details Frames.
Context {R : Runtime}.
Variable where_notnull : pyval -> pyval.
Variable describe : exn -> string.

Lemma all_some_map {A B : Type} (f : A -> option B) (l : list A) :
  Forall (fun x => exists y, f x = Some y) l ->
  exists ys, all_some (map f l) = Some ys.
Proof.
  induction 1 as [|x l (y & Hy) _ (ys & IH)]; cbn [map all_some].
  - exists []. reflexivity.
  - rewrite Hy, IH. exists (y :: ys). reflexivity.
Qed.

Lemma all_some_In {A B : Type} (f : A -> option B) (l : list A) (ys : list B) :
  all_some (map f l) = Some ys ->
  forall y, In y ys -> exists x, In x l /\ f x = Some y.
Proof.
  revert ys. induction l as [|x l IH]; intros ys; cbn [map all_some].
  - intros H. injection H as <-. intros y [].
  - destruct (f x) as [y0|] eqn:E; [|discriminate].
    destruct (all_some (map f l)) as [ys'|]; [|discriminate].
    cbn [option_map]. intros H. injection H as <-.
    intros y [<-|Hin].
    + exists x. split; [left; reflexivity|exact E].
    + destruct (IH ys' eq_refl y Hin) as (x' & Hx' & Hf).
      exists x'. split; [right; exact Hx'|exact Hf].
Qed.

Lemma all_some_none {A B : Type} (f : A -> option B) (l : list A) (x : A) :
  In x l -> f x = None -> all_some (map f l) = None.
Proof.
  induction l as [|y l IH]; intros Hin Hx; [contradiction|].
  cbn [map all_some]. destruct Hin as [->|Hin].
  - rewrite Hx. reflexivity.
  - destruct (f y); [|reflexivity]. rewrite (IH Hin Hx). reflexivity.
Qed.

Lemma existsb_none {A : Type} (f : A -> bool) (l : list A) :
  existsb f l = false -> forall x, In x l -> f x = false.
Proof.
  intros H x Hin. destruct (f x) eqn:E; [|reflexivity].
  rewrite <- H. symmetry. apply existsb_exists. exists x. auto.
Qed.

(** A JSON-safe value without an [int] of more than 4300 digits is
    written and read back. *)
Lemma to_json_safe (v : pyval) :
  json_safe v -> holds_long_int v = false -> exists j, to_json v = Some j.
Proof.
  induction v using pyval_nested_ind; intros Hs Hl;
    try (inversion Hs; fail); try (eexists; reflexivity).
  - inversion Hs as [| | | |? Hn Hi| |]; subst. cbn [to_json].
    rewrite Hn, Hi. eexists. reflexivity.
  - cbn [holds_long_int] in Hl. cbn [to_json]. rewrite Hl. eexists. reflexivity.
  - inversion Hs as [| | | | | |? Hn Hk]; subst. cbn [to_json].
    cbn [holds_long_int] in Hl. pose proof (existsb_none _ _ Hl) as Hl'.
    destruct (all_some_map
                (fun kv : pykey * pyval =>
                   match fst kv with
                   | KStr k => option_map (pair k) (to_json (snd kv))
                   | KOther _ => None
                   end) members) as (ys & Hys).
    { rewrite Forall_forall in *. intros kv Hin.
      destruct (Hk kv Hin) as ((k & Hkey) & Hsafe).
      destruct (H kv Hin Hsafe (Hl' kv Hin)) as (j & Hj).
      rewrite Hkey, Hj. eexists. reflexivity. }
    rewrite Hys. eexists. reflexivity.
  - inversion Hs as [| | | | |? Hsafe|]; subst. cbn [to_json].
    cbn [holds_long_int] in Hl. pose proof (existsb_none _ _ Hl) as Hl'.
    destruct (all_some_map to_json l) as (ys & Hys).
    { rewrite Forall_forall in *. intros x Hin. apply H; auto. }
    rewrite Hys. eexists. reflexivity.
Qed.

(** A value that holds an [int] of more than 4300 digits is not
    written. *)
Lemma to_json_long (v : pyval) : holds_long_int v = true -> to_json v = None.
Proof.
  induction v using pyval_nested_ind; cbn [holds_long_int]; try discriminate.
  - intros Hl. cbn [to_json]. rewrite Hl. reflexivity.
  - intros Hl. apply existsb_exists in Hl. destruct Hl as (kv & Hin & Hkv).
    rewrite Forall_forall in H. cbn [to_json].
    rewrite (all_some_none _ members kv Hin); [reflexivity|].
    rewrite (H kv Hin Hkv). destruct (fst kv); reflexivity.
  - intros Hl. apply existsb_exists in Hl. destruct Hl as (x & Hin & Hx).
    rewrite Forall_forall in H. cbn [to_json].
    rewrite (all_some_none _ l x Hin (H x Hin Hx)). reflexivity.
Qed.

(** The members read back from a dictionary are those of its values. *)
Lemma to_json_dict (members : list (pykey * pyval)) (j : json) :
  to_json (PDict members) = Some j ->
  exists ms, j = JObj ms
    /\ forall k x, In (k, x) ms ->
         exists v, In (KStr k, v) members /\ to_json v = Some x.
Proof.
  cbn [to_json].
  destruct (all_some _) as [ms|] eqn:E; [|discriminate].
  cbn [option_map]. intros H. injection H as <-.
  exists ms. split; [reflexivity|]. intros k x Hin.
  destruct (all_some_In _ _ _ E (k, x) Hin) as ((k', v) & Hm & Hf).
  cbn [fst snd] in Hf. destruct k' as [k0|]; [|discriminate].
  destruct (to_json v) as [x'|] eqn:Ev; [|discriminate].
  cbn [option_map] in Hf. injection Hf as -> ->.
  exists v. auto.
Qed.

Lemma clean_json_dict (members : list (pykey * pyval)) :
  exists cleaned,
    clean_json (PDict members) = PDict cleaned
    /\ forall k v, In (k, v) cleaned ->
         exists k' v', In (k', v') members /\ v = clean_json v'.
Proof.
  cbn [clean_json isna_taken missing_scalar]. eexists. split; [reflexivity|].
  intros k v Hin.
  destruct (dict_of_safe
              (fun v => exists k' v', In (k', v') members /\ v = clean_json v')
              (map (fun kv => (key_str (fst kv), clean_json (snd kv))) members))
    as (_ & H).
  { rewrite Forall_map, Forall_forall. intros (k', v') Hm. cbn [snd].
    exists k', v'. auto. }
  rewrite Forall_forall in H. apply (H (k, v) Hin).
Qed.

Lemma df_to_jsonable_columns (df : option dataframe) :
  exists members,
    df_to_jsonable where_notnull df = PDict members
    /\ forall k v, In (k, v) members -> exists cells, v = PDict cells.
Proof.
  unfold df_to_jsonable.
  destruct df as [df|]; [|exists []; split; [reflexivity|intros k v []]].
  destruct (empty df); [exists []; split; [reflexivity|intros k v []]|].
  eexists. split; [reflexivity|]. intros k v Hin.
  destruct (dict_of_safe (fun v => exists cells, v = PDict cells)
              (map (fun column : label * list pyval =>
                      (_str_key (fst column),
                       PDict (dict_of (combine (map _str_key (index df))
                                               (map where_notnull (snd column))))))
                   (columns df))) as (_ & H).
  { rewrite Forall_map, Forall_forall. intros column _. cbn [snd].
    eexists. reflexivity. }
  rewrite Forall_forall in H. apply (H (k, v) Hin).
Qed.

(** A cleaned statement frame is read back as a dictionary of
    dictionaries. *)
Lemma frame_read_back (df : option dataframe) :
  holds_long_int (clean_json (df_to_jsonable where_notnull df)) = false ->
  exists ms,
    to_json (clean_json (df_to_jsonable where_notnull df)) = Some (JObj ms)
    /\ forall k x, In (k, x) ms -> exists c, x = JObj c.
Proof.
  destruct (df_to_jsonable_columns df) as (members & -> & Hcols). intros Hl.
  destruct (to_json_safe _ (clean_json_safe (PDict members)) Hl) as (j & Hj).
  destruct (clean_json_dict members) as (cleaned & Hc & Hvals).
  rewrite Hc in Hj |- *.
  destruct (to_json_dict _ _ Hj) as (ms & -> & Hms).
  exists ms. split; [exact Hj|]. intros k x Hin.
  destruct (Hms k x Hin) as (v & Hv & Hx).
  destruct (Hvals _ _ Hv) as (k' & v' & Hm & ->).
  destruct (Hcols _ _ Hm) as (cells & ->).
  destruct (clean_json_dict cells) as (cleaned' & Hc' & _).
  rewrite Hc' in Hx. destruct (to_json_dict _ _ Hx) as (c & -> & _).
  exists c. reflexivity.
Qed.

Lemma clean_payload (i cy cq bY bq iy iq : pyval) :
  clean_json (payload_of i cy cq bY bq iy iq)
  = payload_of (clean_json i) (clean_json cy) (clean_json cq)
               (clean_json bY) (clean_json bq) (clean_json iy) (clean_json iq).
Proof. reflexivity. Qed.

Lemma payload_read_back (i cy cq bY bq iy iq : pyval)
  (ji jcy jcq jby jbq jiy jiq : json) :
  to_json i = Some ji ->
  to_json cy = Some jcy -> to_json cq = Some jcq ->
  to_json bY = Some jby -> to_json bq = Some jbq ->
  to_json iy = Some jiy -> to_json iq = Some jiq ->
  to_json (payload_of i cy cq bY bq iy iq)
  = Some (JObj [("info", ji);
                ("cashflow", JObj [("yearly", jcy); ("quarterly", jcq)]);
                ("balancesheet", JObj [("yearly", jby); ("quarterly", jbq)]);
                ("incomestatement", JObj [("yearly", jiy); ("quarterly", jiq)])]).
Proof.
  intros Hi H1 H2 H3 H4 H5 H6. unfold payload_of.
  cbn [to_json map fst snd all_some option_map].
  rewrite Hi, H1, H2, H3, H4, H5, H6. reflexivity.
Qed.

Lemma payload_without_long_int (i cy cq bY bq iy iq : pyval) :
  holds_long_int (payload_of i cy cq bY bq iy iq) = false ->
  holds_long_int i = false
  /\ holds_long_int cy = false /\ holds_long_int cq = false
  /\ holds_long_int bY = false /\ holds_long_int bq = false
  /\ holds_long_int iy = false /\ holds_long_int iq = false.
Proof.
  unfold payload_of. cbn [holds_long_int existsb snd].
  rewrite !orb_false_iff. tauto.
Qed.

Lemma groups_of_dictionaries (ms : list (string * json)) :
  (forall k x, In (k, x) ms -> exists c, x = JObj c) ->
  forallb FinancilasShape.well_shaped_group ms = true.
Proof.
  intros H. apply forallb_forall. intros (k, x) Hin.
  destruct (H k x Hin) as (c & ->).
  unfold FinancilasShape.well_shaped_group. cbn [fst snd].
  destruct (Financilas.parse_date k); reflexivity.
Qed.

(** X18: what the loader stores, the statement normalizer accepts.  The
    payload that [fetch_for_symbol] returns, whatever the ticker gave, is
    JSON-safe.  [json.dumps] with [allow_nan=False] refuses it when it
    holds an [int] of more than 4300 digits, and writes it otherwise; the
    document then read back is a dictionary of exactly the keys [info],
    [cashflow], [balancesheet] and [incomestatement], with a dictionary
    under [info] and, under each statement section, exactly the keys
    [yearly] and [quarterly], each with a dictionary of dictionaries: the
    names under which [details.py] files the six frames are the names that
    [normalize_financials] looks up, and on that document
    [normalize_financials] raises nothing. *)
Theorem loader_payload_is_accepted (t : ticker) (payload : pyval) :
  fetch_for_symbol where_notnull describe t = Ok payload ->
  json_safe payload
  /\ (holds_long_int payload = true -> to_json payload = None)
  /\ (holds_long_int payload = false ->
      exists info cy cq bY bq iy iq,
        let document :=
          JObj [("info", JObj info);
                ("cashflow", JObj [("yearly", JObj cy); ("quarterly", JObj cq)]);
                ("balancesheet", JObj [("yearly", JObj bY); ("quarterly", JObj bq)]);
                ("incomestatement", JObj [("yearly", JObj iy); ("quarterly", JObj iq)])] in
        to_json payload = Some document
        /\ Forall (fun frame : list (string * json) =>
                     forall k x, In (k, x) frame -> exists c, x = JObj c)
                  [cy; cq; bY; bq; iy; iq]
        /\ FinancilasShape.well_shaped document = true
        /\ forall symbol,
             exists rows, Financilas.normalize_financials symbol document = Ok rows).
Proof.
  unfold fetch_for_symbol. intros H. bind_ok H.
  assert (Hok : forall x y : pyval, Ok x = Ok y -> x = y)
    by (intros x y Exy; injection Exy; auto).
  apply Hok in H. subst payload. clear Hok.
  split; [apply clean_json_safe|]. split; [apply to_json_long|].
  rewrite clean_payload. intros Hl.
  apply payload_without_long_int in Hl.
  destruct Hl as (Li & L1 & L2 & L3 & L4 & L5 & L6).
  destruct (to_json_safe _ (clean_json_safe (PDict (info_or_error describe t))) Li)
    as (ji & Hi).
  destruct (clean_json_dict (info_or_error describe t)) as (ci & Hci & _).
  pose proof Hi as Hi'. rewrite Hci in Hi'.
  destruct (to_json_dict _ _ Hi') as (mi & -> & _). clear Hi' Hci ci.
  destruct (frame_read_back a L1) as (m1 & H1 & V1).
  destruct (frame_read_back a0 L2) as (m2 & H2 & V2).
  destruct (frame_read_back a1 L3) as (m3 & H3 & V3).
  destruct (frame_read_back a2 L4) as (m4 & H4 & V4).
  destruct (frame_read_back a3 L5) as (m5 & H5 & V5).
  destruct (frame_read_back a4 L6) as (m6 & H6 & V6).
  exists mi, m1, m2, m3, m4, m5, m6. cbv zeta.
  split; [apply (payload_read_back _ _ _ _ _ _ _ _ _ _ _ _ _ _ Hi H1 H2 H3 H4 H5 H6)|].
  split; [repeat constructor; assumption|].
  assert (Hshape : FinancilasShape.well_shaped
                     (JObj [("info", JObj mi);
                            ("cashflow", JObj [("yearly", JObj m1); ("quarterly", JObj m2)]);
                            ("balancesheet", JObj [("yearly", JObj m3); ("quarterly", JObj m4)]);
                            ("incomestatement", JObj [("yearly", JObj m5); ("quarterly", JObj m6)])])
                   = true).
  { unfold FinancilasShape.well_shaped, FinancilasShape.well_shaped_block,
      FinancilasShape.well_shaped_freq, Financilas.folder_map.
    cbn [forallb fst field members_of assoc String.eqb Ascii.eqb Bool.eqb
         mapping_or_falsy andb].
    rewrite !groups_of_dictionaries by assumption. reflexivity. }
  split; [exact Hshape|].
  intros symbol.
  pose proof (normalize_financials_agrees symbol
                (JObj [("info", JObj mi);
                       ("cashflow", JObj [("yearly", JObj m1); ("quarterly", JObj m2)]);
                       ("balancesheet", JObj [("yearly", JObj m3); ("quarterly", JObj m4)]);
                       ("incomestatement", JObj [("yearly", JObj m5); ("quarterly", JObj m6)])]))
    as Hn.
  unfold agrees in Hn.
  destruct (Financilas.normalize_financials symbol _) as [rows|e].
  - exists rows. reflexivity.
  - destruct Hn as (_ & Hn). rewrite Hshape in Hn. discriminate Hn.
Qed.

End LoaderToNormalizer.

(** ** Further worked instances *)

(** A date listed under both periodicities: the yearly record has period
    4 and the quarterly record of March has period 1. *)
Lemma period_of_statement_entry_witness :
  exists h,
    Financilas.h_symbol h = Examples.acme
    /\ [MoreExamples.march_year; MoreExamples.march_quarter]
       = FinancilasShape.expected_rows (R := Reference.runtime) h
           MoreExamples.march_twice
    /\ forall stype freq dt_str metrics d,
         Financilas.parse_date (R := Reference.runtime) dt_str = Some d ->
         FinancilasShape.group_rows (R := Reference.runtime) h stype freq
           (dt_str, metrics)
         = FinancilasShape.entry_rows h stype freq d metrics
         /\ List.length (FinancilasShape.entry_rows h stype freq d metrics)
            = List.length (filter FinancilasShape.reported (members_of metrics))
         /\ forall r, In r (FinancilasShape.entry_rows h stype freq d metrics) ->
              Financilas.statement_date r = d
              /\ (freq = "yearly" -> Financilas.period r = 4)
              /\ (freq = "quarterly" ->
                  Financilas.period r = 1 + (month d - 1) / 3
                  /\ 1 <= Financilas.period r <= 4
                  /\ (10 <= month d <= 12 -> Financilas.period r = 4)).
Proof.
  apply (period_of_statement_entry (R := Reference.runtime)
           Examples.acme MoreExamples.march_twice
           [MoreExamples.march_year; MoreExamples.march_quarter]).
  vm_compute. reflexivity.
Defined.

(** The rows of that payload, under the header of the call. *)
Example march_rows :
  Financilas.normalize_financials (R := Reference.runtime) Examples.acme
    MoreExamples.march_twice
  = Ok [MoreExamples.march_year; MoreExamples.march_quarter]
  /\ FinancilasShape.expected_rows (R := Reference.runtime)
       MoreExamples.march_header MoreExamples.march_twice
     = [MoreExamples.march_year; MoreExamples.march_quarter]
  /\ Financilas.period MoreExamples.march_year = 4
  /\ Financilas.period MoreExamples.march_quarter = 1.
Proof. repeat split; vm_compute; reflexivity. Qed.

(** The quarterly entry of 31 October 2023 gives the record of its one
    metric, with period 4. *)
Lemma quarter_from_date_range_witness :
  Financilas.quarter_from_date (mkdate 2023 10 31) = 4
  /\ Financilas.date_group_rows (R := Reference.runtime)
       (Financilas.mkheader Examples.acme JNull JNull JNull) "IS" "quarterly"
       ("2023-10-31 00:00:00", JObj [("TotalRevenue", JInt 5)])
     = Ok [Examples.october_row]
  /\ Financilas.period Examples.october_row = 4.
Proof.
  destruct (quarter_from_date_range (R := Reference.runtime)
              "2023-10-31 00:00:00" (mkdate 2023 10 31))
    as (_ & _ & _ & _ & _ & Hq & Hrows).
  { vm_compute. reflexivity. }
  split; [apply Hq; cbn; lia|].
  split; [|reflexivity].
  destruct (Hrows (Financilas.mkheader Examples.acme JNull JNull JNull) "IS"
              (JObj [("TotalRevenue", JInt 5)]) eq_refl) as (Hquarterly & _).
  rewrite Hquarterly. reflexivity.
Defined.


(** The table that [details.py] creates has the columns that
    [Financilas.py] looks for: [symbol] and [payload]. *)
Lemma financials_columns_found_witness :
  In "symbol" MoreExamples.yahoo_financials_columns
  /\ In "payload" MoreExamples.yahoo_financials_columns
  /\ In "symbol" FinancilasMain.symbol_candidates
  /\ In "payload" FinancilasMain.json_candidates
  /\ (forall c, In c (before "symbol" FinancilasMain.symbol_candidates) ->
                ~ In c MoreExamples.yahoo_financials_columns)
  /\ (forall c, In c (before "payload" FinancilasMain.json_candidates) ->
                ~ In c MoreExamples.yahoo_financials_columns).
Proof.
  apply (proj1 (financials_columns_found MoreExamples.yahoo_financials_columns)).
  reflexivity.
Defined.

Lemma summary_columns_found_witness :
  In "payload" MoreExamples.yahoo_financials_columns
  /\ In "payload" SummaryMain.json_candidates
  /\ (forall c, In c (before "payload" SummaryMain.json_candidates) ->
                ~ In c MoreExamples.yahoo_financials_columns)
  /\ In "symbol" MoreExamples.yahoo_financials_columns
     /\ In "symbol" SummaryMain.symbol_candidates
     /\ (forall c, In c (before "symbol" SummaryMain.symbol_candidates) ->
                   ~ In c MoreExamples.yahoo_financials_columns).
Proof.
  apply (proj1 (summary_columns_found MoreExamples.yahoo_financials_columns)
           (Some "symbol") "payload").
  reflexivity.
Defined.

Lemma symbol_column_is_a_column_witness :
  In "symbol" MoreExamples.csv_columns
  /\ ((In "symbol" Loader.symbol_candidates
       /\ forall c', In c' (before "symbol" Loader.symbol_candidates) ->
                     ~ In c' MoreExamples.csv_columns)
      \/ ((forall c', In c' Loader.symbol_candidates ->
                      ~ In c' MoreExamples.csv_columns)
          /\ hd_error MoreExamples.csv_columns = Some "symbol")).
Proof.
  apply (proj1 (symbol_column_is_a_column MoreExamples.csv_columns)).
  reflexivity.
Defined.

Lemma line_items_well_formed_witness :
  (forall r, In r [Examples.october_row] ->
     Financilas.stock r = Examples.acme
     /\ In (Financilas.statement_type r) ["CF"; "IS"; "BS"]
     /\ Financilas.metric r <> ""
     /\ is_dict_or_list (Financilas.value r) = false
     /\ (forall f, Financilas.value r = JFloat f -> isnan f = false /\ isinf f = false)
     /\ valid_date (Financilas.statement_date r) = true
     /\ Financilas.calendar_year r = year (Financilas.statement_date r)
     /\ 1 <= Financilas.period r <= 4)
  /\ (forall r r', In r [Examples.october_row] -> In r' [Examples.october_row] ->
        Financilas.yf_name r = Financilas.yf_name r'
        /\ Financilas.stockcurrency r = Financilas.stockcurrency r'
        /\ Financilas.financialcurrency r = Financilas.financialcurrency r').
Proof.
  apply (line_items_well_formed (R := Reference.runtime)
           Examples.acme Examples.october_quarter [Examples.october_row]).
  vm_compute. reflexivity.
Defined.

Lemma every_scalar_metric_has_a_row_witness :
  exists r,
    In r [Examples.october_row]
    /\ Financilas.stock r = Examples.acme
    /\ Financilas.statement_type r = "IS"
    /\ Financilas.metric r = "TotalRevenue"
    /\ Financilas.statement_date r = mkdate 2023 10 31
    /\ Financilas.value r = Financilas.finite_or_none (JInt 5)
    /\ Financilas.calendar_year r = year (mkdate 2023 10 31)
    /\ Financilas.period r
       = (if String.eqb "quarterly" "yearly" then 4
          else Financilas.quarter_from_date (mkdate 2023 10 31)).
Proof.
  apply (every_scalar_metric_has_a_row (R := Reference.runtime)
           Examples.acme Examples.october_quarter [Examples.october_row]
           "incomestatement" "IS" "quarterly" "2023-10-31 00:00:00"
           [("2023-10-31 00:00:00", JObj [("TotalRevenue", JInt 5)])]
           [("TotalRevenue", JInt 5)]
           (JObj [("TotalRevenue", JInt 5)]) (JInt 5) (mkdate 2023 10 31)
           "TotalRevenue").
  - vm_compute. reflexivity.
  - cbn. auto.
  - right. reflexivity.
  - reflexivity.
  - left. reflexivity.
  - vm_compute. reflexivity.
  - reflexivity.
  - left. reflexivity.
  - discriminate.
  - reflexivity.
Defined.

Lemma timestamp_key_reads_back_witness :
  Financilas.parse_date (R := Reference.runtime)
    (Frames._str_key (Frames.Timestamp (mkdate 2023 12 31) "00:00:00"))
  = Some (mkdate 2023 12 31)
  /\ Financilas.strptime_ymd
       (PyStr.take 10 (Frames._str_key (Frames.Timestamp (mkdate 2023 12 31) "00:00:00")))
     = Some (mkdate 2023 12 31).
Proof.
  apply (timestamp_key_reads_back (R := Reference.runtime)
           (mkdate 2023 12 31) "00:00:00").
  reflexivity.
Defined.

(** The key written for 31 December 2023. *)
Example timestamp_key :
  Frames._str_key (Frames.Timestamp (mkdate 2023 12 31) "00:00:00")
  = "2023-12-31 00:00:00".
Proof. reflexivity. Qed.

Lemma parse_json_value_decodes_witness :
  parse_json_value (R := Reference.runtime)
    (ColValue (JStr (Examples.quoted "[1]")))
  = JArr [JInt 1].
Proof.
  destruct (parse_json_value_decodes (R := Reference.runtime))
    as (_ & _ & H & _).
  rewrite (H (ColValue (JStr (Examples.quoted "[1]"))) (Examples.quoted "[1]") "[1]");
    [|reflexivity|vm_compute; reflexivity].
  vm_compute. reflexivity.
Defined.

(** A stored JSON string literal that holds the text of a list comes back
    as that list, on which the statement normalizer raises; the stored
    text of the list itself comes back as the empty dictionary. *)
Example stored_list_is_no_dictionary :
  parse_json_value (R := Reference.runtime) (ColValue (JStr (Examples.quoted "[1]")))
  = JArr [JInt 1]
  /\ Financilas.normalize_financials (R := Reference.runtime) Examples.acme
       (JArr [JInt 1]) = Raise AttributeError
  /\ parse_json_value (R := Reference.runtime) (ColValue (JStr "[1]")) = JObj [].
Proof. repeat split; vm_compute; reflexivity. Qed.

Lemma extract_from_summary_fields_witness :
  lacks "," "Dallas" = true /\ lacks "." "Dallas" = true
  /\ PyStr.strip "Dallas" = "Dallas".
Proof.
  pose proof (extract_from_summary_fields
                (Some "Acme Corp. is headquartered in Dallas, Texas.")) as H.
  cbv zeta in H. destruct H as (_ & _ & _ & H & _).
  apply (H "Dallas"). vm_compute. reflexivity.
Defined.

Lemma clean_text_idempotent_below_cut_witness :
  Summary.clean_str (Summary.clean_str "  Acme   Corp ")
  = Summary.clean_str "  Acme   Corp "
  /\ (Summary.clean_str "  Acme   Corp " <> "" ->
      Summary.clean_text (JStr (Summary.clean_str "  Acme   Corp "))
      = Ok (Some (Summary.clean_str "  Acme   Corp ")))
  /\ (Summary.clean_str "  Acme   Corp " = "" ->
      Summary.clean_text (JStr (Summary.clean_str "  Acme   Corp ")) = Ok None).
Proof.
  apply (clean_text_idempotent_below_cut "  Acme   Corp ").
  vm_compute. discriminate.
Defined.

Lemma fetched_symbols_witness :
  In "AAPL" (LoaderMain.to_fetch (LoaderMain.symbols_of MoreExamples.symbol_cells)
               ["MSFT"]).
Proof.
  pose proof (fetched_symbols MoreExamples.symbol_cells ["MSFT"]) as H.
  cbv zeta in H. destruct H as (_ & H & _).
  apply (H "AAPL"). split; [discriminate|]. split.
  - intros [E|[]]. discriminate E.
  - exists " AAPL ". split; [left; reflexivity|reflexivity].
Defined.

(** The symbols fetched for that column when [MSFT] is in the table. *)
Example fetched_once :
  LoaderMain.to_fetch (LoaderMain.symbols_of MoreExamples.symbol_cells) ["MSFT"]
  = ["AAPL"]
  /\ LoaderMain.symbols_of MoreExamples.symbol_cells = ["AAPL"; "MSFT"].
Proof. split; reflexivity. Qed.

Lemma loaded_symbols_were_committed_witness :
  let run := LoaderMain.loop MoreExamples.fetch_ok MoreExamples.insert_but_msft
               MoreExamples.commit_ok MoreExamples.rollback_ok in
  let start := LoaderMain.mkprogress tt ([] : list string) 0 in
  run start ["AAPL"] = LoaderMain.mkprogress tt ["AAPL"] 0
  /\ LoaderMain.loaded_ok (run start ["AAPL"; "MSFT"]) = ["AAPL"]
  /\ LoaderMain.failed (run start ["AAPL"; "MSFT"]) = 1
  /\ LoaderMain.insert_symbol_payload MoreExamples.insert_but_msft
       MoreExamples.commit_ok MoreExamples.rollback_ok tt "MSFT" tt
     = (tt, Some RuntimeError).
Proof.
  cbv zeta.
  destruct (loaded_symbols_were_committed unit unit MoreExamples.fetch_ok
              MoreExamples.insert_but_msft MoreExamples.commit_ok
              MoreExamples.rollback_ok ["AAPL"; "MSFT"]
              (LoaderMain.mkprogress tt [] 0)) as (_ & Hstep & Hinsert & _).
  cbv zeta in Hstep.
  destruct (Hstep [] "AAPL" ["MSFT"] eq_refl) as (Hfirst & _).
  destruct (Hstep ["AAPL"] "MSFT" [] eq_refl) as (_ & Hsecond).
  split; [exact (Hfirst tt tt tt eq_refl eq_refl eq_refl)|].
  destruct Hsecond as (Hl & Hf).
  { intros p c1 c2 _ H _. discriminate H. }
  split; [exact Hl|]. split; [exact Hf|].
  exact (Hinsert tt "MSFT" tt tt 1062 tt eq_refl eq_refl).
Defined.

(** When it is the network that fails for [MSFT], [AAPL] is recorded and
    [MSFT] is counted as failed as well. *)
Example one_loaded_one_failed :
  let st' := LoaderMain.loop MoreExamples.fetch_but_msft MoreExamples.insert_ok
               MoreExamples.commit_ok MoreExamples.rollback_ok
               (LoaderMain.mkprogress tt [] 0) ["AAPL"; "MSFT"] in
  LoaderMain.loaded_ok st' = ["AAPL"] /\ LoaderMain.failed st' = 1.
Proof. split; reflexivity. Qed.

Lemma loader_payload_is_accepted_witness :
  exists payload,
    Frames.fetch_for_symbol (R := Reference.runtime) MoreExamples.unchanged
      MoreExamples.type_name MoreExamples.acme_ticker = Ok payload
    /\ Frames.holds_long_int payload = false
    /\ exists info cy cq bY bq iy iq,
         let document :=
           JObj [("info", JObj info);
                 ("cashflow", JObj [("yearly", JObj cy); ("quarterly", JObj cq)]);
                 ("balancesheet", JObj [("yearly", JObj bY); ("quarterly", JObj bq)]);
                 ("incomestatement", JObj [("yearly", JObj iy); ("quarterly", JObj iq)])] in
         Frames.to_json payload = Some document
         /\ Forall (fun frame : list (string * json) =>
                      forall k x, In (k, x) frame -> exists c, x = JObj c)
                   [cy; cq; bY; bq; iy; iq]
         /\ FinancilasShape.well_shaped (R := Reference.runtime) document = true
         /\ forall symbol,
              exists rows,
                Financilas.normalize_financials (R := Reference.runtime)
                  symbol document = Ok rows.
Proof.
  eexists. split; [vm_compute; reflexivity|].
  split; [vm_compute; reflexivity|].
  apply (loader_payload_is_accepted (R := Reference.runtime) MoreExamples.unchanged
           MoreExamples.type_name MoreExamples.acme_ticker).
  - vm_compute. reflexivity.
  - vm_compute. reflexivity.
Defined.

(** An [int] of 4301 digits in [info] passes the sanitizer and is refused
    by [json.dumps]. *)
Example long_int_is_not_written :
  match Frames.fetch_for_symbol (R := Reference.runtime) MoreExamples.unchanged
          MoreExamples.type_name MoreExamples.long_ticker with
  | Ok payload => Frames.holds_long_int payload = true /\ Frames.to_json payload = None
  | Raise _ => False
  end.
Proof. vm_compute. split; reflexivity. Qed.

(** The rows that the statement normalizer makes of what the loader
    stored for that ticker: the missing cell has become a null value. *)
Example loader_to_rows :
  match Frames.fetch_for_symbol (R := Reference.runtime) MoreExamples.unchanged
          MoreExamples.type_name MoreExamples.acme_ticker with
  | Ok payload =>
      match Frames.to_json payload with
      | Some j =>
          Financilas.normalize_financials (R := Reference.runtime) Examples.acme j
      | None => Raise TypeError
      end
  | Raise e => Raise e
  end
  = Ok [Financilas.mkitem Examples.acme (JStr "Acme Corp") "CF" "FreeCashFlow"
          JNull JNull 2023 4 (JFloat MoreExamples.hundred) (mkdate 2023 12 31);
        Financilas.mkitem Examples.acme (JStr "Acme Corp") "CF" "CapEx"
          JNull JNull 2023 4 JNull (mkdate 2023 12 31)].
Proof. vm_compute. reflexivity. Qed.
